(** * RSocket connection state machine: a shallow embedding

    The development follows [rsocket/statemachine/RSocketStateMachine.cpp]
    (module [RSocketStateMachine]) and the earlier [ConnectionAutomaton]
    (module [ConnectionAutomaton]).

    Conventions of the embedding.
    - Every member function becomes a function on the record of member
      variables.  A function that may dereference a null pointer or fail a
      [CHECK] returns [option]: [None] is the aborted process.
    - [DCHECK]s are compiled out (release build); each one is recalled in a
      comment where it stands in the source.
    - Collaborators that live outside the file (statistics, connection
      events, resume callback, keepalive timer, frame transport, stream
      automata, responder) are called through pointers; a call is recorded,
      in program order, in the [events_] field of the state.  Calls are not
      re-entrant in [RSocketStateMachine]: the transport hands frames and
      terminal signals to the executor ([processFrame], [onTerminal]), which
      runs them later.  In [ConnectionAutomaton] they run at once, so what the
      transport delivers inside [setFrameProcessor] is an argument of
      [connect].
    - What a collaborator does inside a call is not part of the function
      that makes the call: a stream automaton that ends its stream or writes
      a frame does so through a member function ([onStreamClosed], the
      writers), which is a call of its own.
    - A reference that may be null ([yarpl::Reference], [std::shared_ptr],
      [std::unique_ptr]) and is [CHECK]ed or dereferenced is an [option].
      Whether a transport is closed ([FrameTransport::isClosed()]) is asked of
      the transport, which lives outside the sources: the answer is a
      function of the calls made so far.
    - [std::unique_ptr] / [std::shared_ptr] members that may be null are
      [option]s. *)

From stdpp Require Import gmap strings list fin_maps pretty.

Local Open Scope string_scope.

(** ** Vocabulary shared by both state machines *)

Abbreviation StreamId := N (only parsing).           (* uint32_t *)
Abbreviation ResumePosition := Z (only parsing).     (* int64_t *)
Abbreviation IOBuf := (list Byte.byte) (only parsing).
                                     (* folly::IOBuf, a serialized frame *)
Abbreviation FrameFlags := N (only parsing).  (* enum class FrameFlags : uint16_t *)

Inductive FrameType :=
| RESERVED | SETUP | LEASE | KEEPALIVE
| REQUEST_RESPONSE | REQUEST_FNF | REQUEST_STREAM | REQUEST_CHANNEL
| REQUEST_N | CANCEL | PAYLOAD | ERROR
| METADATA_PUSH | RESUME | RESUME_OK | EXT
| FrameType_other (raw : N).  (* any value that is not an enumerator *)

Inductive ErrorCode :=
| EC_RESERVED | EC_APPLICATION_ERROR | EC_REJECTED | EC_CANCELED | EC_INVALID
| EC_INVALID_SETUP | EC_REJECTED_SETUP | EC_UNSUPPORTED_SETUP
| EC_REJECTED_RESUME | EC_CONNECTION_ERROR
| ErrorCode_other (raw : N).

Inductive StreamCompletionSignal :=
| SIG_COMPLETE | SIG_CANCEL | SIG_APPLICATION_ERROR | SIG_ERROR
| SIG_INVALID_SETUP | SIG_UNSUPPORTED_SETUP | SIG_REJECTED_SETUP
| SIG_CONNECTION_ERROR | SIG_CONNECTION_END | SIG_SOCKET_CLOSED.

Inductive ReactiveSocketMode := CLIENT | SERVER.

Inductive StreamType := ST_CHANNEL | ST_STREAM | ST_REQUEST_RESPONSE | ST_FNF.

#[global] Instance FrameType_eq_dec : EqDecision FrameType.
Proof. solve_decision. Defined.
#[global] Instance ErrorCode_eq_dec : EqDecision ErrorCode.
Proof. solve_decision. Defined.
#[global] Instance StreamCompletionSignal_eq_dec :
  EqDecision StreamCompletionSignal.
Proof. solve_decision. Defined.
#[global] Instance ReactiveSocketMode_eq_dec : EqDecision ReactiveSocketMode.
Proof. solve_decision. Defined.

(** [struct ProtocolVersion { uint16_t major, minor; }], ordered
    lexicographically. *)
Record ProtocolVersion := { major : N; minor : N }.

#[global] Instance ProtocolVersion_eq_dec : EqDecision ProtocolVersion.
Proof. solve_decision. Defined.

Definition ProtocolVersion_gt (a b : ProtocolVersion) : bool :=
  (major b <? major a)%N || ((major a =? major b)%N && (minor b <? minor a)%N).

(** [struct Payload { unique_ptr<IOBuf> data; unique_ptr<IOBuf> metadata; }] *)
Record Payload := { data : option IOBuf; metadata : option IOBuf }.

Definition Payload_of_string (m : string) : Payload :=
  {| data := Some (String.list_byte_of_string m); metadata := None |}.

(** [Payload::moveDataToString]: the text of the data, which is moved out
    of the payload (a buffer that was there is left empty). *)
Definition moveDataToString (p : Payload) : string * Payload :=
  match data p with
  | Some d =>
      (String.string_of_list_byte d,
       {| data := Some []; metadata := metadata p |})
  | None => ("", p)
  end.

(** Exceptions, and [folly::exception_wrapper], which may be empty. *)
Inductive Exception :=
| runtime_error (what : string)
| ConnectionException (what : string)
| ResumptionException (what : string).

Definition exception_wrapper := option Exception.

Definition what (e : Exception) : string :=
  match e with
  | runtime_error w | ConnectionException w | ResumptionException w => w
  end.

#[global] Instance Exception_eq_dec : EqDecision Exception.
Proof. solve_decision. Defined.

(** *** Frames (the structs of [Frame.h], as this code reads and builds them) *)

Record Frame_KEEPALIVE :=
  { ka_flags_ : FrameFlags; ka_position_ : ResumePosition; ka_data_ : IOBuf }.
Record Frame_METADATA_PUSH := { mp_metadata_ : IOBuf }.
Record Frame_RESUME_OK := { ok_position_ : ResumePosition }.
Record Frame_ERROR :=
  { err_streamId_ : StreamId; errorCode_ : ErrorCode; err_payload_ : Payload }.
Record Frame_REQUEST_N := { rn_streamId_ : StreamId; rn_requestN_ : N }.
Record Frame_PAYLOAD :=
  { pl_streamId_ : StreamId; pl_flags_ : FrameFlags; pl_payload_ : Payload }.
Record Frame_REQUEST_Base :=
  { rq_streamId_ : StreamId; rq_flags_ : FrameFlags; rq_requestN_ : N;
    rq_payload_ : Payload }.
Record Frame_RESUME :=
  { rs_token_ : list Byte.byte;
    rs_lastReceivedServerPosition_ : ResumePosition;
    rs_clientPosition_ : ResumePosition;
    rs_version_ : ProtocolVersion }.

(** [Frame_SETUP], with the fields in the order of the constructor call in
    [connectClientSendSetup], and the [SetupParameters] that call reads. *)
Record Frame_SETUP :=
  { su_flags_ : FrameFlags; su_versionMajor_ : N; su_versionMinor_ : N;
    su_keepaliveTime_ : N; su_maxLifetime_ : N;
    su_token_ : list Byte.byte;
    su_metadataMimeType_ : string; su_dataMimeType_ : string;
    su_payload_ : Payload }.

Record SetupParameters :=
  { sp_resumable : bool; sp_protocolVersion : ProtocolVersion;
    sp_token : list Byte.byte;
    sp_metadataMimeType : string; sp_dataMimeType : string;
    sp_payload : Payload }.

(** The frames handed to the [outputFrameOrEnqueue(Frame&&)] overloads. *)
Inductive Frame :=
| F_ERROR (f : Frame_ERROR)
| F_RESUME_OK (f : Frame_RESUME_OK)
| F_RESUME (f : Frame_RESUME)
| F_METADATA_PUSH (f : Frame_METADATA_PUSH)
| F_REQUEST_N (f : Frame_REQUEST_N)
| F_CANCEL (streamId : StreamId)
| F_PAYLOAD (f : Frame_PAYLOAD)
| F_REQUEST_CHANNEL (f : Frame_REQUEST_Base)
| F_REQUEST_STREAM (f : Frame_REQUEST_Base)
| F_REQUEST_RESPONSE (f : Frame_REQUEST_Base)
| F_REQUEST_FNF (f : Frame_REQUEST_Base).

(** Modelled from the spec: the factory functions of [Frame_ERROR]
    ([Frame.cpp] is not part of the sources).  Scenario 5 of the spec shows a
    connection error as ERROR(stream 0, CONNECTION_ERROR, message). *)
Definition Frame_ERROR_connectionError (m : string) : Frame_ERROR :=
  {| err_streamId_ := 0%N; errorCode_ := EC_CONNECTION_ERROR;
     err_payload_ := Payload_of_string m |}.

(** Modelled from the spec: [Frame_ERROR::invalid] and
    [Frame_ERROR::applicationError], stream-level ERROR frames. *)
Definition Frame_ERROR_invalid (streamId : StreamId) (m : string) : Frame_ERROR :=
  {| err_streamId_ := streamId; errorCode_ := EC_INVALID;
     err_payload_ := Payload_of_string m |}.

Definition Frame_ERROR_applicationError (streamId : StreamId) (m : string)
  : Frame_ERROR :=
  {| err_streamId_ := streamId; errorCode_ := EC_APPLICATION_ERROR;
     err_payload_ := Payload_of_string m |}.

(** Modelled from the spec: [operator<<] for [FrameType] prints the name of
    the frame kind (scenario 5: "Unexpected PAYLOAD ..."). *)
Definition FrameType_show (t : FrameType) : string :=
  match t with
  | RESERVED => "RESERVED" | SETUP => "SETUP" | LEASE => "LEASE"
  | KEEPALIVE => "KEEPALIVE" | REQUEST_RESPONSE => "REQUEST_RESPONSE"
  | REQUEST_FNF => "REQUEST_FNF" | REQUEST_STREAM => "REQUEST_STREAM"
  | REQUEST_CHANNEL => "REQUEST_CHANNEL" | REQUEST_N => "REQUEST_N"
  | CANCEL => "CANCEL" | PAYLOAD => "PAYLOAD" | ERROR => "ERROR"
  | METADATA_PUSH => "METADATA_PUSH" | RESUME => "RESUME"
  | RESUME_OK => "RESUME_OK" | EXT => "EXT"
  | FrameType_other raw => "UNKNOWN_FRAME_TYPE[" ++ pretty raw ++ "]"
  end.

(** *** The frame serializer, an abstract class ([FrameSerializer.h]) *)

Record FrameSerializer := {
  protocolVersion : ProtocolVersion;
  peekFrameType : IOBuf → FrameType;
  peekStreamId : IOBuf → option StreamId;
  serializeOut : Frame → IOBuf;
  serializeOut_KEEPALIVE : Frame_KEEPALIVE → bool → IOBuf;
  deserializeFrom_KEEPALIVE : bool → IOBuf → option Frame_KEEPALIVE;
  deserializeFrom_METADATA_PUSH : IOBuf → option Frame_METADATA_PUSH;
  deserializeFrom_RESUME_OK : IOBuf → option Frame_RESUME_OK;
  deserializeFrom_RESUME : IOBuf → option Frame_RESUME;
  deserializeFrom_ERROR : IOBuf → option Frame_ERROR;
  deserializeFrom_REQUEST_N : IOBuf → option Frame_REQUEST_N;
  deserializeFrom_PAYLOAD : IOBuf → option Frame_PAYLOAD;
  deserializeFrom_REQUEST_CHANNEL : IOBuf → option Frame_REQUEST_Base;
  deserializeFrom_REQUEST_STREAM : IOBuf → option Frame_REQUEST_Base;
  deserializeFrom_REQUEST_RESPONSE : IOBuf → option Frame_REQUEST_Base;
  deserializeFrom_REQUEST_FNF : IOBuf → option Frame_REQUEST_Base;
}.

(** A smart pointer used as a condition. *)
Definition non_null {A} (p : option A) : bool :=
  match p with Some _ => true | None => false end.

(** [!!(flags & bit)] *)
Definition flag_set (flags bit : FrameFlags) : bool :=
  negb (N.land flags bit =? 0)%N.

(** *** The resume manager, an abstract class ([ResumeManager.h]) *)

Class ResumeManager (RM : Type) := {
  trackReceivedFrame : IOBuf → FrameType → StreamId → RM → RM;
  trackSentFrame : IOBuf → FrameType → option StreamId → RM → RM;
  resetUpToPosition : ResumePosition → RM → RM;
  isPositionAvailable : ResumePosition → RM → bool;
  (* the cached frames that [sendFramesFromPosition] writes to the transport *)
  sendFramesFromPosition : ResumePosition → RM → list IOBuf;
  firstSentPosition : RM → ResumePosition;
  lastSentPosition : RM → ResumePosition;
  impliedPosition : RM → ResumePosition;
  onStreamClosed : StreamId → RM → RM;
}.

(** References to collaborators. *)
Abbreviation FrameTransport := nat (only parsing).
Abbreviation ClientResumeStatusCallback := nat (only parsing).
Abbreviation RSocketConnectionEvents := nat (only parsing).
Abbreviation KeepaliveTimer := nat (only parsing).

(** A stream automaton, known to the connection only by reference; the
    reference records how the automaton was made (the initial request-n is
    0 where the kind has none). *)
Inductive StreamKind :=
| ChannelResponder | StreamResponder | RequestResponseResponder
| ChannelRequester | StreamRequester | RequestResponseRequester.

Record StreamStateMachineBase :=
  { sm_kind : StreamKind; sm_streamId : StreamId; sm_initialRequestN : N }.

#[global] Instance StreamKind_eq_dec : EqDecision StreamKind.
Proof. solve_decision. Defined.
#[global] Instance StreamStateMachineBase_eq_dec :
  EqDecision StreamStateMachineBase.
Proof. solve_decision. Defined.

(** Calls made on collaborators. *)
Inductive Event :=
(* RSocketStats *)
| Stats_socketCreated
| Stats_socketClosed (signal : StreamCompletionSignal)
| Stats_socketDisconnected
| Stats_frameRead (t : FrameType)
| Stats_frameWritten (t : FrameType)
(* RSocketConnectionEvents *)
| Events_onConnected (c : RSocketConnectionEvents)
| Events_onDisconnected (c : RSocketConnectionEvents) (ex : exception_wrapper)
| Events_onClosed (c : RSocketConnectionEvents) (ex : exception_wrapper)
| Events_onStreamsPaused (c : RSocketConnectionEvents)
| Events_onStreamsResumed (c : RSocketConnectionEvents)
(* ClientResumeStatusCallback *)
| Resume_onResumeOk (cb : ClientResumeStatusCallback)
| Resume_onResumeError (cb : ClientResumeStatusCallback) (ex : Exception)
(* KeepaliveTimer *)
| Keepalive_start
| Keepalive_stop
| Keepalive_keepaliveReceived
(* FrameTransport *)
| Transport_setFrameProcessor (t : FrameTransport)
| Transport_outputFrameOrEnqueue (t : FrameTransport) (frame : IOBuf)
| Transport_close (t : FrameTransport)
| Transport_closeWithError (t : FrameTransport) (ex : exception_wrapper)
(* StreamStateMachineBase *)
| Stream_endStream (sm : StreamStateMachineBase) (signal : StreamCompletionSignal)
| Stream_handleRequestN (sm : StreamStateMachineBase) (n : N)
| Stream_handleCancel (sm : StreamStateMachineBase)
| Stream_handlePayload (sm : StreamStateMachineBase) (p : Payload)
    (complete next : bool)
| Stream_handleError (sm : StreamStateMachineBase) (ex : Exception)
| Stream_subscribe (sm : StreamStateMachineBase)
| Stream_onCleanResume (sm : StreamStateMachineBase)
| Stream_onDirtyResume (sm : StreamStateMachineBase)
| Stream_onNextFrame (sm : StreamStateMachineBase) (frame : IOBuf)
(* RSocketResponder, and the factory callback of the older automaton *)
| Responder_handleMetadataPush (md : IOBuf)
| Responder_handleRequestChannelCore (p : Payload) (streamId : StreamId)
| Responder_handleRequestStreamCore (p : Payload) (streamId : StreamId)
| Responder_handleRequestResponseCore (p : Payload) (streamId : StreamId)
| Responder_handleFireAndForget (p : Payload) (streamId : StreamId)
| Factory_call (streamId : StreamId) (frame : IOBuf)
(* the older automaton: argument-free callbacks and statistics *)
| Callback_onConnected
| Callback_onDisconnected
| Callback_onClosed
| Stats_socketClosed0
| Resume_onConnectionError (cb : ClientResumeStatusCallback) (ex : Exception)
| Transport_closeEx (t : FrameTransport) (ex : exception_wrapper).

(** The events that hand an inbound frame to a stream automaton or to the
    responder. *)
Definition is_delivery (e : Event) : bool :=
  match e with
  | Stream_handleRequestN _ _ | Stream_handleCancel _
  | Stream_handlePayload _ _ _ _ | Stream_handleError _ _
  | Stream_subscribe _ | Stream_onNextFrame _ _
  | Responder_handleMetadataPush _
  | Responder_handleRequestChannelCore _ _
  | Responder_handleRequestStreamCore _ _
  | Responder_handleRequestResponseCore _ _
  | Responder_handleFireAndForget _ _
  | Factory_call _ _ => true
  | _ => false
  end.

Definition is_onClosed (e : Event) : bool :=
  match e with Events_onClosed _ _ => true | _ => false end.

Definition is_endStream_of (streamId : StreamId) (e : Event) : bool :=
  match e with
  | Stream_endStream sm _ => bool_decide (sm_streamId sm = streamId)
  | _ => false
  end.

Definition sent_frames (t : FrameTransport) (es : list Event) : list IOBuf :=
  omap (λ e, match e with
             | Transport_outputFrameOrEnqueue t' f =>
                 if decide (t' = t) then Some f else None
             | _ => None
             end) es.

(** The calls that close the transport [t]. *)
Definition is_close_of (t : FrameTransport) (e : Event) : bool :=
  match e with
  | Transport_close t' | Transport_closeWithError t' _
  | Transport_closeEx t' _ => bool_decide (t' = t)
  | _ => false
  end.

Definition closed_by_calls (t : FrameTransport) (es : list Event) : bool :=
  existsb (is_close_of t) es.

(** Declarations the sources use but do not contain: flag bits, the
    position sentinel, the unknown protocol version, the serializer
    factories, and [FrameTransport::isClosed()].  [FrameTransport.cpp] is not
    part of the sources: the transport answers from the calls made so far (it
    may be closed for reasons of its own), and a transport that was closed
    by a call is closed. *)
Class Declarations := {
  FrameFlags_EMPTY : FrameFlags;
  FrameFlags_KEEPALIVE_RESPOND : FrameFlags;
  FrameFlags_NEXT : FrameFlags;
  FrameFlags_COMPLETE : FrameFlags;
  kUnspecifiedResumePosition : ResumePosition;
  ProtocolVersion_Unknown : ProtocolVersion;
  createFrameSerializer : ProtocolVersion → option FrameSerializer;
  createAutodetectedSerializer : IOBuf → option FrameSerializer;
  Frame_ERROR_unexpectedFrame : Frame_ERROR;
  FrameTransport_isClosed : FrameTransport → list Event → bool;
  FrameTransport_isClosed_after_close t es :
    closed_by_calls t es = true → FrameTransport_isClosed t es = true;
}.

(** Modelled from the spec: the streams factory ([StreamsFactory.cpp] is not
    part of the sources).  It allocates local stream ids in steps of two and
    registers a peer-initiated id only if it has the peer's parity and is
    greater than the last peer id. *)
Record StreamsFactory :=
  { nextStreamId_ : StreamId; lastPeerStreamId_ : StreamId }.

Definition StreamsFactory_init (mode : ReactiveSocketMode) : StreamsFactory :=
  {| nextStreamId_ := match mode with CLIENT => 1 | SERVER => 2 end%N;
     lastPeerStreamId_ := 0%N |}.

Definition registerNewPeerStreamId (streamId : StreamId) (f : StreamsFactory)
  : bool * StreamsFactory :=
  if (N.modulo (nextStreamId_ f) 2 =? N.modulo streamId 2)%N then (false, f)
  else if (streamId <=? lastPeerStreamId_ f)%N then (false, f)
  else (true, {| nextStreamId_ := nextStreamId_ f;
                 lastPeerStreamId_ := streamId |}).

Definition getNextStreamId (f : StreamsFactory) : StreamId * StreamsFactory :=
  (nextStreamId_ f, {| nextStreamId_ := (nextStreamId_ f + 2)%N;
                       lastPeerStreamId_ := lastPeerStreamId_ f |}).

(** ** [RSocketStateMachine] *)

Module RSocketStateMachine.
Section WithCollaborators.
Context `{Declarations} {RM : Type} `{ResumeManager RM}.

(** The member variables.  [streams_] and [outputFrames_] are the two fields
    of [streamState_] this file touches; [events_] is the record of calls
    made on collaborators. *)
Record State := {
  mode_ : ReactiveSocketMode;
  isResumable_ : bool;
  remoteResumeable_ : bool;
  isClosed_ : bool;
  streams_ : gmap N StreamStateMachineBase;
  outputFrames_ : list IOBuf;
  resumeManager_ : RM;
  keepaliveTimer_ : option KeepaliveTimer;
  resumeCallback_ : option ClientResumeStatusCallback;
  frameTransport_ : option FrameTransport;
  frameSerializer_ : option FrameSerializer;
  streamsFactory_ : StreamsFactory;
  connectionEvents_ : option RSocketConnectionEvents;
  events_ : list Event;
}.

Definition set_isResumable_ (v : bool) (s : State) : State :=
  Build_State (mode_ s) v (remoteResumeable_ s) (isClosed_ s) (streams_ s)
    (outputFrames_ s) (resumeManager_ s) (keepaliveTimer_ s)
    (resumeCallback_ s) (frameTransport_ s) (frameSerializer_ s)
    (streamsFactory_ s) (connectionEvents_ s) (events_ s).
Definition set_remoteResumeable_ (v : bool) (s : State) : State :=
  Build_State (mode_ s) (isResumable_ s) v (isClosed_ s) (streams_ s)
    (outputFrames_ s) (resumeManager_ s) (keepaliveTimer_ s)
    (resumeCallback_ s) (frameTransport_ s) (frameSerializer_ s)
    (streamsFactory_ s) (connectionEvents_ s) (events_ s).
Definition set_isClosed_ (v : bool) (s : State) : State :=
  Build_State (mode_ s) (isResumable_ s) (remoteResumeable_ s) v (streams_ s)
    (outputFrames_ s) (resumeManager_ s) (keepaliveTimer_ s)
    (resumeCallback_ s) (frameTransport_ s) (frameSerializer_ s)
    (streamsFactory_ s) (connectionEvents_ s) (events_ s).
Definition set_streams_ (v : gmap N StreamStateMachineBase) (s : State)
  : State :=
  Build_State (mode_ s) (isResumable_ s) (remoteResumeable_ s) (isClosed_ s) v
    (outputFrames_ s) (resumeManager_ s) (keepaliveTimer_ s)
    (resumeCallback_ s) (frameTransport_ s) (frameSerializer_ s)
    (streamsFactory_ s) (connectionEvents_ s) (events_ s).
Definition set_outputFrames_ (v : list IOBuf) (s : State) : State :=
  Build_State (mode_ s) (isResumable_ s) (remoteResumeable_ s) (isClosed_ s)
    (streams_ s) v (resumeManager_ s) (keepaliveTimer_ s)
    (resumeCallback_ s) (frameTransport_ s) (frameSerializer_ s)
    (streamsFactory_ s) (connectionEvents_ s) (events_ s).
Definition set_resumeManager_ (v : RM) (s : State) : State :=
  Build_State (mode_ s) (isResumable_ s) (remoteResumeable_ s) (isClosed_ s)
    (streams_ s) (outputFrames_ s) v (keepaliveTimer_ s)
    (resumeCallback_ s) (frameTransport_ s) (frameSerializer_ s)
    (streamsFactory_ s) (connectionEvents_ s) (events_ s).
Definition set_resumeCallback_ (v : option ClientResumeStatusCallback)
  (s : State) : State :=
  Build_State (mode_ s) (isResumable_ s) (remoteResumeable_ s) (isClosed_ s)
    (streams_ s) (outputFrames_ s) (resumeManager_ s) (keepaliveTimer_ s)
    v (frameTransport_ s) (frameSerializer_ s)
    (streamsFactory_ s) (connectionEvents_ s) (events_ s).
Definition set_frameTransport_ (v : option FrameTransport) (s : State)
  : State :=
  Build_State (mode_ s) (isResumable_ s) (remoteResumeable_ s) (isClosed_ s)
    (streams_ s) (outputFrames_ s) (resumeManager_ s) (keepaliveTimer_ s)
    (resumeCallback_ s) v (frameSerializer_ s)
    (streamsFactory_ s) (connectionEvents_ s) (events_ s).
Definition set_frameSerializer_ (v : option FrameSerializer) (s : State)
  : State :=
  Build_State (mode_ s) (isResumable_ s) (remoteResumeable_ s) (isClosed_ s)
    (streams_ s) (outputFrames_ s) (resumeManager_ s) (keepaliveTimer_ s)
    (resumeCallback_ s) (frameTransport_ s) v
    (streamsFactory_ s) (connectionEvents_ s) (events_ s).
Definition set_streamsFactory_ (v : StreamsFactory) (s : State) : State :=
  Build_State (mode_ s) (isResumable_ s) (remoteResumeable_ s) (isClosed_ s)
    (streams_ s) (outputFrames_ s) (resumeManager_ s) (keepaliveTimer_ s)
    (resumeCallback_ s) (frameTransport_ s) (frameSerializer_ s)
    v (connectionEvents_ s) (events_ s).
Definition set_connectionEvents_ (v : option RSocketConnectionEvents)
  (s : State) : State :=
  Build_State (mode_ s) (isResumable_ s) (remoteResumeable_ s) (isClosed_ s)
    (streams_ s) (outputFrames_ s) (resumeManager_ s) (keepaliveTimer_ s)
    (resumeCallback_ s) (frameTransport_ s) (frameSerializer_ s)
    (streamsFactory_ s) v (events_ s).
Definition set_events_ (v : list Event) (s : State) : State :=
  Build_State (mode_ s) (isResumable_ s) (remoteResumeable_ s) (isClosed_ s)
    (streams_ s) (outputFrames_ s) (resumeManager_ s) (keepaliveTimer_ s)
    (resumeCallback_ s) (frameTransport_ s) (frameSerializer_ s)
    (streamsFactory_ s) (connectionEvents_ s) v.

(** A call on a collaborator. *)
Definition call (e : Event) (s : State) : State :=
  set_events_ (events_ s ++ [e]) s.

(** The state the constructor leaves ([CHECK(requestResponder_)]: the
    responder is there). *)
Definition init (mode : ReactiveSocketMode) (rm : RM)
  (keepaliveTimer : option KeepaliveTimer)
  (connectionEvents : option RSocketConnectionEvents) : State :=
  {| mode_ := mode; isResumable_ := false; remoteResumeable_ := false;
     isClosed_ := false; streams_ := ∅; outputFrames_ := [];
     resumeManager_ := rm; keepaliveTimer_ := keepaliveTimer;
     resumeCallback_ := None; frameTransport_ := None;
     frameSerializer_ := None; streamsFactory_ := StreamsFactory_init mode;
     connectionEvents_ := connectionEvents;
     events_ := [Stats_socketCreated] |}.

Definition isDisconnectedOrClosed (s : State) : bool :=
  negb (non_null (frameTransport_ s)).

Definition isClosed (s : State) : bool := isClosed_ s.

Definition setResumable (resumable : bool) (s : State) : State :=
  (* DCHECK(isDisconnectedOrClosed()) *)
  set_isResumable_ resumable (set_remoteResumeable_ resumable s).

(** Modelled from the spec: the pending-output queue of [StreamState]
    ([StreamState.h] is not part of the sources): frames are buffered in call
    order and taken out all at once. *)
Definition enqueueOutputPendingFrame (frame : IOBuf) (s : State) : State :=
  set_outputFrames_ (outputFrames_ s ++ [frame]) s.

Definition moveOutputPendingFrames (s : State) : list IOBuf * State :=
  (outputFrames_ s, set_outputFrames_ [] s).

Definition outputFrame (frame : IOBuf) (s : State) : option State :=
  (* DCHECK(!isDisconnectedOrClosed()) *)
  fs ← frameSerializer_ s;
  let frameType := peekFrameType fs frame in
  let s := call (Stats_frameWritten frameType) s in
  let s :=
    if isResumable_ s then
      let streamIdPtr := peekStreamId fs frame in
      set_resumeManager_
        (trackSentFrame frame frameType streamIdPtr (resumeManager_ s)) s
    else s in
  t ← frameTransport_ s;
  Some (call (Transport_outputFrameOrEnqueue t frame) s).

Definition outputFrameOrEnqueue (frame : IOBuf) (s : State) : option State :=
  (* if we are resuming we cant send any frames until we receive RESUME_OK *)
  if negb (isDisconnectedOrClosed s) && negb (non_null (resumeCallback_ s))
  then outputFrame frame s
  else Some (enqueueOutputPendingFrame frame s).

(** Modelled from the spec: the [outputFrameOrEnqueue(TFrame&&)] template of
    [RSocketStateMachine.h] (not part of the sources): the frame is
    serialized with [frameSerializer_] and handed to the function above. *)
Definition outputFrameOrEnqueue_Frame (frame : Frame) (s : State)
  : option State :=
  fs ← frameSerializer_ s;
  outputFrameOrEnqueue (serializeOut fs frame) s.

Fixpoint outputFramesOrEnqueue (frames : list IOBuf) (s : State)
  : option State :=
  match frames with
  | [] => Some s
  | frame :: frames =>
      s ← outputFrameOrEnqueue frame s; outputFramesOrEnqueue frames s
  end.

Definition closeFrameTransport (ex : exception_wrapper)
  (signal : StreamCompletionSignal) (s : State) : State :=
  match frameTransport_ s with
  | None => s   (* DCHECK(!resumeCallback_) *)
  | Some t =>
      (* Stop scheduling keepalives since the socket is now disconnected *)
      let s := if non_null (keepaliveTimer_ s) then call Keepalive_stop s else s in
      let s :=
        match resumeCallback_ s with
        | Some cb =>
            set_resumeCallback_ None
              (call (Resume_onResumeError cb
                       (ConnectionException
                          (match ex with
                           | Some e => what e
                           | None => "connection closing"
                           end))) s)
        | None => s
        end in
      let s :=
        if decide (signal = SIG_CONNECTION_ERROR)
        then call (Transport_closeWithError t ex) s
        else call (Transport_close t) s in
      set_frameTransport_ None s
  end.

Definition endStreamInternal (streamId : StreamId)
  (signal : StreamCompletionSignal) (s : State) : bool * State :=
  match streams_ s !! streamId with
  | None =>
      (* Unsubscribe handshake initiated by the connection, we're done. *)
      (false, s)
  | Some stateMachine =>
      let s :=
        set_resumeManager_ (onStreamClosed streamId (resumeManager_ s)) s in
      (* Remove from the map before notifying the stateMachine. *)
      let s := set_streams_ (delete streamId (streams_ s)) s in
      (true, call (Stream_endStream stateMachine signal) s)
  end.

Definition endStream (streamId : StreamId) (signal : StreamCompletionSignal)
  (s : State) : State :=
  (* The signal must be idempotent. *)
  (endStreamInternal streamId signal s).2
  (* DCHECK(signal is CANCEL, COMPLETE, APPLICATION_ERROR or ERROR) *).

(** [while (!streams_.empty()) endStreamInternal(streams_.begin()->first, signal)].
    [begin()] is the first entry of [map_to_list]; every round erases one
    entry, so [size streams_] rounds are enough (lemma [closeStreams_empty]). *)
Fixpoint closeStreams_loop (fuel : nat) (signal : StreamCompletionSignal)
  (s : State) : State :=
  match fuel with
  | O => s
  | S fuel =>
      match map_to_list (streams_ s) with
      | [] => s
      | (streamId, _) :: _ =>
          closeStreams_loop fuel signal (endStreamInternal streamId signal s).2
          (* DCHECK(result); DCHECK_EQ(size, oldSize - 1) *)
      end
  end.

Definition closeStreams (signal : StreamCompletionSignal) (s : State) : State :=
  closeStreams_loop (size (streams_ s)) signal s.

Definition close (ex : exception_wrapper) (signal : StreamCompletionSignal)
  (s : State) : State :=
  if isClosed_ s then s
  else
    let s := set_isClosed_ true s in
    let s := call (Stats_socketClosed signal) s in
    let s :=
      match resumeCallback_ s with
      | Some cb =>
          set_resumeCallback_ None
            (call (Resume_onResumeError cb
                     (ConnectionException
                        (match ex with
                         | Some e => what e
                         | None => "RS closing"
                         end))) s)
      | None => s
      end in
    let connectionEvents := connectionEvents_ s in
    let s := set_connectionEvents_ None s in
    let s :=
      match connectionEvents with
      | Some c => call (Events_onClosed c ex) s
      | None => s
      end in
    let s := closeStreams signal s in
    closeFrameTransport ex signal s.

Definition disconnect (ex : exception_wrapper) (s : State) : State :=
  if isDisconnectedOrClosed s then s
  else
    let s :=
      match connectionEvents_ s with
      | Some c => call (Events_onDisconnected c ex) s
      | None => s
      end in
    let s := closeFrameTransport ex SIG_CONNECTION_END s in
    let s :=
      match connectionEvents_ s with
      | Some c => call (Events_onStreamsPaused c) s
      | None => s
      end in
    call Stats_socketDisconnected s.

Definition closeWithError (error : Frame_ERROR) (s : State) : option State :=
  let signal :=
    match errorCode_ error with
    | EC_INVALID_SETUP => SIG_INVALID_SETUP
    | EC_UNSUPPORTED_SETUP => SIG_UNSUPPORTED_SETUP
    | EC_REJECTED_SETUP => SIG_REJECTED_SETUP
    | _ => SIG_ERROR
    end in
  (* error.payload_.data->cloneAsValue() *)
  d ← data (err_payload_ error);
  let exception := runtime_error (String.string_of_list_byte d) in
  s ← (if non_null (frameSerializer_ s) then outputFrameOrEnqueue_Frame (F_ERROR error) s
       else Some s);
  Some (close (Some exception) signal s).

Definition disconnectOrCloseWithError (errorFrame : Frame_ERROR) (s : State)
  : option State :=
  if isResumable_ s then
    d ← data (err_payload_ errorFrame);
    Some (disconnect (Some (runtime_error (String.string_of_list_byte d))) s)
  else closeWithError errorFrame s.

Definition connect (frameTransport : option FrameTransport)
  (sendingPendingFrames : bool) (version : ProtocolVersion) (s : State)
  : option (bool * State) :=
  if negb (isDisconnectedOrClosed s) then None (* CHECK *)
  else
    frameTransport ← frameTransport; (* CHECK(frameTransport) *)
    if FrameTransport_isClosed frameTransport (events_ s)
    then None (* CHECK(!frameTransport->isClosed()) *)
    else
    let checked : bool * State :=
      if decide (version = ProtocolVersion_Unknown) then (true, s)
      else
        match frameSerializer_ s with
        | Some fs =>
            if decide (protocolVersion fs = version) then (true, s)
            else
              (false,
               call (Transport_closeWithError frameTransport
                       (Some (runtime_error "Protocol version mismatch"))) s)
        | None =>
            match createFrameSerializer version with
            | Some fs => (true, set_frameSerializer_ (Some fs) s)
            | None =>
                (false,
                 call (Transport_closeWithError frameTransport
                         (Some (runtime_error "Invalid protocol version"))) s)
            end
        end in
    let '(ok, s) := checked in
    if negb ok then Some (false, s)
    else
      let s := set_frameTransport_ (Some frameTransport) s in
      let s :=
        match connectionEvents_ s with
        | Some c => call (Events_onConnected c) s
        | None => s
        end in
      let s := call (Transport_setFrameProcessor frameTransport) s in
      if sendingPendingFrames then
        (* DCHECK(!resumeCallback_) *)
        let '(outputFrames, s) := moveOutputPendingFrames s in
        s ← outputFramesOrEnqueue outputFrames s;
        let s := if non_null (keepaliveTimer_ s) then call Keepalive_start s else s in
        Some (true, s)
      else Some (true, s).

Definition reconnect (newFrameTransport : option FrameTransport)
  (resumeCallback : option ClientResumeStatusCallback) (s : State)
  : option State :=
  if negb (non_null newFrameTransport) then None (* CHECK *)
  else if negb (non_null resumeCallback) then None (* CHECK *)
  else if non_null (resumeCallback_ s) then None (* CHECK *)
  else if negb (isResumable_ s) then None (* CHECK *)
  else if negb (bool_decide (mode_ s = CLIENT)) then None (* CHECK *)
  else
    let s := set_resumeCallback_ resumeCallback s in
    '(_, s) ← connect newFrameTransport false ProtocolVersion_Unknown s;
    Some s.

Definition addStream (streamId : StreamId)
  (stateMachine : StreamStateMachineBase) (s : State) : State :=
  (* emplace keeps an existing entry; DCHECK(result.second) *)
  match streams_ s !! streamId with
  | Some _ => s
  | None => set_streams_ (<[streamId := stateMachine]> (streams_ s)) s
  end.

Definition ensureOrAutodetectFrameSerializer (firstFrame : IOBuf) (s : State)
  : bool * State :=
  if non_null (frameSerializer_ s) then (true, s)
  else if negb (bool_decide (mode_ s = SERVER)) then
    (* this should never happen as clients are initized with FrameSerializer
       instance; DCHECK(false) *)
    (false, s)
  else
    match createAutodetectedSerializer firstFrame with
    | None => (false, s)
    | Some serializer => (true, set_frameSerializer_ (Some serializer) s)
    end.

(** Modelled from the spec: the [deserializeFrameOrError] templates of
    [RSocketStateMachine.h] (not part of the sources): a frame that the
    serializer cannot decode is a connection-level protocol violation, which
    goes through [closeWithError]. *)
Definition deserializeFrameOrError {T : Type}
  (deserializeFrom : FrameSerializer → IOBuf → option T) (payload : IOBuf)
  (s : State) : option (option T * State) :=
  fs ← frameSerializer_ s;
  match deserializeFrom fs payload with
  | Some frame => Some (Some frame, s)
  | None =>
      s ← closeWithError (Frame_ERROR_connectionError "Invalid frame") s;
      Some (None, s)
  end.

Definition sendKeepalive (flags : FrameFlags) (data : IOBuf) (s : State)
  : option State :=
  let pingFrame :=
    {| ka_flags_ := flags;
       ka_position_ := impliedPosition (resumeManager_ s);
       ka_data_ := data |} in
  fs ← frameSerializer_ s;
  outputFrameOrEnqueue
    (serializeOut_KEEPALIVE fs pingFrame (remoteResumeable_ s)) s.

Definition resumeFromPosition (position : ResumePosition) (s : State)
  : option State :=
  (* DCHECK(!resumeCallback_); DCHECK(!isDisconnectedOrClosed());
     DCHECK(resumeManager_->isPositionAvailable(position)) *)
  let s :=
    match connectionEvents_ s with
    | Some c => call (Events_onStreamsResumed c) s
    | None => s
    end in
  t ← frameTransport_ s;
  let s :=
    foldl (λ s frame, call (Transport_outputFrameOrEnqueue t frame) s) s
      (sendFramesFromPosition position (resumeManager_ s)) in
  let '(frames, s) := moveOutputPendingFrames s in
  s ← outputFramesOrEnqueue frames s;
  if negb (isDisconnectedOrClosed s) && non_null (keepaliveTimer_ s)
  then Some (call Keepalive_start s)
  else Some s.

Definition resumeFromPositionOrClose
  (serverPosition clientPosition : ResumePosition) (s : State)
  : option (bool * State) :=
  (* DCHECK(!resumeCallback_); DCHECK(!isDisconnectedOrClosed());
     DCHECK(mode_ == ReactiveSocketMode::SERVER) *)
  let clientPositionExist :=
    bool_decide (clientPosition = kUnspecifiedResumePosition)
    || (clientPosition <=? impliedPosition (resumeManager_ s))%Z in
  if clientPositionExist && isPositionAvailable serverPosition (resumeManager_ s)
  then
    let resumeOkFrame :=
      {| ok_position_ := impliedPosition (resumeManager_ s) |} in
    t ← frameTransport_ s;
    fs ← frameSerializer_ s;
    let s :=
      call (Transport_outputFrameOrEnqueue t
              (serializeOut fs (F_RESUME_OK resumeOkFrame))) s in
    s ← resumeFromPosition serverPosition s;
    Some (true, s)
  else
    s ← closeWithError
          (Frame_ERROR_connectionError
             ("Cannot resume server, client lastServerPosition="
              ++ pretty serverPosition ++ " firstClientPosition="
              ++ pretty clientPosition
              ++ " is not available. Last reset position is "
              ++ pretty (firstSentPosition (resumeManager_ s)))) s;
    Some (false, s).

Definition handleConnectionFrame (frameType : FrameType) (payload : IOBuf)
  (s : State) : option State :=
  match frameType with
  | KEEPALIVE =>
      '(r, s) ← deserializeFrameOrError
                  (λ fs, deserializeFrom_KEEPALIVE fs (remoteResumeable_ s))
                  payload s;
      match r with
      | None => Some s
      | Some frame =>
          let s :=
            set_resumeManager_
              (resetUpToPosition (ka_position_ frame) (resumeManager_ s)) s in
          if bool_decide (mode_ s = SERVER) then
            if flag_set (ka_flags_ frame) FrameFlags_KEEPALIVE_RESPOND then
              sendKeepalive FrameFlags_EMPTY (ka_data_ frame) s
            else
              closeWithError
                (Frame_ERROR_connectionError "keepalive without flag") s
          else
            if flag_set (ka_flags_ frame) FrameFlags_KEEPALIVE_RESPOND then
              closeWithError
                (Frame_ERROR_connectionError
                   "client received keepalive with respond flag") s
            else if non_null (keepaliveTimer_ s) then
              Some (call Keepalive_keepaliveReceived s)
            else Some s
      end
  | METADATA_PUSH =>
      '(r, s) ← deserializeFrameOrError deserializeFrom_METADATA_PUSH payload s;
      match r with
      | Some frame =>
          Some (call (Responder_handleMetadataPush (mp_metadata_ frame)) s)
      | None => Some s
      end
  | RESUME_OK =>
      '(r, s) ← deserializeFrameOrError deserializeFrom_RESUME_OK payload s;
      match r with
      | None => Some s
      | Some frame =>
          match resumeCallback_ s with
          | None =>
              closeWithError
                (Frame_ERROR_connectionError
                   "Received RESUME_OK while not resuming") s
          | Some cb =>
              if negb (isPositionAvailable (ok_position_ frame)
                         (resumeManager_ s)) then
                closeWithError
                  (Frame_ERROR_connectionError
                     ("Client cannot resume, server position "
                      ++ pretty (ok_position_ frame) ++ " is not available")) s
              else
                let s := call (Resume_onResumeOk cb) s in
                let s := set_resumeCallback_ None s in
                resumeFromPosition (ok_position_ frame) s
          end
      end
  | ERROR =>
      '(r, s) ← deserializeFrameOrError deserializeFrom_ERROR payload s;
      match r with
      | None => Some s
      | Some frame =>
          (* TODO: handle INVALID_SETUP, UNSUPPORTED_SETUP, REJECTED_SETUP *)
          let '(payload_, s) :=
            match resumeCallback_ s with
            | Some cb =>
                if bool_decide (errorCode_ frame = EC_CONNECTION_ERROR)
                   || bool_decide (errorCode_ frame = EC_REJECTED_RESUME)
                then
                  let '(text, payload_) :=
                    moveDataToString (err_payload_ frame) in
                  (payload_,
                   set_resumeCallback_ None
                     (call (Resume_onResumeError cb (ResumptionException text))
                        s))
                  (* fall through *)
                else (err_payload_ frame, s)
            | None => (err_payload_ frame, s)
            end in
          Some (close (Some (runtime_error (moveDataToString payload_).1))
                  SIG_ERROR s)
      end
  | _ =>
      (* SETUP and RESUME should be processed in SetupResumeAcceptor *)
      closeWithError
        (Frame_ERROR_connectionError
           ("Unexpected " ++ FrameType_show frameType ++ " frame for stream 0"))
        s
  end.

(** Modelled from the spec: [StreamsFactory::create...Responder]
    ([StreamsFactory.cpp] is not part of the sources) makes the responder
    automaton of a peer-initiated stream and adds it to the streams map. *)
Definition createResponder (kind : StreamKind) (requestN : N)
  (streamId : StreamId) (s : State) : StreamStateMachineBase * State :=
  let stateMachine :=
    {| sm_kind := kind; sm_streamId := streamId;
       sm_initialRequestN := requestN |} in
  (stateMachine, addStream streamId stateMachine s).

Definition handleUnknownStream (streamId : StreamId) (frameType : FrameType)
  (serializedFrame : IOBuf) (s : State) : option State :=
  (* DCHECK(streamId != 0) *)
  fs ← frameSerializer_ s;
  let '(registered, s) :=
    if ProtocolVersion_gt (protocolVersion fs) {| major := 0; minor := 0 |}
    then
      let '(ok, factory) :=
        registerNewPeerStreamId streamId (streamsFactory_ s) in
      (ok, set_streamsFactory_ factory s)
    else (true, s) in
  if negb registered then Some s
  else
    match frameType with
    | REQUEST_CHANNEL =>
        '(r, s) ← deserializeFrameOrError deserializeFrom_REQUEST_CHANNEL
                    serializedFrame s;
        match r with
        | None => Some s
        | Some frame =>
            let '(stateMachine, s) :=
              createResponder ChannelResponder (rq_requestN_ frame) streamId s in
            let s :=
              call (Responder_handleRequestChannelCore (rq_payload_ frame)
                      streamId) s in
            Some (call (Stream_subscribe stateMachine) s)
        end
    | REQUEST_STREAM =>
        '(r, s) ← deserializeFrameOrError deserializeFrom_REQUEST_STREAM
                    serializedFrame s;
        match r with
        | None => Some s
        | Some frame =>
            let '(_, s) :=
              createResponder StreamResponder (rq_requestN_ frame) streamId s in
            Some (call (Responder_handleRequestStreamCore (rq_payload_ frame)
                          streamId) s)
        end
    | REQUEST_RESPONSE =>
        '(r, s) ← deserializeFrameOrError deserializeFrom_REQUEST_RESPONSE
                    serializedFrame s;
        match r with
        | None => Some s
        | Some frame =>
            let '(_, s) :=
              createResponder RequestResponseResponder 0 streamId s in
            Some (call (Responder_handleRequestResponseCore (rq_payload_ frame)
                          streamId) s)
        end
    | REQUEST_FNF =>
        '(r, s) ← deserializeFrameOrError deserializeFrom_REQUEST_FNF
                    serializedFrame s;
        match r with
        | None => Some s
        | Some frame =>
            (* no stream tracking is necessary *)
            Some (call (Responder_handleFireAndForget (rq_payload_ frame)
                          streamId) s)
        end
    | _ =>
        (* RESUME, SETUP, METADATA_PUSH, LEASE, KEEPALIVE, RESERVED,
           REQUEST_N, CANCEL, PAYLOAD, ERROR, RESUME_OK, EXT and default *)
        closeWithError
          (Frame_ERROR_connectionError
             ("Unexpected frame " ++ FrameType_show frameType
              ++ " for stream " ++ pretty streamId)) s
    end.

Definition handleStreamFrame (streamId : StreamId) (frameType : FrameType)
  (serializedFrame : IOBuf) (s : State) : option State :=
  match streams_ s !! streamId with
  | None => handleUnknownStream streamId frameType serializedFrame s
  | Some stateMachine =>
  match frameType with
  | REQUEST_N =>
      '(r, s) ← deserializeFrameOrError deserializeFrom_REQUEST_N
                  serializedFrame s;
      match r with
      | None => Some s
      | Some frameRequestN =>
          Some (call (Stream_handleRequestN stateMachine
                        (rn_requestN_ frameRequestN)) s)
      end
  | CANCEL => Some (call (Stream_handleCancel stateMachine) s)
  | PAYLOAD =>
      '(r, s) ← deserializeFrameOrError deserializeFrom_PAYLOAD
                  serializedFrame s;
      match r with
      | None => Some s
      | Some framePayload =>
          Some (call (Stream_handlePayload stateMachine
                        (pl_payload_ framePayload)
                        (flag_set (pl_flags_ framePayload) FrameFlags_COMPLETE)
                        (flag_set (pl_flags_ framePayload) FrameFlags_NEXT)) s)
      end
  | ERROR =>
      '(r, s) ← deserializeFrameOrError deserializeFrom_ERROR serializedFrame s;
      match r with
      | None => Some s
      | Some frameError =>
          Some (call (Stream_handleError stateMachine
                        (runtime_error
                           (moveDataToString (err_payload_ frameError)).1)) s)
      end
  | REQUEST_CHANNEL | REQUEST_RESPONSE | RESERVED | SETUP | LEASE | KEEPALIVE
  | REQUEST_FNF | REQUEST_STREAM | METADATA_PUSH | RESUME | RESUME_OK | EXT =>
      closeWithError
        (Frame_ERROR_connectionError
           ("Unexpected " ++ FrameType_show frameType ++ " frame for stream "
            ++ pretty streamId)) s
  | FrameType_other _ =>
      (* default: Ignore unknown frames for compatibility with future frame
         types. *)
      Some s
  end
  end.

Definition processFrameImpl (frame : IOBuf) (s : State) : option State :=
  if isClosed s then Some s
  else
    let '(detected, s) := ensureOrAutodetectFrameSerializer frame s in
    if negb detected then
      closeWithError
        (Frame_ERROR_connectionError "Cannot detect protocol version") s
    else
      fs ← frameSerializer_ s;
      let frameType := peekFrameType fs frame in
      let s := call (Stats_frameRead frameType) s in
      match peekStreamId fs frame with
      | None =>
          closeWithError
            (Frame_ERROR_connectionError "Cannot decode stream ID") s
      | Some streamId =>
          let s :=
            set_resumeManager_
              (trackReceivedFrame frame frameType streamId (resumeManager_ s))
              s in
          if (streamId =? 0)%N then handleConnectionFrame frameType frame s
          else if non_null (resumeCallback_ s) then
            (* during the time when we are resuming we are can't receive any
               other than connection level frames which drives the
               resumption *)
            closeWithError
              (Frame_ERROR_connectionError
                 "Received stream frame while resuming") s
          else handleStreamFrame streamId frameType frame s
      end.

Definition onTerminalImpl (ex : exception_wrapper) (s : State) : State :=
  if isResumable_ s then disconnect ex s
  else
    let termSignal :=
      if non_null ex then SIG_CONNECTION_ERROR else SIG_CONNECTION_END in
    close ex termSignal s.

Definition tryClientResume (token : list Byte.byte)
  (frameTransport : option FrameTransport)
  (resumeCallback : option ClientResumeStatusCallback) (s : State)
  : option State :=
  fs ← frameSerializer_ s;
  let resumeFrame :=
    {| rs_token_ := token;
       rs_lastReceivedServerPosition_ := impliedPosition (resumeManager_ s);
       rs_clientPosition_ := firstSentPosition (resumeManager_ s);
       rs_version_ := protocolVersion fs |} in
  t ← frameTransport; (* frameTransport->outputFrameOrEnqueue *)
  let s :=
    call (Transport_outputFrameOrEnqueue t
            (serializeOut fs (F_RESUME resumeFrame))) s in
  (* if the client was still connected we will disconnected the old
     connection with a clear error message *)
  let s :=
    disconnect
      (Some (runtime_error "resuming client on a different connection")) s in
  let s := setResumable true s in
  reconnect frameTransport resumeCallback s.

Definition resumeServer (frameTransport : option FrameTransport)
  (version : ProtocolVersion) (serverPosition clientPosition : ResumePosition)
  (s : State) : option (bool * State) :=
  '(connected, s) ← connect frameTransport false version s;
  if (connected : bool)
  then resumeFromPositionOrClose serverPosition clientPosition s
  else Some (false, s).

Definition connectServer (frameTransport : option FrameTransport)
  (resumable : bool)
  (version : ProtocolVersion) (s : State) : option (bool * State) :=
  connect frameTransport true version (setResumable resumable s).

(** The writers used by the stream automata. *)
Definition writeRequestN (streamId : StreamId) (n : N) (s : State)
  : option State :=
  outputFrameOrEnqueue_Frame
    (F_REQUEST_N {| rn_streamId_ := streamId; rn_requestN_ := n |}) s.

Definition writePayload (streamId : StreamId) (payload : Payload)
  (complete : bool) (s : State) : option State :=
  outputFrameOrEnqueue_Frame
    (F_PAYLOAD
       {| pl_streamId_ := streamId;
          pl_flags_ :=
            N.lor FrameFlags_NEXT
              (if complete then FrameFlags_COMPLETE else FrameFlags_EMPTY);
          pl_payload_ := payload |}) s.

Definition writeCloseStream (streamId : StreamId)
  (signal : StreamCompletionSignal) (message : string) (s : State)
  : option State :=
  match signal with
  | SIG_COMPLETE =>
      (* Frame_PAYLOAD::complete(streamId) *)
      outputFrameOrEnqueue_Frame
        (F_PAYLOAD
           {| pl_streamId_ := streamId; pl_flags_ := FrameFlags_COMPLETE;
              pl_payload_ := {| data := None; metadata := None |} |}) s
  | SIG_CANCEL => outputFrameOrEnqueue_Frame (F_CANCEL streamId) s
  | SIG_ERROR =>
      outputFrameOrEnqueue_Frame
        (F_ERROR (Frame_ERROR_invalid streamId message)) s
  | SIG_APPLICATION_ERROR =>
      outputFrameOrEnqueue_Frame
        (F_ERROR (Frame_ERROR_applicationError streamId message)) s
  | _ => None (* CHECK(false): unexpected value *)
  end.

Definition writeNewStream (streamId : StreamId) (streamType : StreamType)
  (initialRequestN : N) (payload : Payload) (completed : bool) (s : State)
  : option State :=
  match streamType with
  | ST_CHANNEL =>
      outputFrameOrEnqueue_Frame
        (F_REQUEST_CHANNEL
           {| rq_streamId_ := streamId;
              rq_flags_ :=
                if completed then FrameFlags_COMPLETE else FrameFlags_EMPTY;
              rq_requestN_ := initialRequestN; rq_payload_ := payload |}) s
  | ST_STREAM =>
      outputFrameOrEnqueue_Frame
        (F_REQUEST_STREAM
           {| rq_streamId_ := streamId; rq_flags_ := FrameFlags_EMPTY;
              rq_requestN_ := initialRequestN; rq_payload_ := payload |}) s
  | ST_REQUEST_RESPONSE =>
      outputFrameOrEnqueue_Frame
        (F_REQUEST_RESPONSE
           {| rq_streamId_ := streamId; rq_flags_ := FrameFlags_EMPTY;
              rq_requestN_ := 0; rq_payload_ := payload |}) s
  | ST_FNF =>
      outputFrameOrEnqueue_Frame
        (F_REQUEST_FNF
           {| rq_streamId_ := streamId; rq_flags_ := FrameFlags_EMPTY;
              rq_requestN_ := 0; rq_payload_ := payload |}) s
  end.

Definition requestFireAndForget (request : Payload) (s : State)
  : option State :=
  let '(streamId, factory) := getNextStreamId (streamsFactory_ s) in
  let s := set_streamsFactory_ factory s in
  outputFrameOrEnqueue_Frame
    (F_REQUEST_FNF
       {| rq_streamId_ := streamId; rq_flags_ := FrameFlags_EMPTY;
          rq_requestN_ := 0; rq_payload_ := request |}) s.

Definition metadataPush (metadata : IOBuf) (s : State) : option State :=
  outputFrameOrEnqueue_Frame
    (F_METADATA_PUSH {| mp_metadata_ := metadata |}) s.

Definition onStreamClosed_ (streamId : StreamId)
  (signal : StreamCompletionSignal) (s : State) : State :=
  endStream streamId signal s.

(** [sendKeepalive(data)], the overload that asks the peer to respond. *)
Definition sendKeepalive_data (data : IOBuf) (s : State) : option State :=
  sendKeepalive FrameFlags_KEEPALIVE_RESPOND data s.

Definition setFrameSerializer (frameSerializer : option FrameSerializer)
  (s : State) : option State :=
  match frameSerializer with
  | None => None (* CHECK(frameSerializer) *)
  | Some fs =>
      (* serializer is not interchangeable, it would screw up resumability
         // CHECK(!frameSerializer_); *)
      Some (set_frameSerializer_ (Some fs) s)
  end.

(** [processFrame] and [onTerminal] only hand a task to the executor
    ([executor_.add]), which runs [processFrameImpl] or [onTerminalImpl]
    later; the tasks run one at a time, in the order they were added. *)
Inductive Task :=
| Task_processFrameImpl (frame : IOBuf)
| Task_onTerminalImpl (ex : exception_wrapper).

Definition processFrame (frame : IOBuf) (executor : list Task) : list Task :=
  executor ++ [Task_processFrameImpl frame].

Definition onTerminal (ex : exception_wrapper) (executor : list Task)
  : list Task :=
  executor ++ [Task_onTerminalImpl ex].

Definition runTask (task : Task) (s : State) : option State :=
  match task with
  | Task_processFrameImpl frame => processFrameImpl frame s
  | Task_onTerminalImpl ex => Some (onTerminalImpl ex s)
  end.

Fixpoint runTasks (executor : list Task) (s : State) : option State :=
  match executor with
  | [] => Some s
  | task :: executor => s ← runTask task s; runTasks executor s
  end.

End WithCollaborators.
Arguments State : clear implicits.

(** The client side of the setup.  The declarations of [Frame.h],
    [FrameSerializer.h] and [KeepaliveTimer.h] that
    [connectClientSendSetup] uses are parameters. *)
Section ClientSetup.
Context `{Declarations} {RM : Type} `{ResumeManager RM}.
Variable FrameFlags_RESUME_ENABLE : FrameFlags.
Variables Frame_SETUP_kMaxKeepaliveTime Frame_SETUP_kMaxLifetime : N.
(* FrameSerializer::createCurrentVersion() *)
Variable createCurrentVersion : option FrameSerializer.
(* FrameSerializer::serializeOut(Frame_SETUP&&) *)
Variable serializeOut_SETUP : FrameSerializer → Frame_SETUP → IOBuf.
(* keepaliveTimer_->keepaliveTime().count(), in milliseconds *)
Variable keepaliveTime : KeepaliveTimer → Z.

Definition getKeepaliveTime (s : State RM) : N :=
  match keepaliveTimer_ s with
  | Some timer =>
      (* static_cast<uint32_t> *)
      Z.to_N (keepaliveTime timer mod 2 ^ 32)
  | None => Frame_SETUP_kMaxKeepaliveTime
  end.

Definition connectClientSendSetup (frameTransport : FrameTransport)
  (setupParams : SetupParameters) (s : State RM) : option (State RM) :=
  s ← setFrameSerializer
        (if decide (sp_protocolVersion setupParams = ProtocolVersion_Unknown)
         then createCurrentVersion
         else createFrameSerializer (sp_protocolVersion setupParams)) s;
  let s := setResumable (sp_resumable setupParams) s in
  (* frameTransport = make_ref<FrameTransport>(std::move(connection)) *)
  fs ← frameSerializer_ s;
  let version := protocolVersion fs in
  let frame :=
    {| su_flags_ :=
         if sp_resumable setupParams then FrameFlags_RESUME_ENABLE
         else FrameFlags_EMPTY;
       su_versionMajor_ := major version;
       su_versionMinor_ := minor version;
       su_keepaliveTime_ := getKeepaliveTime s;
       su_maxLifetime_ := Frame_SETUP_kMaxLifetime;
       su_token_ := sp_token setupParams;
       su_metadataMimeType_ := sp_metadataMimeType setupParams;
       su_dataMimeType_ := sp_dataMimeType setupParams;
       su_payload_ := sp_payload setupParams |} in
  (* making sure we send setup frame first *)
  let s :=
    call (Transport_outputFrameOrEnqueue frameTransport
            (serializeOut_SETUP fs frame)) s in
  (* then the rest of the cached frames will be sent *)
  '(_, s) ← connect (Some frameTransport) true ProtocolVersion_Unknown s;
  Some s.

End ClientSetup.
End RSocketStateMachine.

(** ** [ConnectionAutomaton], the earlier connection state machine *)

(** The frames of the earlier code serialize themselves
    ([frame.serializeOut()], [frame.deserializeFrom(...)]) and the header is
    peeked with static functions of [FrameHeader]; none of these is part of
    the sources. *)
Record FrameCodec := {
  FrameHeader_peekType : IOBuf → FrameType;
  FrameHeader_peekStreamId : IOBuf → option StreamId;
  KEEPALIVE_deserializeFrom : IOBuf → option Frame_KEEPALIVE;
  KEEPALIVE_serializeOut : Frame_KEEPALIVE → IOBuf;
  RESUME_deserializeFrom : IOBuf → option Frame_RESUME;
  RESUME_serializeOut : Frame_RESUME → IOBuf;
  RESUME_OK_deserializeFrom : IOBuf → option Frame_RESUME_OK;
  RESUME_OK_serializeOut : Frame_RESUME_OK → IOBuf;
  ERROR_deserializeFrom : IOBuf → option Frame_ERROR;
  ERROR_serializeOut : Frame_ERROR → IOBuf;
}.

(** [ResumeTracker] and [ResumeCache], the two halves of what later became
    the resume manager. *)
Class ResumeTracker (RT : Type) := {
  rt_trackReceivedFrame : IOBuf → RT → RT;
  rt_impliedPosition : RT → ResumePosition;
}.

Class ResumeCache (RC : Type) := {
  rc_trackSentFrame : IOBuf → RC → RC;
  rc_resetUpToPosition : ResumePosition → RC → RC;
  rc_isPositionAvailable : ResumePosition → RC → bool;
  rc_isPositionAvailable_stream : ResumePosition → StreamId → RC → bool;
  rc_position : RC → ResumePosition;
}.

Module ConnectionAutomaton.
Section WithCollaborators.
Context `{Declarations} {RT RC : Type} `{ResumeTracker RT} `{ResumeCache RC}.
Variable codec : FrameCodec.

(** [StreamState], shared between the automaton and the resume listener. *)
Record StreamState := {
  streams_ : gmap N StreamStateMachineBase;
  outputFrames_ : list IOBuf;
  resumeTracker_ : RT;
  resumeCache_ : RC;
}.

Record State := {
  streamState_ : StreamState;
  isServer_ : bool;
  isResumable_ : bool;
  onClosed_ : bool;   (* whether the std::function still holds a callback *)
  resumeListener_ : list Byte.byte → option StreamState;
  keepaliveTimer_ : option KeepaliveTimer;
  resumeCallback_ : option ClientResumeStatusCallback;
  frameTransport_ : option FrameTransport;
  events_ : list Event;
}.

(** The state the constructor leaves; the three callbacks are [CHECK]ed to
    be there. *)
Definition init (streamState : StreamState)
  (resumeListener : list Byte.byte → option StreamState)
  (keepaliveTimer : option KeepaliveTimer) (isServer isResumable : bool)
  : State :=
  {| streamState_ := streamState; isServer_ := isServer;
     isResumable_ := isResumable; onClosed_ := true;
     resumeListener_ := resumeListener; keepaliveTimer_ := keepaliveTimer;
     resumeCallback_ := None; frameTransport_ := None; events_ := [] |}.

Definition set_streamState_ (v : StreamState) (s : State) : State :=
  Build_State v (isServer_ s) (isResumable_ s) (onClosed_ s)
    (resumeListener_ s) (keepaliveTimer_ s) (resumeCallback_ s)
    (frameTransport_ s) (events_ s).
Definition set_onClosed_ (v : bool) (s : State) : State :=
  Build_State (streamState_ s) (isServer_ s) (isResumable_ s) v
    (resumeListener_ s) (keepaliveTimer_ s) (resumeCallback_ s)
    (frameTransport_ s) (events_ s).
Definition set_resumeCallback_ (v : option ClientResumeStatusCallback)
  (s : State) : State :=
  Build_State (streamState_ s) (isServer_ s) (isResumable_ s) (onClosed_ s)
    (resumeListener_ s) (keepaliveTimer_ s) v
    (frameTransport_ s) (events_ s).
Definition set_frameTransport_ (v : option FrameTransport) (s : State)
  : State :=
  Build_State (streamState_ s) (isServer_ s) (isResumable_ s) (onClosed_ s)
    (resumeListener_ s) (keepaliveTimer_ s) (resumeCallback_ s)
    v (events_ s).
Definition set_events_ (v : list Event) (s : State) : State :=
  Build_State (streamState_ s) (isServer_ s) (isResumable_ s) (onClosed_ s)
    (resumeListener_ s) (keepaliveTimer_ s) (resumeCallback_ s)
    (frameTransport_ s) v.

Definition set_streams_ (v : gmap N StreamStateMachineBase) (s : State)
  : State :=
  set_streamState_
    {| streams_ := v; outputFrames_ := outputFrames_ (streamState_ s);
       resumeTracker_ := resumeTracker_ (streamState_ s);
       resumeCache_ := resumeCache_ (streamState_ s) |} s.
Definition set_outputFrames_ (v : list IOBuf) (s : State) : State :=
  set_streamState_
    {| streams_ := streams_ (streamState_ s); outputFrames_ := v;
       resumeTracker_ := resumeTracker_ (streamState_ s);
       resumeCache_ := resumeCache_ (streamState_ s) |} s.
Definition set_resumeTracker_ (v : RT) (s : State) : State :=
  set_streamState_
    {| streams_ := streams_ (streamState_ s);
       outputFrames_ := outputFrames_ (streamState_ s);
       resumeTracker_ := v;
       resumeCache_ := resumeCache_ (streamState_ s) |} s.
Definition set_resumeCache_ (v : RC) (s : State) : State :=
  set_streamState_
    {| streams_ := streams_ (streamState_ s);
       outputFrames_ := outputFrames_ (streamState_ s);
       resumeTracker_ := resumeTracker_ (streamState_ s);
       resumeCache_ := v |} s.

Definition call (e : Event) (s : State) : State :=
  set_events_ (events_ s ++ [e]) s.

Definition outputFrame (frame : IOBuf) (s : State) : option State :=
  (* DCHECK(frameTransport_) *)
  let s := call (Stats_frameWritten (FrameHeader_peekType codec frame)) s in
  let s :=
    set_resumeCache_
      (rc_trackSentFrame frame (resumeCache_ (streamState_ s))) s in
  t ← frameTransport_ s;
  Some (call (Transport_outputFrameOrEnqueue t frame) s).

Definition outputFrameOrEnqueue (frame : IOBuf) (s : State) : option State :=
  if non_null (frameTransport_ s) then outputFrame frame s
  else
    (* streamState_->enqueueOutputFrame *)
    Some (set_outputFrames_ (outputFrames_ (streamState_ s) ++ [frame]) s).

Definition closeFrameTransport (ex : exception_wrapper) (s : State) : State :=
  match frameTransport_ s with
  | None => s   (* DCHECK(!resumeCallback_) *)
  | Some t =>
      let s :=
        match resumeCallback_ s with
        | Some cb =>
            set_resumeCallback_ None
              (call (Resume_onConnectionError cb
                       (runtime_error
                          (match ex with
                           | Some e => what e
                           | None => "connection closing"
                           end))) s)
        | None => s
        end in
      let s := call (Transport_closeEx t ex) s in
      set_frameTransport_ None s
  end.

Definition endStreamInternal (streamId : StreamId)
  (signal : StreamCompletionSignal) (s : State) : bool * State :=
  match streams_ (streamState_ s) !! streamId with
  | None => (false, s)
  | Some automaton =>
      (* Remove from the map before notifying the automaton. *)
      let s := set_streams_ (delete streamId (streams_ (streamState_ s))) s in
      (true, call (Stream_endStream automaton signal) s)
  end.

Fixpoint closeStreams_loop (fuel : nat) (signal : StreamCompletionSignal)
  (s : State) : State :=
  match fuel with
  | O => s
  | S fuel =>
      match map_to_list (streams_ (streamState_ s)) with
      | [] => s
      | (streamId, _) :: _ =>
          closeStreams_loop fuel signal (endStreamInternal streamId signal s).2
      end
  end.

Definition closeStreams (signal : StreamCompletionSignal) (s : State) : State :=
  closeStreams_loop (size (streams_ (streamState_ s))) signal s.

Definition close (ex : exception_wrapper) (signal : StreamCompletionSignal)
  (s : State) : State :=
  let s := closeStreams signal s in
  let s := closeFrameTransport ex s in
  if onClosed_ s then
    let s := call Stats_socketClosed0 s in
    let s := set_onClosed_ false s in
    call Callback_onClosed s
  else s.

Definition disconnect (s : State) : State :=
  if negb (non_null (frameTransport_ s)) then s
  else
    let s := closeFrameTransport None s in
    let s := call Stats_socketDisconnected s in
    call Callback_onDisconnected s.

Definition closeWithError (error : Frame_ERROR) (s : State) : option State :=
  s ← outputFrameOrEnqueue (ERROR_serializeOut codec error) s;
  Some (close None SIG_ERROR s).

Fixpoint outputFrames (frames : list IOBuf) (s : State) : option State :=
  match frames with
  | [] => Some s
  | frame :: frames => s ← outputFrame frame s; outputFrames frames s
  end.

Definition endStream (streamId : StreamId) (signal : StreamCompletionSignal)
  (s : State) : State :=
  (* The signal must be idempotent. *)
  (endStreamInternal streamId signal s).2.

(** Modelled from the spec: the [deserializeFrameOrError] template of
    [ConnectionAutomaton.h] (not part of the sources): an undecodable frame
    closes the connection with an error frame. *)
Definition deserializeFrameOrError {T : Type}
  (deserializeFrom : IOBuf → option T) (payload : IOBuf) (s : State)
  : option (option T * State) :=
  match deserializeFrom payload with
  | Some frame => Some (Some frame, s)
  | None => s ← closeWithError Frame_ERROR_unexpectedFrame s; Some (None, s)
  end.

Definition useStreamState (streamState : StreamState) (s : State) : State :=
  (* CHECK(streamState): the argument is not null here *)
  if isServer_ s && isResumable_ s then set_streamState_ streamState s
  else s.

(** [for (auto it : streamState_->streams_)]: each live stream is told
    whether its frames after [position] are still cached. *)
Definition notifyResumed (position : ResumePosition) (s : State) : State :=
  foldl
    (λ s it,
       if rc_isPositionAvailable_stream position it.1
            (resumeCache_ (streamState_ s))
       then call (Stream_onCleanResume it.2) s
       else call (Stream_onDirtyResume it.2) s)
    s (map_to_list (streams_ (streamState_ s))).

Definition onConnectionFrame (payload : IOBuf) (s : State) : option State :=
  match FrameHeader_peekType codec payload with
  | KEEPALIVE =>
      '(r, s) ← deserializeFrameOrError (KEEPALIVE_deserializeFrom codec)
                  payload s;
      match r with
      | None => Some s
      | Some frame =>
          if isServer_ s then
            s ← (if flag_set (ka_flags_ frame) FrameFlags_KEEPALIVE_RESPOND
                 then
                   outputFrameOrEnqueue
                     (KEEPALIVE_serializeOut codec
                        {| ka_flags_ :=
                             N.ldiff (ka_flags_ frame)
                               FrameFlags_KEEPALIVE_RESPOND;
                           ka_position_ := ka_position_ frame;
                           ka_data_ := ka_data_ frame |}) s
                 else
                   closeWithError
                     (Frame_ERROR_connectionError "keepalive without flag") s);
            Some (set_resumeCache_
                    (rc_resetUpToPosition (ka_position_ frame)
                       (resumeCache_ (streamState_ s))) s)
          else
            if flag_set (ka_flags_ frame) FrameFlags_KEEPALIVE_RESPOND then
              closeWithError
                (Frame_ERROR_connectionError
                   "client received keepalive with respond flag") s
            else if non_null (keepaliveTimer_ s) then
              Some (call Keepalive_keepaliveReceived s)
            else Some s
      end
  | SETUP | METADATA_PUSH => Some (call (Factory_call 0%N payload) s)
  | RESUME =>
      '(r, s) ← deserializeFrameOrError (RESUME_deserializeFrom codec)
                  payload s;
      match r with
      | None => Some s
      | Some frame =>
          let '(canResume, s) :=
            if isServer_ s && isResumable_ s then
              match resumeListener_ s (rs_token_ frame) with
              | Some streamState => (true, useStreamState streamState s)
              | None => (false, s)
              end
            else (false, s) in
          if (canResume : bool) then
            s ← outputFrameOrEnqueue
                  (RESUME_OK_serializeOut codec
                     {| ok_position_ :=
                          rt_impliedPosition
                            (resumeTracker_ (streamState_ s)) |}) s;
            Some (notifyResumed (rs_lastReceivedServerPosition_ frame) s)
          else
            closeWithError (Frame_ERROR_connectionError "can not resume") s
      end
  | RESUME_OK =>
      '(r, s) ← deserializeFrameOrError (RESUME_OK_deserializeFrom codec)
                  payload s;
      match r with
      | None => Some s
      | Some frame =>
          match resumeCallback_ s with
          | Some cb =>
              if negb (isServer_ s) && isResumable_ s
                 && rc_isPositionAvailable (ok_position_ frame)
                      (resumeCache_ (streamState_ s))
              then
                Some (set_resumeCallback_ None (call (Resume_onResumeOk cb) s))
              else
                closeWithError (Frame_ERROR_connectionError "can not resume") s
          | None => closeWithError Frame_ERROR_unexpectedFrame s
          end
      end
  | ERROR =>
      '(r, s) ← deserializeFrameOrError (ERROR_deserializeFrom codec)
                  payload s;
      match r with
      | None => Some s
      | Some frame =>
          match resumeCallback_ s with
          | Some cb =>
              if bool_decide (errorCode_ frame = EC_CONNECTION_ERROR) then
                Some (set_resumeCallback_ None
                        (call (Resume_onResumeError cb
                                 (runtime_error
                                    (moveDataToString (err_payload_ frame)).1))
                           s))
              else Some s
          | None => Some s
          end
      end
  | _ => closeWithError Frame_ERROR_unexpectedFrame s
  end.

Definition processFrame (frame : IOBuf) (s : State) : option State :=
  let frameType := FrameHeader_peekType codec frame in
  let s := call (Stats_frameRead frameType) s in
  let s :=
    set_resumeTracker_
      (rt_trackReceivedFrame frame (resumeTracker_ (streamState_ s))) s in
  match FrameHeader_peekStreamId codec frame with
  | None =>
      (* Failed to deserialize the frame. *)
      closeWithError (Frame_ERROR_connectionError "invalid frame") s
  | Some streamId =>
      if (streamId =? 0)%N then onConnectionFrame frame s
      else
        match streams_ (streamState_ s) !! streamId with
        | None =>
            (* handleUnknownStream *)
            Some (call (Factory_call streamId frame) s)
        | Some automaton =>
            (* Can deliver the frame. *)
            Some (call (Stream_onNextFrame automaton frame) s)
        end
  end.

Definition onTerminal (ex : exception_wrapper)
  (signal : StreamCompletionSignal) (s : State) : State :=
  if isResumable_ s then disconnect s else close ex signal s.

(** What the transport hands to its frame processor, the automaton. *)
Inductive Input :=
| Input_processFrame (frame : IOBuf)
| Input_onTerminal (ex : exception_wrapper) (signal : StreamCompletionSignal).

Definition input (i : Input) (s : State) : option State :=
  match i with
  | Input_processFrame frame => processFrame frame s
  | Input_onTerminal ex signal => Some (onTerminal ex signal s)
  end.

Fixpoint inputs (pulled : list Input) (s : State) : option State :=
  match pulled with
  | [] => Some s
  | i :: pulled => s ← input i s; inputs pulled s
  end.

(** [pulled] is what the transport delivers before [setFrameProcessor]
    returns. *)
Definition connect (frameTransport : option FrameTransport)
  (pulled : list Input) (s : State) : option State :=
  if non_null (frameTransport_ s) then None (* CHECK *)
  else
    frameTransport ← frameTransport; (* CHECK(frameTransport) *)
    if FrameTransport_isClosed frameTransport (events_ s)
    then None (* CHECK(!frameTransport->isClosed()) *)
    else
      let s := set_frameTransport_ (Some frameTransport) s in
      let s := call (Transport_setFrameProcessor frameTransport) s in
      (* setFrameProcessor starts pulling frames from duplex connection
         the connection may also get closed before the method returns so
         we need to check again *)
      s ← inputs pulled s;
      (* streamState_->moveOutputFrames() *)
      let frames := outputFrames_ (streamState_ s) in
      let s := set_outputFrames_ [] s in
      s ← (if non_null (frameTransport_ s)
           then s ← outputFrames frames s; Some (call Callback_onConnected s)
           else Some s (* transport closed, throwing away the frames *));
      (* TODO: move to appropriate place *)
      Some (call Stats_socketCreated s).

Definition reconnect (newFrameTransport : option FrameTransport)
  (resumeCallback : option ClientResumeStatusCallback)
  (pulled : list Input) (s : State) : option State :=
  if negb (non_null newFrameTransport) then None (* CHECK *)
  else if negb (non_null resumeCallback) then None (* CHECK *)
  else if non_null (resumeCallback_ s) then None (* CHECK *)
  else if negb (isResumable_ s) then None (* CHECK *)
  else if isServer_ s then None (* CHECK *)
  else
    let s := disconnect s in
    let s := set_resumeCallback_ resumeCallback s in
    connect newFrameTransport pulled s.

Definition set_isResumable_ (v : bool) (s : State) : State :=
  Build_State (streamState_ s) (isServer_ s) v (onClosed_ s)
    (resumeListener_ s) (keepaliveTimer_ s) (resumeCallback_ s)
    (frameTransport_ s) (events_ s).

Definition setResumable (resumable : bool) (s : State) : State :=
  (* DCHECK(!frameTransport_): we allow to set this flag before we are
     connected *)
  set_isResumable_ resumable s.

(** [close()] *)
Definition close0 (s : State) : State := close None SIG_SOCKET_CLOSED s.

Definition addStream (streamId : StreamId)
  (automaton : StreamStateMachineBase) (s : State) : State :=
  (* emplace keeps an existing entry; assert(result.second) *)
  match streams_ (streamState_ s) !! streamId with
  | Some _ => s
  | None =>
      set_streams_ (<[streamId := automaton]> (streams_ (streamState_ s))) s
  end.

Definition sendKeepalive (s : State) : option State :=
  let pingFrame :=
    {| ka_flags_ := FrameFlags_KEEPALIVE_RESPOND;
       ka_position_ := rt_impliedPosition (resumeTracker_ (streamState_ s));
       ka_data_ := [] (* folly::IOBuf::create(0) *) |} in
  outputFrameOrEnqueue (KEEPALIVE_serializeOut codec pingFrame) s.

End WithCollaborators.
Arguments StreamState : clear implicits.
Arguments State : clear implicits.
End ConnectionAutomaton.

(** ** Concrete collaborators

    A small wire format, an in-memory resume manager and the constants, used
    to run the state machines on concrete inputs. *)

Module Examples.

Definition byte_of_N (n : N) : Byte.byte :=
  default Byte.x00 (Byte.of_N (n mod 256)).

Definition FrameType_code (t : FrameType) : N :=
  match t with
  | RESERVED => 0 | SETUP => 1 | LEASE => 2 | KEEPALIVE => 3
  | REQUEST_RESPONSE => 4 | REQUEST_FNF => 5 | REQUEST_STREAM => 6
  | REQUEST_CHANNEL => 7 | REQUEST_N => 8 | CANCEL => 9 | PAYLOAD => 10
  | ERROR => 11 | METADATA_PUSH => 12 | RESUME => 13 | RESUME_OK => 14
  | EXT => 63 | FrameType_other raw => raw
  end%N.

Definition FrameType_decode (n : N) : FrameType :=
  match n with
  | 0 => RESERVED | 1 => SETUP | 2 => LEASE | 3 => KEEPALIVE
  | 4 => REQUEST_RESPONSE | 5 => REQUEST_FNF | 6 => REQUEST_STREAM
  | 7 => REQUEST_CHANNEL | 8 => REQUEST_N | 9 => CANCEL | 10 => PAYLOAD
  | 11 => ERROR | 12 => METADATA_PUSH | 13 => RESUME | 14 => RESUME_OK
  | 63 => EXT | raw => FrameType_other raw
  end%N.

Definition ErrorCode_code (c : ErrorCode) : N :=
  match c with
  | EC_RESERVED => 0 | EC_INVALID_SETUP => 1 | EC_UNSUPPORTED_SETUP => 2
  | EC_REJECTED_SETUP => 3 | EC_REJECTED_RESUME => 4
  | EC_CONNECTION_ERROR => 5 | EC_APPLICATION_ERROR => 6 | EC_REJECTED => 7
  | EC_CANCELED => 8 | EC_INVALID => 9 | ErrorCode_other raw => raw
  end%N.

Definition ErrorCode_decode (n : N) : ErrorCode :=
  match n with
  | 0 => EC_RESERVED | 1 => EC_INVALID_SETUP | 2 => EC_UNSUPPORTED_SETUP
  | 3 => EC_REJECTED_SETUP | 4 => EC_REJECTED_RESUME
  | 5 => EC_CONNECTION_ERROR | 6 => EC_APPLICATION_ERROR | 7 => EC_REJECTED
  | 8 => EC_CANCELED | 9 => EC_INVALID | raw => ErrorCode_other raw
  end%N.

(** A frame is [type; stream id; field; field] followed by its data; every
    header field is one byte. *)
Definition header (t : FrameType) (streamId a b : N) : IOBuf :=
  [byte_of_N (FrameType_code t); byte_of_N streamId; byte_of_N a; byte_of_N b].

Definition bytes_of_payload (p : Payload) : IOBuf := default [] (data p).

Definition payload_of_bytes (d : IOBuf) : Payload :=
  {| data := Some d; metadata := None |}.

Definition simple_serializeOut (f : Frame) : IOBuf :=
  match f with
  | F_ERROR e =>
      header ERROR (err_streamId_ e) (ErrorCode_code (errorCode_ e)) 0
        ++ bytes_of_payload (err_payload_ e)
  | F_RESUME_OK o => header RESUME_OK 0 (Z.to_N (ok_position_ o)) 0
  | F_RESUME r =>
      header RESUME 0 (Z.to_N (rs_lastReceivedServerPosition_ r))
        (Z.to_N (rs_clientPosition_ r)) ++ rs_token_ r
  | F_METADATA_PUSH m => header METADATA_PUSH 0 0 0 ++ mp_metadata_ m
  | F_REQUEST_N r => header REQUEST_N (rn_streamId_ r) (rn_requestN_ r) 0
  | F_CANCEL streamId => header CANCEL streamId 0 0
  | F_PAYLOAD p =>
      header PAYLOAD (pl_streamId_ p) (pl_flags_ p) 0
        ++ bytes_of_payload (pl_payload_ p)
  | F_REQUEST_CHANNEL r =>
      header REQUEST_CHANNEL (rq_streamId_ r) (rq_flags_ r) (rq_requestN_ r)
        ++ bytes_of_payload (rq_payload_ r)
  | F_REQUEST_STREAM r =>
      header REQUEST_STREAM (rq_streamId_ r) (rq_flags_ r) (rq_requestN_ r)
        ++ bytes_of_payload (rq_payload_ r)
  | F_REQUEST_RESPONSE r =>
      header REQUEST_RESPONSE (rq_streamId_ r) (rq_flags_ r) (rq_requestN_ r)
        ++ bytes_of_payload (rq_payload_ r)
  | F_REQUEST_FNF r =>
      header REQUEST_FNF (rq_streamId_ r) (rq_flags_ r) (rq_requestN_ r)
        ++ bytes_of_payload (rq_payload_ r)
  end.

Definition simple_serializeOut_KEEPALIVE (k : Frame_KEEPALIVE) : IOBuf :=
  header KEEPALIVE 0 (ka_flags_ k) (Z.to_N (ka_position_ k)) ++ ka_data_ k.

(** Decoding a frame of kind [t]: [None] when the buffer is too short or
    carries another kind. *)
Definition parse {T : Type} (t : FrameType)
  (build : N → N → N → IOBuf → T) (buf : IOBuf) : option T :=
  match buf with
  | ty :: sid :: a :: b :: rest =>
      if decide (FrameType_decode (Byte.to_N ty) = t)
      then Some (build (Byte.to_N sid) (Byte.to_N a) (Byte.to_N b) rest)
      else None
  | _ => None
  end.

Definition parse_request (t : FrameType) : IOBuf → option Frame_REQUEST_Base :=
  parse t (λ sid a b rest,
             {| rq_streamId_ := sid; rq_flags_ := a; rq_requestN_ := b;
                rq_payload_ := payload_of_bytes rest |}).

Definition parse_KEEPALIVE : IOBuf → option Frame_KEEPALIVE :=
  parse KEEPALIVE (λ _ a b rest,
                     {| ka_flags_ := a; ka_position_ := Z.of_N b;
                        ka_data_ := rest |}).

Definition parse_RESUME_OK : IOBuf → option Frame_RESUME_OK :=
  parse RESUME_OK (λ _ a _ _, {| ok_position_ := Z.of_N a |}).

Definition parse_ERROR : IOBuf → option Frame_ERROR :=
  parse ERROR (λ sid a _ rest,
                 {| err_streamId_ := sid; errorCode_ := ErrorCode_decode a;
                    err_payload_ := payload_of_bytes rest |}).

Definition parse_RESUME (v : ProtocolVersion) : IOBuf → option Frame_RESUME :=
  parse RESUME (λ _ a b rest,
                  {| rs_token_ := rest;
                     rs_lastReceivedServerPosition_ := Z.of_N a;
                     rs_clientPosition_ := Z.of_N b;
                     rs_version_ := v |}).

Definition simpleSerializer (v : ProtocolVersion) : FrameSerializer := {|
  protocolVersion := v;
  peekFrameType buf :=
    match buf with
    | ty :: _ => FrameType_decode (Byte.to_N ty)
    | [] => RESERVED
    end;
  peekStreamId buf :=
    match buf with
    | _ :: sid :: _ => Some (Byte.to_N sid)
    | _ => None
    end;
  serializeOut := simple_serializeOut;
  serializeOut_KEEPALIVE k _ := simple_serializeOut_KEEPALIVE k;
  deserializeFrom_KEEPALIVE _ := parse_KEEPALIVE;
  deserializeFrom_METADATA_PUSH :=
    parse METADATA_PUSH (λ _ _ _ rest, {| mp_metadata_ := rest |});
  deserializeFrom_RESUME_OK := parse_RESUME_OK;
  deserializeFrom_RESUME := parse_RESUME v;
  deserializeFrom_ERROR := parse_ERROR;
  deserializeFrom_REQUEST_N :=
    parse REQUEST_N (λ sid a _ _, {| rn_streamId_ := sid; rn_requestN_ := a |});
  deserializeFrom_PAYLOAD :=
    parse PAYLOAD (λ sid a _ rest,
                     {| pl_streamId_ := sid; pl_flags_ := a;
                        pl_payload_ := payload_of_bytes rest |});
  deserializeFrom_REQUEST_CHANNEL := parse_request REQUEST_CHANNEL;
  deserializeFrom_REQUEST_STREAM := parse_request REQUEST_STREAM;
  deserializeFrom_REQUEST_RESPONSE := parse_request REQUEST_RESPONSE;
  deserializeFrom_REQUEST_FNF := parse_request REQUEST_FNF;
|}.

Definition v1_0 : ProtocolVersion := {| major := 1; minor := 0 |}.
Definition v0_0 : ProtocolVersion := {| major := 0; minor := 0 |}.

Definition simpleCodec : FrameCodec := {|
  FrameHeader_peekType := peekFrameType (simpleSerializer v1_0);
  FrameHeader_peekStreamId := peekStreamId (simpleSerializer v1_0);
  KEEPALIVE_deserializeFrom := parse_KEEPALIVE;
  KEEPALIVE_serializeOut := simple_serializeOut_KEEPALIVE;
  RESUME_deserializeFrom := parse_RESUME v1_0;
  RESUME_serializeOut r := simple_serializeOut (F_RESUME r);
  RESUME_OK_deserializeFrom := parse_RESUME_OK;
  RESUME_OK_serializeOut o := simple_serializeOut (F_RESUME_OK o);
  ERROR_deserializeFrom := parse_ERROR;
  ERROR_serializeOut e := simple_serializeOut (F_ERROR e);
|}.

#[export] Instance declarations : Declarations := {|
  FrameFlags_EMPTY := 0;
  FrameFlags_KEEPALIVE_RESPOND := 128;
  FrameFlags_NEXT := 32;
  FrameFlags_COMPLETE := 64;
  kUnspecifiedResumePosition := (-1)%Z;
  ProtocolVersion_Unknown := {| major := 65535; minor := 65535 |};
  createFrameSerializer v :=
    if decide (v = v1_0 ∨ v = v0_0) then Some (simpleSerializer v) else None;
  createAutodetectedSerializer buf :=
    match buf with [] => None | _ => Some (simpleSerializer v1_0) end;
  Frame_ERROR_unexpectedFrame :=
    {| err_streamId_ := 0; errorCode_ := EC_INVALID;
       err_payload_ := Payload_of_string "unexpected frame" |};
  (* a transport is open until a call closes it *)
  FrameTransport_isClosed := closed_by_calls;
  FrameTransport_isClosed_after_close _ _ closed := closed;
|}.

(** Modelled from the spec: the in-memory resume manager
    ([InMemResumeManager.cpp] is not part of the sources), after section 4.3
    of the spec: sent frames of resumable kinds are cached with the position
    at their end, received ones advance the implied position, a position is
    available between the first and the last sent position. *)
Record InMemResumeManager := {
  im_firstSentPosition : ResumePosition;
  im_lastSentPosition : ResumePosition;
  im_impliedPosition : ResumePosition;
  im_frames : list (ResumePosition * option StreamId * IOBuf * FrameType);
}.

Definition shouldTrackFrame (t : FrameType) : bool :=
  match t with
  | REQUEST_CHANNEL | REQUEST_STREAM | REQUEST_RESPONSE | REQUEST_FNF
  | REQUEST_N | CANCEL | ERROR | PAYLOAD => true
  | _ => false
  end.

#[export] Instance InMemResumeManager_ops : ResumeManager InMemResumeManager := {|
  trackReceivedFrame buf t _ rm :=
    if shouldTrackFrame t then
      {| im_firstSentPosition := im_firstSentPosition rm;
         im_lastSentPosition := im_lastSentPosition rm;
         im_impliedPosition := (im_impliedPosition rm + Z.of_nat (length buf))%Z;
         im_frames := im_frames rm |}
    else rm;
  trackSentFrame buf t streamId rm :=
    if shouldTrackFrame t then
      let position := (im_lastSentPosition rm + Z.of_nat (length buf))%Z in
      {| im_firstSentPosition := im_firstSentPosition rm;
         im_lastSentPosition := position;
         im_impliedPosition := im_impliedPosition rm;
         im_frames := im_frames rm ++ [(position, streamId, buf, t)] |}
    else rm;
  resetUpToPosition position rm :=
    if (position <=? im_firstSentPosition rm)%Z then rm
    else
      {| im_firstSentPosition := Z.min position (im_lastSentPosition rm);
         im_lastSentPosition := im_lastSentPosition rm;
         im_impliedPosition := im_impliedPosition rm;
         im_frames :=
           filter (λ f, (position < f.1.1.1)%Z) (im_frames rm) |};
  isPositionAvailable position rm :=
    (im_firstSentPosition rm <=? position)%Z
    && (position <=? im_lastSentPosition rm)%Z;
  sendFramesFromPosition position rm :=
    (λ f, f.1.2) <$> filter (λ f, (position < f.1.1.1)%Z) (im_frames rm);
  firstSentPosition := im_firstSentPosition;
  lastSentPosition := im_lastSentPosition;
  impliedPosition := im_impliedPosition;
  onStreamClosed _ rm := rm;
|}.

Definition emptyResumeManager : InMemResumeManager :=
  {| im_firstSentPosition := 0; im_lastSentPosition := 0;
     im_impliedPosition := 0; im_frames := [] |}.

(** The resume tracker and cache of the earlier automaton: a byte counter,
    and the sent half of the manager above read through the simple wire
    format. *)
#[export] Instance counter_tracker : ResumeTracker Z := {|
  rt_trackReceivedFrame buf n := (n + Z.of_nat (length buf))%Z;
  rt_impliedPosition n := n;
|}.

#[export] Instance InMemResumeCache : ResumeCache InMemResumeManager := {|
  rc_trackSentFrame buf rm :=
    trackSentFrame buf (peekFrameType (simpleSerializer v1_0) buf)
      (peekStreamId (simpleSerializer v1_0) buf) rm;
  rc_resetUpToPosition := resetUpToPosition;
  rc_isPositionAvailable := isPositionAvailable;
  rc_isPositionAvailable_stream position _ rm :=
    isPositionAvailable position rm;
  rc_position := im_lastSentPosition;
|}.

(** *** Connections used to run the state machines *)

Abbreviation RS := (RSocketStateMachine.State InMemResumeManager).

Definition after (fallback : RS) (r : option RS) : RS := default fallback r.

(** A server as constructed, with keepalive timer [1] and connection events
    [1]. *)
Definition fresh_server : RS :=
  RSocketStateMachine.init SERVER emptyResumeManager (Some 1) (Some 1).

(** The server bound to transport [7] at protocol version 1.0. *)
Definition connected_server : RS :=
  after fresh_server
    (snd <$> RSocketStateMachine.connectServer (Some 7) false v1_0
               fresh_server).


(** ... after the peer requested stream 1 and then stream 3. *)
Definition request_stream_1 : IOBuf := header REQUEST_STREAM 1 0 3.
Definition request_stream_3 : IOBuf := header REQUEST_STREAM 3 0 5.

Definition serving_server : RS :=
  after connected_server
    (RSocketStateMachine.processFrameImpl request_stream_1 connected_server
     ≫= RSocketStateMachine.processFrameImpl request_stream_3).

(** A resumable server, bound to transport [7]. *)
Definition resumable_server : RS :=
  after fresh_server
    (snd <$> RSocketStateMachine.connectServer (Some 7) true v1_0
               fresh_server).

(** A resumable client bound to transport [7] ... *)
Definition fresh_client : RS :=
  RSocketStateMachine.init CLIENT emptyResumeManager (Some 1) (Some 1).

Definition connected_client : RS :=
  after fresh_client
    (snd <$> RSocketStateMachine.connect (Some 7) true v1_0
               (RSocketStateMachine.setResumable true fresh_client)).

(** ... which, while disconnected, buffered a REQUEST_N for stream 1 ... *)
Definition disconnected_client : RS :=
  after connected_client
    (RSocketStateMachine.writeRequestN 1 4
       (RSocketStateMachine.disconnect None connected_client)).

(** ... and is now resuming on transport [8] with resume callback [5]. *)
Definition resuming_client : RS :=
  after disconnected_client
    (RSocketStateMachine.tryClientResume [] (Some 8) (Some 5)
       disconnected_client).

(** A resumable server with the live stream 1. *)
Definition resumable_serving_server : RS :=
  after resumable_server
    (RSocketStateMachine.processFrameImpl request_stream_1 resumable_server).

(** Inbound frames. *)
Definition keepalive_no_respond : IOBuf := header KEEPALIVE 0 0 0.
Definition resume_ok_0 : IOBuf := header RESUME_OK 0 0 0.
Definition resume_ok_9 : IOBuf := header RESUME_OK 0 9 0.
Definition payload_stream_1 : IOBuf := header PAYLOAD 1 32 0.
Definition known_token : list Byte.byte := [Byte.x01].
Definition resume_known : IOBuf := header RESUME 0 0 0 ++ known_token.
Definition resume_unknown : IOBuf := header RESUME 0 0 0 ++ [Byte.x02].

Definition keepalive_respond : IOBuf := header KEEPALIVE 0 128 0 ++ [Byte.x2a].
Definition error_stream_0 : IOBuf :=
  header ERROR 0 5 0 ++ String.list_byte_of_string "bye".
Definition request_n_stream_1 : IOBuf := header REQUEST_N 1 4 0.
Definition request_fnf_7 : IOBuf := header REQUEST_FNF 7 0 0 ++ [Byte.x2a].
Definition setup_stream_0 : IOBuf := header SETUP 0 0 0.
Definition setup_stream_1 : IOBuf := header SETUP 1 0 0.
(** A buffer that ends before the stream id. *)
Definition truncated_frame : IOBuf := [byte_of_N (FrameType_code PAYLOAD)].

(** A server before its first connection, and a client that was never given
    a serializer. *)
Definition unconnected_server : RS :=
  RSocketStateMachine.init SERVER emptyResumeManager None None.

(** The parameters of a resumable client, and the SETUP frame on the simple
    wire. *)
Definition resumable_setup : SetupParameters :=
  {| sp_resumable := true; sp_protocolVersion := v1_0;
     sp_token := known_token; sp_metadataMimeType := "text/plain";
     sp_dataMimeType := "text/plain";
     sp_payload := {| data := None; metadata := None |} |}.

Definition simple_serializeOut_SETUP (fs : FrameSerializer) (f : Frame_SETUP)
  : IOBuf :=
  header SETUP 0 (su_flags_ f) (su_versionMajor_ f) ++ su_token_ f.

(** The earlier automaton: a resumable server bound to transport [7]; its
    resume listener knows one token, under which a stream state with the
    live streams 2 and 4 is kept. *)
Abbreviation CA := (ConnectionAutomaton.State Z InMemResumeManager).

Definition responder_2 : StreamStateMachineBase :=
  {| sm_kind := StreamResponder; sm_streamId := 2; sm_initialRequestN := 3 |}.
Definition responder_4 : StreamStateMachineBase :=
  {| sm_kind := ChannelResponder; sm_streamId := 4; sm_initialRequestN := 1 |}.

Definition kept_streamState
  : ConnectionAutomaton.StreamState Z InMemResumeManager :=
  {| ConnectionAutomaton.streams_ :=
       <[2%N := responder_2]> (<[4%N := responder_4]> ∅);
     ConnectionAutomaton.outputFrames_ := [];
     ConnectionAutomaton.resumeTracker_ := 12%Z;
     ConnectionAutomaton.resumeCache_ := emptyResumeManager |}.

Definition fresh_streamState
  : ConnectionAutomaton.StreamState Z InMemResumeManager :=
  {| ConnectionAutomaton.streams_ := ∅;
     ConnectionAutomaton.outputFrames_ := [];
     ConnectionAutomaton.resumeTracker_ := 0%Z;
     ConnectionAutomaton.resumeCache_ := emptyResumeManager |}.

Definition fresh_automaton : CA :=
  ConnectionAutomaton.init fresh_streamState
    (λ token : list Byte.byte,
       if bool_decide (Byte.to_N <$> token = Byte.to_N <$> known_token)
       then Some kept_streamState else None)
    None true true.

Definition automaton_server : CA :=
  default fresh_automaton
    (ConnectionAutomaton.connect simpleCodec (Some 7) [] fresh_automaton).

(** A resumable client of the earlier kind, bound to transport [7], with a
    frame queued while it was disconnected, and then resuming on transport
    [8] with resume callback [5]. *)
Definition automaton_client : CA :=
  default fresh_automaton
    (ConnectionAutomaton.connect simpleCodec (Some 7) []
       (ConnectionAutomaton.init fresh_streamState (λ _, None) (Some 1)
          false true)).

Definition automaton_client_offline : CA :=
  default automaton_client
    (ConnectionAutomaton.outputFrameOrEnqueue simpleCodec request_n_stream_1
       (ConnectionAutomaton.disconnect automaton_client)).

Definition automaton_client_resuming : CA :=
  default automaton_client
    (ConnectionAutomaton.reconnect simpleCodec (Some 8) (Some 5) []
       automaton_client_offline).

(** The server automaton with the live streams 2 and 4. *)
Definition automaton_serving : CA :=
  ConnectionAutomaton.addStream 2 responder_2
    (ConnectionAutomaton.addStream 4 responder_4 automaton_server).

End Examples.

(** * The notions in which the properties are stated *)

Module RSocketStateMachineSpec.
Import RSocketStateMachine.
Local Open Scope nat_scope.
Local Open Scope list_scope.

(** Sequences of termination requests. *)
Inductive TerminationCall :=
| CallClose (ex : exception_wrapper) (signal : StreamCompletionSignal)
| CallDisconnect (ex : exception_wrapper).

Definition is_close (c : TerminationCall) : bool :=
  match c with CallClose _ _ => true | CallDisconnect _ => false end.

Definition count_events (p : Event → bool) (es : list Event) : nat :=
  length (List.filter p es).

Section Spec.
Context `{Declarations} {RM : Type} `{ResumeManager RM}.
Implicit Types (s : State RM) (ex : exception_wrapper)
  (signal : StreamCompletionSignal).

Definition run_call (c : TerminationCall) s : State RM :=
  match c with
  | CallClose ex signal => close ex signal s
  | CallDisconnect ex => disconnect ex s
  end.

Definition run_calls (cs : list TerminationCall) s : State RM :=
  foldl (λ s c, run_call c s) s cs.


(** The events of tearing a connection down. *)
Definition is_teardown (e : Event) : bool :=
  match e with
  | Stats_socketClosed _ | Stats_socketDisconnected
  | Events_onDisconnected _ _ | Events_onClosed _ _ | Events_onStreamsPaused _
  | Resume_onResumeError _ _ | Keepalive_stop
  | Transport_close _ | Transport_closeWithError _ _
  | Stream_endStream _ _ => true
  | _ => false
  end.

Definition is_transport_teardown (e : Event) : bool :=
  match e with
  | Keepalive_stop | Resume_onResumeError _ _
  | Transport_close _ | Transport_closeWithError _ _ => true
  | _ => false
  end.

Definition stop_events (keepaliveTimer : option KeepaliveTimer) : list Event :=
  if non_null keepaliveTimer then [Keepalive_stop] else [].

Definition resumeError_events (fallback : string) ex
  (resumeCallback : option ClientResumeStatusCallback) : list Event :=
  match resumeCallback with
  | Some cb =>
      [Resume_onResumeError cb
         (ConnectionException
            (match ex with Some e => what e | None => fallback end))]
  | None => []
  end.

Definition transport_close_event signal (t : FrameTransport) ex : Event :=
  if decide (signal = SIG_CONNECTION_ERROR)
  then Transport_closeWithError t ex else Transport_close t.

Definition onClosed_events ex
  (connectionEvents : option RSocketConnectionEvents) : list Event :=
  match connectionEvents with
  | Some c => [Events_onClosed c ex]
  | None => []
  end.

(** The state in which [close] starts to end the streams. *)
Definition close_prefix ex signal s : State RM :=
  {| mode_ := mode_ s; isResumable_ := isResumable_ s;
     remoteResumeable_ := remoteResumeable_ s; isClosed_ := true;
     streams_ := streams_ s; outputFrames_ := outputFrames_ s;
     resumeManager_ := resumeManager_ s;
     keepaliveTimer_ := keepaliveTimer_ s; resumeCallback_ := None;
     frameTransport_ := frameTransport_ s;
     frameSerializer_ := frameSerializer_ s;
     streamsFactory_ := streamsFactory_ s; connectionEvents_ := None;
     events_ :=
       events_ s ++ [Stats_socketClosed signal]
       ++ resumeError_events "RS closing" ex (resumeCallback_ s)
       ++ onClosed_events ex (connectionEvents_ s) |}.

Definition onDisconnected_events ex
  (connectionEvents : option RSocketConnectionEvents) : list Event :=
  match connectionEvents with
  | Some c => [Events_onDisconnected c ex]
  | None => []
  end.

Definition onStreamsPaused_events
  (connectionEvents : option RSocketConnectionEvents) : list Event :=
  match connectionEvents with
  | Some c => [Events_onStreamsPaused c]
  | None => []
  end.

(** The state after [frame] went out on a bound transport. *)
Definition sent (fs : FrameSerializer) (t : FrameTransport) (frame : IOBuf) s
  : State RM :=
  set_resumeManager_
    (if isResumable_ s
     then trackSentFrame frame (peekFrameType fs frame) (peekStreamId fs frame)
            (resumeManager_ s)
     else resumeManager_ s)
    (set_events_
       (events_ s ++ [Stats_frameWritten (peekFrameType fs frame);
                      Transport_outputFrameOrEnqueue t frame]) s).

(** The state after [closeWithError] handed the ERROR frame to the outbound
    path. *)
Definition error_output (error : Frame_ERROR) s : State RM :=
  match frameSerializer_ s with
  | None => s
  | Some fs =>
      match frameTransport_ s, resumeCallback_ s with
      | Some t, None => sent fs t (serializeOut fs (F_ERROR error)) s
      | _, _ => enqueueOutputPendingFrame (serializeOut fs (F_ERROR error)) s
      end
  end.

Definition is_output (e : Event) : bool :=
  match e with Transport_outputFrameOrEnqueue _ _ => true | _ => false end.

(** The state in which an inbound frame is dispatched: it was counted by
    the statistics and tracked by the resume manager. *)
Definition received (fs : FrameSerializer) (frame : IOBuf)
  (streamId : StreamId) s : State RM :=
  set_resumeManager_
    (trackReceivedFrame frame (peekFrameType fs frame) streamId
       (resumeManager_ s))
    (call (Stats_frameRead (peekFrameType fs frame)) s).

Definition replayed (t : FrameTransport) (frames : list IOBuf) s : State RM :=
  foldl (λ s frame, call (Transport_outputFrameOrEnqueue t frame) s) s frames.

Definition flushed (fs : FrameSerializer) (t : FrameTransport)
  (frames : list IOBuf) s : State RM :=
  foldl (λ s frame, sent fs t frame s) s frames.

Definition written (fs : FrameSerializer) (t : FrameTransport)
  (frames : list IOBuf) : list Event :=
  frames ≫= λ frame, [Stats_frameWritten (peekFrameType fs frame);
                       Transport_outputFrameOrEnqueue t frame].

Definition onStreamsResumed_events
  (connectionEvents : option RSocketConnectionEvents) : list Event :=
  match connectionEvents with
  | Some c => [Events_onStreamsResumed c]
  | None => []
  end.

Definition start_events (keepaliveTimer : option KeepaliveTimer) : list Event :=
  if non_null keepaliveTimer then [Keepalive_start] else [].

Definition is_shutdown (e : Event) : bool :=
  is_teardown e
  || match e with
     | Stats_frameWritten _ | Transport_outputFrameOrEnqueue _ _ => true
     | _ => false
     end.

(** An inbound frame is refused with a connection error. *)
Definition refused (r : option (State RM)) s : Prop :=
  ∃ (m : string) s' es,
    r = closeWithError (Frame_ERROR_connectionError m) s
    ∧ r = Some s'
    ∧ isClosed_ s' = true
    ∧ events_ s' = events_ s ++ es
    ∧ Forall (λ e, is_shutdown e = true) es.

(** The state in which [handleUnknownStream] looks at the kind of the
    frame, if the stream id was accepted. *)
Definition registered (fs : FrameSerializer) (streamId : StreamId) s
  : bool * State RM :=
  if ProtocolVersion_gt (protocolVersion fs) {| major := 0; minor := 0 |}
  then
    ((registerNewPeerStreamId streamId (streamsFactory_ s)).1,
     set_streamsFactory_
       (registerNewPeerStreamId streamId (streamsFactory_ s)).2 s)
  else (true, s).

Definition is_classification (e : Event) : bool :=
  match e with
  | Stream_onCleanResume _ | Stream_onDirtyResume _ => true
  | _ => false
  end.

End Spec.
End RSocketStateMachineSpec.

Module ConnectionAutomatonSpec.
Import ConnectionAutomaton.
Local Open Scope nat_scope.
Local Open Scope list_scope.

Section Spec.
Context `{Declarations} {RT RC : Type} `{ResumeTracker RT} `{ResumeCache RC}.
Variable codec : FrameCodec.
Implicit Types (s : State RT RC) (ex : exception_wrapper)
  (signal : StreamCompletionSignal).

(** The state after a frame went to the outbound path. *)
Definition ca_output (frame : IOBuf) s : State RT RC :=
  match frameTransport_ s with
  | Some t =>
      set_resumeCache_
        (rc_trackSentFrame frame (resumeCache_ (streamState_ s)))
        (set_events_
           (events_ s ++ [Stats_frameWritten (FrameHeader_peekType codec frame);
                          Transport_outputFrameOrEnqueue t frame]) s)
  | None => set_outputFrames_ (outputFrames_ (streamState_ s) ++ [frame]) s
  end.

Definition ca_close_transport_events ex s : list Event :=
  match frameTransport_ s with
  | Some t =>
      match resumeCallback_ s with
      | Some cb =>
          [Resume_onConnectionError cb
             (runtime_error
                (match ex with
                 | Some e => what e
                 | None => "connection closing"
                 end)%string)]
      | None => []
      end ++ [Transport_closeEx t ex]
  | None => []
  end.

Definition ca_onClosed_events s : list Event :=
  if onClosed_ s then [Stats_socketClosed0; Callback_onClosed] else [].

(** The state in which the automaton dispatches an inbound frame. *)
Definition ca_received (frame : IOBuf) s : State RT RC :=
  set_resumeTracker_
    (rt_trackReceivedFrame frame (resumeTracker_ (streamState_ s)))
    (call (Stats_frameRead (FrameHeader_peekType codec frame)) s).

(** How a live stream is told about a resume from [position]. *)
Definition classify (position : ResumePosition) (cache : RC)
  (it : N * StreamStateMachineBase) : Event :=
  if rc_isPositionAvailable_stream position it.1 cache
  then Stream_onCleanResume it.2 else Stream_onDirtyResume it.2.

End Spec.
End ConnectionAutomatonSpec.

(** * Notions for the further properties *)

Module RSocketStateMachineNotions.
Import RSocketStateMachine RSocketStateMachineSpec.
Local Open Scope nat_scope.
Local Open Scope list_scope.

Section Notions.
Context `{Declarations} {RM : Type} `{ResumeManager RM}.
Implicit Types (s : State RM) (ex : exception_wrapper)
  (signal : StreamCompletionSignal).

(** The calls that end the streams [order], and what the resume manager is
    told about them. *)
Definition ended signal (order : list (N * StreamStateMachineBase))
  : list Event :=
  (λ it, Stream_endStream it.2 signal) <$> order.

Definition streams_closed (order : list (N * StreamStateMachineBase))
  (rm : RM) : RM :=
  foldl (λ rm it, onStreamClosed it.1 rm) rm order.

(** What is left of the transport when [close] is done. *)
Definition transport_closed_events signal ex s : list Event :=
  match frameTransport_ s with
  | Some t =>
      stop_events (keepaliveTimer_ s) ++ [transport_close_event signal t ex]
  | None => []
  end.

(** The completion signal [closeWithError] ends the streams with. *)
Definition errorSignal (code : ErrorCode) : StreamCompletionSignal :=
  match code with
  | EC_INVALID_SETUP => SIG_INVALID_SETUP
  | EC_UNSUPPORTED_SETUP => SIG_UNSUPPORTED_SETUP
  | EC_REJECTED_SETUP => SIG_REJECTED_SETUP
  | _ => SIG_ERROR
  end.

Definition onConnected_events
  (connectionEvents : option RSocketConnectionEvents) : list Event :=
  match connectionEvents with
  | Some c => [Events_onConnected c]
  | None => []
  end.

(** The resume manager after [frames] went out: each one is tracked, in
    order, if the connection is resumable. *)
Definition tracked (fs : FrameSerializer) (frames : list IOBuf) s : RM :=
  if isResumable_ s then
    foldl (λ rm frame,
             trackSentFrame frame (peekFrameType fs frame)
               (peekStreamId fs frame) rm)
      (resumeManager_ s) frames
  else resumeManager_ s.

(** [connect] goes on with the serializer [fs]: the one it has, if no
    version is asked for or the versions agree, or one made for the
    version. *)
Definition serializer_agreed (version : ProtocolVersion) s
  (fs : FrameSerializer) : Prop :=
  (frameSerializer_ s = Some fs
   ∧ (version = ProtocolVersion_Unknown ∨ protocolVersion fs = version))
  ∨ (frameSerializer_ s = None ∧ version ≠ ProtocolVersion_Unknown
     ∧ createFrameSerializer version = Some fs).

(** The RESUME frame [tryClientResume] builds. *)
Definition resume_frame (token : list Byte.byte) (fs : FrameSerializer) s
  : Frame_RESUME :=
  {| rs_token_ := token;
     rs_lastReceivedServerPosition_ := impliedPosition (resumeManager_ s);
     rs_clientPosition_ := firstSentPosition (resumeManager_ s);
     rs_version_ := protocolVersion fs |}.

(** The SETUP frame [connectClientSendSetup] builds, given the constants of
    [Frame.h] and the time of the keepalive timer. *)
Definition setup_frame (RESUME_ENABLE : FrameFlags)
  (kMaxKeepaliveTime kMaxLifetime : N) (keepaliveTime : KeepaliveTimer → Z)
  (setupParams : SetupParameters) (fs : FrameSerializer) s : Frame_SETUP :=
  {| su_flags_ :=
       if sp_resumable setupParams then RESUME_ENABLE else FrameFlags_EMPTY;
     su_versionMajor_ := major (protocolVersion fs);
     su_versionMinor_ := minor (protocolVersion fs);
     su_keepaliveTime_ :=
       match keepaliveTimer_ s with
       | Some timer => Z.to_N (keepaliveTime timer mod 2 ^ 32)
       | None => kMaxKeepaliveTime
       end;
     su_maxLifetime_ := kMaxLifetime;
     su_token_ := sp_token setupParams;
     su_metadataMimeType_ := sp_metadataMimeType setupParams;
     su_dataMimeType_ := sp_dataMimeType setupParams;
     su_payload_ := sp_payload setupParams |}.

(** What the member functions keep true of the state: a resume is only in
    flight on a bound transport. *)
Definition resume_on_transport s : Prop :=
  is_Some (resumeCallback_ s) → is_Some (frameTransport_ s).

(** What the peer cannot change: the mode, resumability, the keepalive
    timer, and the serializer once there is one. *)
Definition same_settings s s' : Prop :=
  mode_ s' = mode_ s
  ∧ isResumable_ s' = isResumable_ s
  ∧ remoteResumeable_ s' = remoteResumeable_ s
  ∧ keepaliveTimer_ s' = keepaliveTimer_ s
  ∧ (∀ fs, frameSerializer_ s = Some fs → frameSerializer_ s' = Some fs).

(** An update that does not touch the connection itself. *)
Definition benign s s' : Prop :=
  isClosed_ s' = isClosed_ s
  ∧ frameTransport_ s' = frameTransport_ s
  ∧ resumeCallback_ s' = resumeCallback_ s
  ∧ same_settings s s'.

(** A member function returned (no null dereference, no failed CHECK) and
    left a state with the same settings in which a resume is only in flight
    on a bound transport. *)
Definition returns_well s (r : option (State RM)) : Prop :=
  ∃ s', r = Some s' ∧ resume_on_transport s' ∧ same_settings s s'.

(** The state in which [handleConnectionFrame] answers a KEEPALIVE: the
    resume manager has dropped what the peer acknowledged. *)
Definition acknowledged (frame : Frame_KEEPALIVE) s : State RM :=
  set_resumeManager_
    (resetUpToPosition (ka_position_ frame) (resumeManager_ s)) s.

(** The KEEPALIVE a server answers with. *)
Definition keepalive_reply (fs : FrameSerializer) (frame : Frame_KEEPALIVE) s
  : IOBuf :=
  serializeOut_KEEPALIVE fs
    {| ka_flags_ := FrameFlags_EMPTY;
       ka_position_ := impliedPosition (resumeManager_ (acknowledged frame s));
       ka_data_ := ka_data_ frame |}
    (remoteResumeable_ s).

Definition is_onResumeError (e : Event) : bool :=
  match e with Resume_onResumeError _ _ => true | _ => false end.

(** The frame kinds that are known, and are protocol violations on stream 0
    and on a live stream. *)
Definition unexpected_on_connection : list FrameType :=
  [SETUP; RESUME; RESERVED; LEASE; REQUEST_RESPONSE; REQUEST_FNF;
   REQUEST_STREAM; REQUEST_CHANNEL; REQUEST_N; CANCEL; PAYLOAD; EXT].

Definition unexpected_on_stream : list FrameType :=
  [REQUEST_CHANNEL; REQUEST_RESPONSE; RESERVED; SETUP; LEASE; KEEPALIVE;
   REQUEST_FNF; REQUEST_STREAM; METADATA_PUSH; RESUME; RESUME_OK; EXT].

(** An update that leaves the transport and the resume callback alone. *)
Definition same_link s s' : Prop :=
  frameTransport_ s' = frameTransport_ s
  ∧ resumeCallback_ s' = resumeCallback_ s.

(** The member functions that change the state machine, as calls, and
    what each runs. *)
Inductive Call :=
| Call_connectClientSendSetup (frameTransport : FrameTransport)
    (setupParams : SetupParameters)
| Call_connectServer (frameTransport : option FrameTransport)
    (resumable : bool) (version : ProtocolVersion)
| Call_resumeServer (frameTransport : option FrameTransport)
    (version : ProtocolVersion) (serverPosition clientPosition : ResumePosition)
| Call_tryClientResume (token : list Byte.byte)
    (frameTransport : option FrameTransport)
    (resumeCallback : option ClientResumeStatusCallback)
| Call_reconnect (newFrameTransport : option FrameTransport)
    (resumeCallback : option ClientResumeStatusCallback)
| Call_disconnect (ex : exception_wrapper)
| Call_close (ex : exception_wrapper) (signal : StreamCompletionSignal)
| Call_closeWithError (error : Frame_ERROR)
| Call_disconnectOrCloseWithError (errorFrame : Frame_ERROR)
| Call_runTask (task : Task)
| Call_addStream (streamId : StreamId) (stateMachine : StreamStateMachineBase)
| Call_endStream (streamId : StreamId) (signal : StreamCompletionSignal)
| Call_writeNewStream (streamId : StreamId) (streamType : StreamType)
    (initialRequestN : N) (payload : Payload) (completed : bool)
| Call_writeRequestN (streamId : StreamId) (n : N)
| Call_writePayload (streamId : StreamId) (payload : Payload)
    (complete : bool)
| Call_writeCloseStream (streamId : StreamId)
    (signal : StreamCompletionSignal) (message : string)
| Call_onStreamClosed (streamId : StreamId) (signal : StreamCompletionSignal)
| Call_requestFireAndForget (request : Payload)
| Call_metadataPush (metadata : IOBuf)
| Call_sendKeepalive (data : IOBuf)
| Call_outputFrameOrEnqueue (frame : IOBuf)
| Call_setResumable (resumable : bool)
| Call_setFrameSerializer (frameSerializer : option FrameSerializer).

Section Calls.
Variable FrameFlags_RESUME_ENABLE : FrameFlags.
Variables Frame_SETUP_kMaxKeepaliveTime Frame_SETUP_kMaxLifetime : N.
Variable createCurrentVersion : option FrameSerializer.
Variable serializeOut_SETUP : FrameSerializer → Frame_SETUP → IOBuf.
Variable keepaliveTime : KeepaliveTimer → Z.

Definition make (c : Call) s : option (State RM) :=
  match c with
  | Call_connectClientSendSetup frameTransport setupParams =>
      connectClientSendSetup FrameFlags_RESUME_ENABLE
        Frame_SETUP_kMaxKeepaliveTime Frame_SETUP_kMaxLifetime
        createCurrentVersion serializeOut_SETUP keepaliveTime
        frameTransport setupParams s
  | Call_connectServer frameTransport resumable version =>
      snd <$> connectServer frameTransport resumable version s
  | Call_resumeServer frameTransport version serverPosition clientPosition =>
      snd <$> resumeServer frameTransport version serverPosition
                clientPosition s
  | Call_tryClientResume token frameTransport resumeCallback =>
      tryClientResume token frameTransport resumeCallback s
  | Call_reconnect newFrameTransport resumeCallback =>
      reconnect newFrameTransport resumeCallback s
  | Call_disconnect ex => Some (disconnect ex s)
  | Call_close ex signal => Some (close ex signal s)
  | Call_closeWithError error => closeWithError error s
  | Call_disconnectOrCloseWithError errorFrame =>
      disconnectOrCloseWithError errorFrame s
  | Call_runTask task => runTask task s
  | Call_addStream streamId stateMachine =>
      Some (addStream streamId stateMachine s)
  | Call_endStream streamId signal => Some (endStream streamId signal s)
  | Call_writeNewStream streamId streamType initialRequestN payload
      completed =>
      writeNewStream streamId streamType initialRequestN payload completed s
  | Call_writeRequestN streamId n => writeRequestN streamId n s
  | Call_writePayload streamId payload complete =>
      writePayload streamId payload complete s
  | Call_writeCloseStream streamId signal message =>
      writeCloseStream streamId signal message s
  | Call_onStreamClosed streamId signal =>
      Some (onStreamClosed_ streamId signal s)
  | Call_requestFireAndForget request => requestFireAndForget request s
  | Call_metadataPush metadata => metadataPush metadata s
  | Call_sendKeepalive data => sendKeepalive_data data s
  | Call_outputFrameOrEnqueue frame => outputFrameOrEnqueue frame s
  | Call_setResumable resumable => Some (setResumable resumable s)
  | Call_setFrameSerializer frameSerializer =>
      setFrameSerializer frameSerializer s
  end.

Fixpoint makes (calls : list Call) s : option (State RM) :=
  match calls with
  | [] => Some s
  | c :: calls => s ← make c s; makes calls s
  end.

End Calls.

End Notions.
End RSocketStateMachineNotions.

(** * Notions for the further properties of [ConnectionAutomaton] *)

Module ConnectionAutomatonNotions.
Import ConnectionAutomaton ConnectionAutomatonSpec.
Local Open Scope nat_scope.
Local Open Scope list_scope.


Section CANotions.
Context `{Declarations} {RT RC : Type} `{ResumeTracker RT} `{ResumeCache RC}.
Variable codec : FrameCodec.
Implicit Types (s : State RT RC) (ex : exception_wrapper)
  (signal : StreamCompletionSignal).

(** The calls made when [frames] go out on transport [t], and the resume
    cache after that. *)
Definition ca_written (t : FrameTransport) (frames : list IOBuf)
  : list Event :=
  frames ≫= λ frame, [Stats_frameWritten (FrameHeader_peekType codec frame);
                       Transport_outputFrameOrEnqueue t frame].

Definition ca_tracked (frames : list IOBuf) (cache : RC) : RC :=
  foldl (λ cache frame, rc_trackSentFrame frame cache) cache frames.

(** The automaton when [connect] has bound the transport [t] and called
    [setFrameProcessor], before the transport delivers anything. *)
Definition ca_bound (t : FrameTransport) s : State RT RC :=
  call (Transport_setFrameProcessor t) (set_frameTransport_ (Some t) s).

(** How [connect] ends, from the state [s1] in which [setFrameProcessor]
    returned: if a transport is still bound the queued output is written to
    it in order and [onConnected] fires; if not, the queued output is thrown
    away and [onConnected] does not fire.  In both cases the queue is left
    empty. *)
Definition ca_connect_outcome s1 s' : Prop :=
  outputFrames_ (streamState_ s') = []
  ∧ streams_ (streamState_ s') = streams_ (streamState_ s1)
  ∧ frameTransport_ s' = frameTransport_ s1
  ∧ resumeCallback_ s' = resumeCallback_ s1
  ∧ match frameTransport_ s1 with
    | Some t1 =>
        events_ s' =
          events_ s1 ++ ca_written t1 (outputFrames_ (streamState_ s1))
          ++ [Callback_onConnected; Stats_socketCreated]
        ∧ sent_frames t1 (events_ s') =
            sent_frames t1 (events_ s1) ++ outputFrames_ (streamState_ s1)
        ∧ resumeCache_ (streamState_ s') =
            ca_tracked (outputFrames_ (streamState_ s1))
              (resumeCache_ (streamState_ s1))
    | None =>
        events_ s' = events_ s1 ++ [Stats_socketCreated]
        ∧ resumeCache_ (streamState_ s') = resumeCache_ (streamState_ s1)
    end.

End CANotions.
End ConnectionAutomatonNotions.

(** * Properties of [RSocketStateMachine] *)

Module RSocketStateMachineFacts.
Import RSocketStateMachine RSocketStateMachineSpec.
Local Open Scope nat_scope.
Local Open Scope list_scope.

Section Facts.
Context `{Declarations} {RM : Type} `{ResumeManager RM}.
Implicit Types (s : State RM) (ex : exception_wrapper)
  (signal : StreamCompletionSignal).

Lemma count_events_app p es1 es2 :
  count_events p (es1 ++ es2) = count_events p es1 + count_events p es2.
Proof. unfold count_events. by rewrite List.filter_app, length_app. Qed.

(** Unfolding the member updates, and putting the record of calls in the
    shape [events_ s ++ new]. *)
Ltac state_eval :=
  lazy beta iota zeta delta
    [call enqueueOutputPendingFrame moveOutputPendingFrames
     set_isResumable_ set_remoteResumeable_ set_isClosed_ set_streams_
     set_outputFrames_ set_resumeManager_ set_resumeCallback_
     set_frameTransport_ set_frameSerializer_ set_streamsFactory_
     set_connectionEvents_ set_events_
     mode_ isResumable_ remoteResumeable_ isClosed_ streams_ outputFrames_
     resumeManager_ keepaliveTimer_ resumeCallback_ frameTransport_
     frameSerializer_ streamsFactory_ connectionEvents_ events_
     non_null negb andb orb isDisconnectedOrClosed isClosed
     fst snd mbind option_bind] in *.

Ltac state_simpl := state_eval; rewrite <- ?app_assoc; cbn [app].

(** Projections of updated states. *)
Ltac proj_simpl :=
  cbn [call enqueueOutputPendingFrame
       set_isResumable_ set_remoteResumeable_ set_isClosed_ set_streams_
       set_outputFrames_ set_resumeManager_ set_resumeCallback_
       set_frameTransport_ set_frameSerializer_ set_streamsFactory_
       set_connectionEvents_ set_events_
       mode_ isResumable_ remoteResumeable_ isClosed_ streams_ outputFrames_
       resumeManager_ keepaliveTimer_ resumeCallback_ frameTransport_
       frameSerializer_ streamsFactory_ connectionEvents_ events_] in *.

(** Equations between states whose conditions are all decided. *)
Ltac state_compute :=
  lazy -[app]; rewrite <- ?app_assoc, ?app_nil_r; reflexivity.

(** *** Streams are ended one by one *)

Lemma endStreamInternal_live streamId signal s stateMachine :
  streams_ s !! streamId = Some stateMachine →
  endStreamInternal streamId signal s =
    (true,
     call (Stream_endStream stateMachine signal)
       (set_streams_ (delete streamId (streams_ s))
          (set_resumeManager_ (onStreamClosed streamId (resumeManager_ s)) s))).
Proof. intros Hl. unfold endStreamInternal. by rewrite Hl. Qed.


(** [closeStreams] touches the streams map, the resume manager and the
    record of calls, and nothing else; every call it makes is an
    [endStream] on an automaton. *)
Lemma closeStreams_loop_frame fuel signal s :
  ∃ streams rm es,
    closeStreams_loop fuel signal s =
      set_streams_ streams (set_resumeManager_ rm
        (set_events_ (events_ s ++ es) s))
    ∧ Forall (λ e, ∃ sm, e = Stream_endStream sm signal) es.
Proof.
  revert s. induction fuel as [|fuel IH]; intros s; simpl.
  - exists (streams_ s), (resumeManager_ s), []. split; [|constructor].
    rewrite app_nil_r. by destruct s.
  - destruct (map_to_list (streams_ s)) as [|[streamId sm] rest] eqn:Hl.
    + exists (streams_ s), (resumeManager_ s), []. split; [|constructor].
      rewrite app_nil_r. by destruct s.
    + assert (streams_ s !! streamId = Some sm) as Hs.
      { apply elem_of_map_to_list. rewrite Hl. left. }
      rewrite (endStreamInternal_live _ _ _ _ Hs). simpl.
      destruct (IH (call (Stream_endStream sm signal)
        (set_streams_ (delete streamId (streams_ s))
           (set_resumeManager_ (onStreamClosed streamId (resumeManager_ s)) s))))
        as (streams & rm & es & -> & Hes).
      exists streams, rm, (Stream_endStream sm signal :: es). split.
      * simpl. by rewrite <- app_assoc.
      * constructor; eauto.
Qed.

Lemma closeStreams_frame signal s :
  ∃ streams rm es,
    closeStreams signal s =
      set_streams_ streams (set_resumeManager_ rm
        (set_events_ (events_ s ++ es) s))
    ∧ Forall (λ e, ∃ sm, e = Stream_endStream sm signal) es.
Proof. apply closeStreams_loop_frame. Qed.

Lemma closeStreams_loop_empty fuel signal s :
  size (streams_ s) ≤ fuel → streams_ (closeStreams_loop fuel signal s) = ∅.
Proof.
  revert s. induction fuel as [|fuel IH]; intros s Hsize; simpl.
  - apply map_size_empty_inv. lia.
  - destruct (map_to_list (streams_ s)) as [|[streamId sm] rest] eqn:Hl.
    + by apply map_to_list_empty_iff.
    + assert (streams_ s !! streamId = Some sm) as Hs.
      { apply elem_of_map_to_list. rewrite Hl. left. }
      rewrite (endStreamInternal_live _ _ _ _ Hs). simpl.
      apply IH. simpl. rewrite map_size_delete_Some by eauto. lia.
Qed.

(** The loop of [closeStreams] ends with an empty streams map. *)
Lemma closeStreams_empty signal s : streams_ (closeStreams signal s) = ∅.
Proof. by apply closeStreams_loop_empty. Qed.

Lemma closeStreams_nothing signal s :
  streams_ s = ∅ → closeStreams signal s = s.
Proof.
  intros He. unfold closeStreams. rewrite He, map_size_empty. done.
Qed.

(** *** Closing the transport *)

Lemma closeFrameTransport_disconnected ex signal s :
  frameTransport_ s = None → closeFrameTransport ex signal s = s.
Proof. intros Ht. unfold closeFrameTransport. by rewrite Ht. Qed.

(** Closing a bound transport, member by member. *)
Lemma closeFrameTransport_connected ex signal s t :
  frameTransport_ s = Some t →
  closeFrameTransport ex signal s =
    set_frameTransport_ None (set_resumeCallback_ None
      (set_events_
         (events_ s ++ stop_events (keepaliveTimer_ s)
          ++ resumeError_events "connection closing" ex (resumeCallback_ s)
          ++ [transport_close_event signal t ex]) s)).
Proof.
  destruct s as [? ? ? ? ? ? ? [k|] [cb|] ft ? ? ? ?]; cbn; intros ->;
    destruct signal; state_compute.
Qed.

(** [closeFrameTransport] resets the transport and the resume callback and
    leaves the other members alone. *)
Lemma closeFrameTransport_frame ex signal s :
  ∃ es,
    closeFrameTransport ex signal s =
      set_frameTransport_ None
        (set_resumeCallback_
           (match frameTransport_ s with
            | Some _ => None
            | None => resumeCallback_ s
            end)
           (set_events_ (events_ s ++ es) s))
    ∧ Forall (λ e, is_transport_teardown e = true) es
    ∧ (∀ t, frameTransport_ s = Some t →
         transport_close_event signal t ex ∈ es).
Proof.
  destruct (frameTransport_ s) as [t|] eqn:Ht.
  - eexists. split; [by apply closeFrameTransport_connected|]. split.
    + unfold stop_events, resumeError_events, transport_close_event.
      destruct (keepaliveTimer_ s), (resumeCallback_ s), (decide _);
        repeat constructor.
    + intros t' [= <-]. set_solver.
  - exists []. rewrite closeFrameTransport_disconnected by done.
    split; [|split; [constructor|done]].
    destruct s; cbn in *; subst. by rewrite app_nil_r.
Qed.

Lemma closeFrameTransport_isClosed ex signal s :
  isClosed_ (closeFrameTransport ex signal s) = isClosed_ s.
Proof. destruct (closeFrameTransport_frame ex signal s) as (?&->&_). done. Qed.

Lemma closeFrameTransport_transport ex signal s :
  frameTransport_ (closeFrameTransport ex signal s) = None.
Proof. destruct (closeFrameTransport_frame ex signal s) as (?&->&_). done. Qed.

(** *** [close] *)

Lemma close_closed ex signal s : isClosed_ s = true → close ex signal s = s.
Proof. intros Hc. unfold close. by rewrite Hc. Qed.

Lemma close_eq ex signal s :
  isClosed_ s = false →
  close ex signal s =
    closeFrameTransport ex signal (closeStreams signal (close_prefix ex signal s)).
Proof.
  intros Hc. unfold close, close_prefix, resumeError_events, onClosed_events.
  rewrite Hc.
  destruct s as [? ? ? ? ? ? ? ? [cb|] ? ? ? [c|] ?]; state_simpl; reflexivity.
Qed.

(** What the first [close] does, member by member. *)
Lemma close_open ex signal s :
  isClosed_ s = false →
  ∃ rm es_streams es_transport,
    close ex signal s =
      set_frameTransport_ None (set_resumeCallback_ None
        (set_connectionEvents_ None (set_isClosed_ true
          (set_streams_ ∅ (set_resumeManager_ rm
            (set_events_
               (events_ s ++ [Stats_socketClosed signal]
                ++ resumeError_events "RS closing" ex (resumeCallback_ s)
                ++ onClosed_events ex (connectionEvents_ s)
                ++ es_streams ++ es_transport) s))))))
    ∧ Forall (λ e, ∃ sm, e = Stream_endStream sm signal) es_streams
    ∧ Forall (λ e, is_transport_teardown e = true) es_transport
    ∧ (∀ t, frameTransport_ s = Some t →
         transport_close_event signal t ex ∈ es_transport).
Proof.
  intros Hc. rewrite (close_eq _ _ _ Hc).
  destruct (closeStreams_frame signal (close_prefix ex signal s))
    as (streams & rm & es & Heq & Hes).
  pose proof (closeStreams_empty signal (close_prefix ex signal s)) as Hempty.
  rewrite Heq in Hempty |- *.
  change (streams = ∅) in Hempty. subst streams.
  match goal with
  | |- context [closeFrameTransport ex signal ?S2] =>
      destruct (closeFrameTransport_frame ex signal S2) as (es' & -> & Hes' & Ht)
  end.
  exists rm, es, es'. split; [|split; [done|split; [done|]]].
  - unfold close_prefix. destruct s as [? ? ? ? ? ? ? ? ? [t|] ? ? ? ?];
      state_simpl; reflexivity.
  - intros t Hs. by apply Ht.
Qed.

Lemma close_isClosed ex signal s : isClosed_ (close ex signal s) = true.
Proof.
  destruct (isClosed_ s) eqn:Hc.
  - by rewrite close_closed.
  - destruct (close_open ex signal s Hc) as (?&?&?&->&_). reflexivity.
Qed.

Lemma count_events_none p es :
  Forall (λ e, p e = false) es → count_events p es = 0.
Proof.
  unfold count_events. induction 1 as [|e es He _ IH]; simpl; [done|].
  by rewrite He.
Qed.

Lemma close_count_onClosed ex signal s :
  isClosed_ s = false →
  count_events is_onClosed (events_ (close ex signal s)) =
    count_events is_onClosed (events_ s)
    + (if non_null (connectionEvents_ s) then 1 else 0).
Proof.
  intros Hc. destruct (close_open ex signal s Hc)
    as (rm & es1 & es2 & -> & H1 & H2 & _).
  unfold resumeError_events, onClosed_events.
  destruct s as [? ? ? ? ? ? ? ? [cb|] ? ? ? [c|] ?]; state_eval;
    rewrite !count_events_app;
    rewrite (count_events_none _ es1), (count_events_none _ es2);
    try (unfold count_events; cbn; lia);
    try (eapply Forall_impl; [exact H2|]; by intros []);
    try (eapply Forall_impl; [exact H1|]; by intros ? [? ->]).
Qed.

(** *** [disconnect] *)

Lemma disconnect_disconnected ex s :
  frameTransport_ s = None → disconnect ex s = s.
Proof. intros Ht. unfold disconnect, isDisconnectedOrClosed. by rewrite Ht. Qed.

(** Disconnecting a bound transport, member by member. *)
Lemma disconnect_connected ex s t :
  frameTransport_ s = Some t →
  disconnect ex s =
    set_frameTransport_ None (set_resumeCallback_ None
      (set_events_
         (events_ s ++ onDisconnected_events ex (connectionEvents_ s)
          ++ stop_events (keepaliveTimer_ s)
          ++ resumeError_events "connection closing" ex (resumeCallback_ s)
          ++ [Transport_close t]
          ++ onStreamsPaused_events (connectionEvents_ s)
          ++ [Stats_socketDisconnected]) s)).
Proof.
  destruct s as [? ? ? ? ? ? ? [k|] [cb|] ft ? ? [c|] ?]; cbn; intros ->;
    state_compute.
Qed.

Lemma disconnect_frame ex s :
  ∃ es,
    disconnect ex s =
      set_frameTransport_ None
        (set_resumeCallback_
           (match frameTransport_ s with
            | Some _ => None
            | None => resumeCallback_ s
            end)
           (set_events_ (events_ s ++ es) s))
    ∧ Forall (λ e, is_teardown e = true ∧ is_onClosed e = false) es
    ∧ (∀ t, frameTransport_ s = Some t → Transport_close t ∈ es).
Proof.
  destruct (frameTransport_ s) as [t|] eqn:Ht.
  - eexists. split; [by apply disconnect_connected|]. split.
    + unfold stop_events, resumeError_events, onDisconnected_events,
        onStreamsPaused_events.
      destruct (keepaliveTimer_ s), (resumeCallback_ s), (connectionEvents_ s);
        repeat constructor.
    + intros t' [= <-]. set_solver.
  - exists []. rewrite disconnect_disconnected by done.
    split; [|split; [constructor|done]].
    destruct s; cbn in *; subst. by rewrite app_nil_r.
Qed.

(** *** Termination discipline *)

Lemma run_call_closed c s :
  isClosed_ s = true →
  isClosed_ (run_call c s) = true
  ∧ count_events is_onClosed (events_ (run_call c s)) =
      count_events is_onClosed (events_ s).
Proof.
  intros Hc. destruct c as [ex signal|ex]; simpl.
  - by rewrite close_closed.
  - destruct (disconnect_frame ex s) as (es & -> & Hes & _). proj_simpl.
    split; [done|]. rewrite count_events_app, (count_events_none _ es); [lia|].
    eapply Forall_impl; [exact Hes|]. by intros ? [_ ?].
Qed.

Lemma run_calls_closed cs s :
  isClosed_ s = true →
  isClosed_ (run_calls cs s) = true
  ∧ count_events is_onClosed (events_ (run_calls cs s)) =
      count_events is_onClosed (events_ s).
Proof.
  revert s. induction cs as [|c cs IH]; intros s Hc; simpl; [done|].
  destruct (run_call_closed c s Hc) as [Hc' Hn].
  destruct (IH _ Hc') as [? ->]. done.
Qed.

Lemma run_calls_app cs1 cs2 s :
  run_calls (cs1 ++ cs2) s = run_calls cs2 (run_calls cs1 s).
Proof. apply foldl_app. Qed.

Lemma run_calls_isClosed cs s :
  existsb is_close cs = true → isClosed_ (run_calls cs s) = true.
Proof.
  revert s. induction cs as [|c cs IH]; intros s Hex; simpl in *; [done|].
  destruct c as [ex signal|ex]; simpl in *.
  - apply run_calls_closed, close_isClosed.
  - by apply IH.
Qed.

(** C1.  Closing is idempotent.  On an open connection with registered
    connection events, any sequence of [close] and [disconnect] calls fires
    [onClosed] once if the sequence has a [close] (and never otherwise), and
    a [close] that comes after an earlier [close] of the sequence leaves the
    whole state as it is. *)
Theorem close_idempotent (cs : list TerminationCall) s c :
  isClosed_ s = false →
  connectionEvents_ s = Some c →
  count_events is_onClosed (events_ (run_calls cs s)) =
    count_events is_onClosed (events_ s)
    + (if existsb is_close cs then 1 else 0)
  ∧ ∀ before ex signal after,
      cs = before ++ CallClose ex signal :: after →
      existsb is_close before = true →
      close ex signal (run_calls before s) = run_calls before s.
Proof.
  intros Hc Hce. split.
  - revert s Hc Hce. induction cs as [|[ex signal|ex] cs IH]; intros s Hc Hce.
    + simpl. lia.
    + simpl.
      destruct (run_calls_closed cs (close ex signal s)) as [_ ->];
        [apply close_isClosed|].
      rewrite close_count_onClosed, Hce by done. done.
    + simpl. destruct (disconnect_frame ex s) as (es & Heq & Hes & _).
      rewrite Heq. rewrite IH; [|done..]. proj_simpl.
      rewrite count_events_app, (count_events_none _ es); [lia|].
      eapply Forall_impl; [exact Hes|]. by intros ? [_ ?].
  - intros before ex signal after -> Hex.
    apply close_closed. by apply run_calls_isClosed.
Qed.

(** C10.  A frame that arrives after the connection was closed is dropped:
    nothing is sent and no member changes. *)
Theorem processFrameImpl_closed (frame : IOBuf) s :
  isClosed_ s = true → processFrameImpl frame s = Some s.
Proof. intros Hc. unfold processFrameImpl, isClosed. by rewrite Hc. Qed.

(** C8.  A terminal signal of the transport: a resumable connection only
    disconnects (the transport is closed with [close()], streams, resume
    manager and pending output stay); any other connection closes, with
    CONNECTION_ERROR if the signal carried an exception and CONNECTION_END if
    not. *)
Theorem onTerminalImpl_spec ex s :
  (isResumable_ s = true →
     onTerminalImpl ex s = disconnect ex s
     ∧ frameTransport_ (onTerminalImpl ex s) = None
     ∧ streams_ (onTerminalImpl ex s) = streams_ s
     ∧ resumeManager_ (onTerminalImpl ex s) = resumeManager_ s
     ∧ outputFrames_ (onTerminalImpl ex s) = outputFrames_ s
     ∧ isClosed_ (onTerminalImpl ex s) = isClosed_ s
     ∧ (∀ t, frameTransport_ s = Some t →
          Transport_close t ∈ events_ (onTerminalImpl ex s)))
  ∧ (isResumable_ s = false →
     onTerminalImpl ex s =
       close ex (match ex with
                 | Some _ => SIG_CONNECTION_ERROR
                 | None => SIG_CONNECTION_END
                 end) s
     ∧ isClosed_ (onTerminalImpl ex s) = true
     ∧ (isClosed_ s = false →
          frameTransport_ (onTerminalImpl ex s) = None
          ∧ streams_ (onTerminalImpl ex s) = ∅
          ∧ Stats_socketClosed
              (match ex with
               | Some _ => SIG_CONNECTION_ERROR
               | None => SIG_CONNECTION_END
               end) ∈ events_ (onTerminalImpl ex s))).
Proof.
  split; intros Hr; unfold onTerminalImpl; rewrite Hr.
  - destruct (disconnect_frame ex s) as (es & -> & _ & Hin). proj_simpl.
    repeat split; try done. intros t Ht. specialize (Hin t Ht). set_solver.
  - assert (∀ signal, (if non_null ex then SIG_CONNECTION_ERROR
                       else SIG_CONNECTION_END) = signal →
              close ex (if non_null ex then SIG_CONNECTION_ERROR
                        else SIG_CONNECTION_END) s = close ex signal s)
      as Hsig by (by intros ? ->).
    rewrite (Hsig (match ex with
                   | Some _ => SIG_CONNECTION_ERROR
                   | None => SIG_CONNECTION_END
                   end)) by (by destruct ex).
    split; [done|]. split; [apply close_isClosed|]. intros Hc.
    destruct (close_open ex (match ex with
                             | Some _ => SIG_CONNECTION_ERROR
                             | None => SIG_CONNECTION_END
                             end) s Hc) as (?&?&?&->&_).
    proj_simpl. repeat split; try done. set_solver.
Qed.


(** *** The outbound path *)

Lemma outputFrame_connected frame s fs t :
  frameSerializer_ s = Some fs → frameTransport_ s = Some t →
  outputFrame frame s = Some (sent fs t frame s).
Proof.
  destruct s as [? [|] ? ? ? ? ? ? ? ? ? ? ? ?]; cbn; intros -> ->;
    state_compute.
Qed.

Lemma outputFrameOrEnqueue_send frame s t :
  frameTransport_ s = Some t → resumeCallback_ s = None →
  outputFrameOrEnqueue frame s = outputFrame frame s.
Proof.
  intros Ht Hcb. unfold outputFrameOrEnqueue, isDisconnectedOrClosed.
  by rewrite Ht, Hcb.
Qed.

Lemma outputFrameOrEnqueue_enqueue frame s :
  frameTransport_ s = None ∨ is_Some (resumeCallback_ s) →
  outputFrameOrEnqueue frame s = Some (enqueueOutputPendingFrame frame s).
Proof.
  unfold outputFrameOrEnqueue, isDisconnectedOrClosed.
  intros [->|[cb ->]]; [done|]. by destruct (frameTransport_ s).
Qed.

(** C5.  A frame handed to [outputFrameOrEnqueue] on a bound transport with
    no resume in flight goes to the transport, and is tracked by the resume
    manager (bytes, kind, stream id) exactly when the connection is
    resumable; in every other state it is appended to the pending-output
    queue and nothing else happens. *)
Theorem outputFrameOrEnqueue_spec (frame : IOBuf) s :
  (∀ t fs,
     frameTransport_ s = Some t → resumeCallback_ s = None →
     frameSerializer_ s = Some fs →
     ∃ s',
       outputFrameOrEnqueue frame s = Some s'
       ∧ events_ s' =
           events_ s ++ [Stats_frameWritten (peekFrameType fs frame);
                         Transport_outputFrameOrEnqueue t frame]
       ∧ outputFrames_ s' = outputFrames_ s
       ∧ resumeManager_ s' =
           (if isResumable_ s
            then trackSentFrame frame (peekFrameType fs frame)
                   (peekStreamId fs frame) (resumeManager_ s)
            else resumeManager_ s))
  ∧ (frameTransport_ s = None ∨ is_Some (resumeCallback_ s) →
     ∃ s',
       outputFrameOrEnqueue frame s = Some s'
       ∧ events_ s' = events_ s
       ∧ outputFrames_ s' = outputFrames_ s ++ [frame]
       ∧ resumeManager_ s' = resumeManager_ s).
Proof.
  split.
  - intros t fs Ht Hcb Hfs. exists (sent fs t frame s).
    rewrite (outputFrameOrEnqueue_send _ _ _ Ht Hcb).
    by rewrite (outputFrame_connected _ _ _ _ Hfs Ht).
  - intros Hq. exists (enqueueOutputPendingFrame frame s).
    by rewrite outputFrameOrEnqueue_enqueue.
Qed.

(** *** Connection errors *)

Lemma closeWithError_connectionError (m : string) s :
  closeWithError (Frame_ERROR_connectionError m) s =
    Some (close (Some (runtime_error m)) SIG_ERROR
            (error_output (Frame_ERROR_connectionError m) s)).
Proof.
  unfold closeWithError, error_output, outputFrameOrEnqueue_Frame.
  cbn [Frame_ERROR_connectionError err_payload_ errorCode_ data
       Payload_of_string mbind option_bind].
  rewrite String.string_of_list_byte_of_string.
  destruct (frameSerializer_ s) as [fs|] eqn:Hfs; cbn [non_null mbind option_bind];
    [|done].
  destruct (frameTransport_ s) as [t|] eqn:Ht.
  - destruct (resumeCallback_ s) as [cb|] eqn:Hcb.
    + rewrite outputFrameOrEnqueue_enqueue by (right; rewrite Hcb; eauto). done.
    + rewrite (outputFrameOrEnqueue_send _ _ _ Ht Hcb).
      rewrite (outputFrame_connected _ _ _ _ Hfs Ht). done.
  - rewrite outputFrameOrEnqueue_enqueue by (by left). done.
Qed.

Lemma close_events_teardown ex signal s :
  ∃ es, events_ (close ex signal s) = events_ s ++ es
        ∧ Forall (λ e, is_teardown e = true) es.
Proof.
  destruct (isClosed_ s) eqn:Hc.
  - rewrite close_closed by done. exists []. by rewrite app_nil_r.
  - destruct (close_open ex signal s Hc) as (rm & es1 & es2 & -> & H1 & H2 & _).
    proj_simpl. eexists. split; [reflexivity|].
    constructor; [done|]. rewrite !Forall_app. repeat split.
    + unfold resumeError_events. destruct (resumeCallback_ s); repeat constructor.
    + unfold onClosed_events. destruct (connectionEvents_ s); repeat constructor.
    + eapply Forall_impl; [exact H1|]. by intros ? [? ->].
    + eapply Forall_impl; [exact H2|]. by intros [].
Qed.

(** A connection error always goes through and leaves the connection
    closed and without transport. *)
Lemma closeWithError_closes (m : string) s :
  ∃ s', closeWithError (Frame_ERROR_connectionError m) s = Some s'
        ∧ isClosed_ s' = true
        ∧ (isClosed_ s = false → frameTransport_ s' = None ∧ streams_ s' = ∅).
Proof.
  rewrite closeWithError_connectionError. eexists. split; [reflexivity|].
  split; [apply close_isClosed|]. intros Hc.
  assert (isClosed_ (error_output (Frame_ERROR_connectionError m) s) = false)
    as Hc'.
  { unfold error_output.
    destruct (frameSerializer_ s), (frameTransport_ s), (resumeCallback_ s);
      done. }
  destruct (close_open (Some (runtime_error m)) SIG_ERROR _ Hc')
    as (?&?&?&->&_). done.
Qed.

(** *** While a resume is in flight *)

Lemma teardown_not_delivery_nor_output e :
  is_teardown e = true → is_delivery e = false ∧ is_output e = false.
Proof. by destruct e. Qed.

Lemma processFrameImpl_dispatch frame s fs streamId :
  isClosed_ s = false → frameSerializer_ s = Some fs →
  peekStreamId fs frame = Some streamId →
  processFrameImpl frame s =
    if (streamId =? 0)%N
    then handleConnectionFrame (peekFrameType fs frame) frame
           (received fs frame streamId s)
    else if non_null (resumeCallback_ s)
    then closeWithError
           (Frame_ERROR_connectionError "Received stream frame while resuming")
           (received fs frame streamId s)
    else handleStreamFrame streamId (peekFrameType fs frame) frame
           (received fs frame streamId s).
Proof.
  intros Hc Hfs Hid.
  unfold processFrameImpl, ensureOrAutodetectFrameSerializer, isClosed, received.
  rewrite Hc, Hfs. cbn [non_null negb]. proj_simpl.
  rewrite Hfs. cbn [mbind option_bind]. rewrite Hid. done.
Qed.

(** C2.  While a resume callback is pending, a frame for a stream (stream id
    not 0) is not delivered: the connection closes with the connection error
    "Received stream frame while resuming", and from the arrival of the frame
    on no automaton or responder is handed a frame and nothing is written to
    the transport.  Every frame produced in that state is appended to the
    pending-output queue and not written to the transport. *)
Theorem no_stream_frames_while_resuming (frame : IOBuf) s fs cb
  (streamId : StreamId) :
  isClosed_ s = false → frameSerializer_ s = Some fs →
  resumeCallback_ s = Some cb →
  peekStreamId fs frame = Some streamId → streamId ≠ 0%N →
  (processFrameImpl frame s =
     closeWithError
       (Frame_ERROR_connectionError "Received stream frame while resuming")
       (received fs frame streamId s)
   ∧ ∃ s' es,
       processFrameImpl frame s = Some s'
       ∧ isClosed_ s' = true
       ∧ events_ s' =
           events_ s ++ Stats_frameRead (peekFrameType fs frame) :: es
       ∧ Forall (λ e, is_delivery e = false ∧ is_output e = false) es)
  ∧ (∀ out : IOBuf,
       ∃ s', outputFrameOrEnqueue out s = Some s'
             ∧ events_ s' = events_ s
             ∧ outputFrames_ s' = outputFrames_ s ++ [out]).
Proof.
  intros Hc Hfs Hcb Hid Hne. split.
  - rewrite (processFrameImpl_dispatch _ _ _ _ Hc Hfs Hid).
    apply N.eqb_neq in Hne. rewrite Hne, Hcb. cbn [non_null].
    split; [done|]. rewrite closeWithError_connectionError.
    destruct (close_events_teardown
                (Some (runtime_error "Received stream frame while resuming"))
                SIG_ERROR
                (error_output
                   (Frame_ERROR_connectionError
                      "Received stream frame while resuming")
                   (received fs frame streamId s)))
      as (es & Hes & Htear).
    eexists _, es. split; [reflexivity|]. split; [apply close_isClosed|].
    split.
    + rewrite Hes. unfold error_output, received. proj_simpl.
      rewrite Hfs, Hcb. destruct (frameTransport_ s); proj_simpl;
        by rewrite <- app_assoc.
    + eapply Forall_impl; [exact Htear|].
      apply teardown_not_delivery_nor_output.
  - intros out. exists (enqueueOutputPendingFrame out s).
    rewrite outputFrameOrEnqueue_enqueue by (right; rewrite Hcb; eauto). done.
Qed.

(** *** Replaying after a resume *)

Lemma replayed_cons t frame frames s :
  replayed t (frame :: frames) s =
    replayed t frames (call (Transport_outputFrameOrEnqueue t frame) s).
Proof. reflexivity. Qed.

Lemma flushed_cons fs t frame frames s :
  flushed fs t (frame :: frames) s = flushed fs t frames (sent fs t frame s).
Proof. reflexivity. Qed.

Lemma replayed_frame t frames s :
  replayed t frames s =
    set_events_
      (events_ s ++ (Transport_outputFrameOrEnqueue t <$> frames)) s.
Proof.
  revert s. induction frames as [|frame frames IH]; intros s.
  - cbn. rewrite app_nil_r. by destruct s.
  - rewrite replayed_cons, IH.
    destruct s. cbn. unfold set_events_. cbn. by rewrite <- app_assoc.
Qed.

Lemma flushed_frame fs t frames s :
  ∃ rm,
    flushed fs t frames s =
      set_resumeManager_ rm (set_events_ (events_ s ++ written fs t frames) s).
Proof.
  revert s. induction frames as [|frame frames IH]; intros s.
  - exists (resumeManager_ s). cbn. rewrite app_nil_r. by destruct s.
  - rewrite flushed_cons.
    destruct (IH (sent fs t frame s)) as [rm ->]. exists rm.
    destruct s. unfold sent, written. cbn.
    unfold set_resumeManager_, set_events_. cbn. by rewrite <- app_assoc.
Qed.

Lemma outputFramesOrEnqueue_connected frames s fs t :
  frameSerializer_ s = Some fs → frameTransport_ s = Some t →
  resumeCallback_ s = None →
  outputFramesOrEnqueue frames s = Some (flushed fs t frames s).
Proof.
  revert s. induction frames as [|frame frames IH]; intros s Hfs Ht Hcb; [done|].
  rewrite flushed_cons. cbn [outputFramesOrEnqueue].
  rewrite (outputFrameOrEnqueue_send _ _ _ Ht Hcb).
  rewrite (outputFrame_connected _ _ _ _ Hfs Ht).
  cbn [mbind option_bind]. by apply IH.
Qed.

Lemma sent_frames_app t es1 es2 :
  sent_frames t (es1 ++ es2) = sent_frames t es1 ++ sent_frames t es2.
Proof. apply omap_app. Qed.

Lemma sent_frames_replayed t frames :
  sent_frames t (Transport_outputFrameOrEnqueue t <$> frames) = frames.
Proof.
  induction frames as [|frame frames IH]; [done|].
  cbn. rewrite decide_True by done. cbn. f_equal. exact IH.
Qed.

Lemma sent_frames_written fs t frames :
  sent_frames t (written fs t frames) = frames.
Proof.
  induction frames as [|frame frames IH]; [done|].
  cbn. rewrite decide_True by done. cbn. f_equal. exact IH.
Qed.

(** Resuming on a bound transport: the cached frames from [position] are
    replayed, then the pending output is flushed, then the keepalive timer
    is started. *)
Lemma resumeFromPosition_connected position s fs t :
  frameSerializer_ s = Some fs → frameTransport_ s = Some t →
  resumeCallback_ s = None →
  ∃ rm,
    resumeFromPosition position s =
      Some (set_outputFrames_ [] (set_resumeManager_ rm
        (set_events_
           (events_ s ++ onStreamsResumed_events (connectionEvents_ s)
            ++ (Transport_outputFrameOrEnqueue t <$>
                  sendFramesFromPosition position (resumeManager_ s))
            ++ written fs t (outputFrames_ s)
            ++ start_events (keepaliveTimer_ s)) s))).
Proof.
  intros Hfs Ht Hcb. unfold resumeFromPosition.
  set (s1 := match connectionEvents_ s with
             | Some c => call (Events_onStreamsResumed c) s
             | None => s
             end).
  assert (s1 = set_events_
                 (events_ s ++ onStreamsResumed_events (connectionEvents_ s)) s)
    as Hs1.
  { subst s1. destruct s as [? ? ? ? ? ? ? ? ? ? ? ? [c|] ?]; cbn;
      unfold set_events_; cbn; by rewrite ?app_nil_r. }
  clearbody s1. subst s1. proj_simpl. rewrite Ht. cbn [mbind option_bind].
  fold (replayed t (sendFramesFromPosition position (resumeManager_ s))
          (set_events_
             (events_ s ++ onStreamsResumed_events (connectionEvents_ s)) s)).
  rewrite replayed_frame. unfold moveOutputPendingFrames. proj_simpl.
  erewrite outputFramesOrEnqueue_connected by (proj_simpl; eassumption).
  cbn [mbind option_bind].
  match goal with
  | |- context [flushed fs t ?frames ?S] =>
      destruct (flushed_frame fs t frames S) as [rm ->]
  end.
  exists rm. unfold isDisconnectedOrClosed, start_events. proj_simpl.
  rewrite Ht. cbn [non_null negb andb].
  clear. destruct s as [? ? ? ? ? ? ? [k|] ? ? ? ? ? ?]; state_compute.
Qed.

(** *** RESUME_OK *)

(** What a connection error does to the record of calls: at most the ERROR
    frame is written, then the connection is torn down. *)
Lemma closeWithError_events (m : string) s :
  ∃ s' es,
    closeWithError (Frame_ERROR_connectionError m) s = Some s'
    ∧ isClosed_ s' = true
    ∧ events_ s' = events_ s ++ es
    ∧ Forall (λ e, is_shutdown e = true) es.
Proof.
  rewrite closeWithError_connectionError.
  destruct (close_events_teardown (Some (runtime_error m)) SIG_ERROR
              (error_output (Frame_ERROR_connectionError m) s))
    as (es & Hes & Htear).
  assert (∃ es0, events_ (error_output (Frame_ERROR_connectionError m) s)
                 = events_ s ++ es0
                 ∧ Forall (λ e, is_shutdown e = true) es0) as (es0 & He0 & Hs0).
  { unfold error_output.
    destruct (frameSerializer_ s) as [fs|];
      [|exists []; by rewrite app_nil_r].
    destruct (frameTransport_ s) as [t|], (resumeCallback_ s) as [cb|];
      unfold sent; proj_simpl;
      try (exists []; by rewrite app_nil_r).
    eexists. split; [reflexivity|]. repeat constructor. }
  eexists _, (es0 ++ es). split; [reflexivity|].
  split; [apply close_isClosed|]. split.
  - by rewrite Hes, He0, <- app_assoc.
  - apply Forall_app. split; [done|].
    eapply Forall_impl; [exact Htear|].
    intros e He. unfold is_shutdown. by rewrite He.
Qed.

Lemma closeWithError_refused (m : string) s :
  refused (closeWithError (Frame_ERROR_connectionError m) s) s.
Proof.
  destruct (closeWithError_events m s) as (s' & es & Hr & Hc & He & Hs).
  by exists m, s', es.
Qed.

Lemma deserializeFrameOrError_ok {T} (f : FrameSerializer → IOBuf → option T)
  payload s fs frame :
  frameSerializer_ s = Some fs → f fs payload = Some frame →
  deserializeFrameOrError f payload s = Some (Some frame, s).
Proof.
  intros Hfs Hf. unfold deserializeFrameOrError. rewrite Hfs.
  cbn [mbind option_bind]. by rewrite Hf.
Qed.

Lemma deserializeFrameOrError_invalid {T}
  (f : FrameSerializer → IOBuf → option T) payload s fs :
  frameSerializer_ s = Some fs → f fs payload = None →
  ∃ s', closeWithError (Frame_ERROR_connectionError "Invalid frame") s = Some s'
        ∧ deserializeFrameOrError f payload s = Some (None, s').
Proof.
  intros Hfs Hf. unfold deserializeFrameOrError. rewrite Hfs.
  cbn [mbind option_bind]. rewrite Hf.
  destruct (closeWithError_closes "Invalid frame" s) as (s' & -> & _).
  by exists s'.
Qed.

(** C4.  RESUME_OK on stream 0.  The frame is accepted exactly when it
    decodes, a resume callback is pending and the resume manager has the
    frame's position available: then [onResumeOk] fires, the callback is
    dropped, the cached frames from that position and after them the pending
    output frames are written to the transport, and the keepalive timer (if
    there is one) is started.  In every other case the connection closes
    with a connection error, and none of the above happens. *)
Theorem resume_ok_spec (payload : IOBuf) s fs :
  frameSerializer_ s = Some fs →
  (is_Some (resumeCallback_ s) → is_Some (frameTransport_ s)) →
  match deserializeFrom_RESUME_OK fs payload, resumeCallback_ s with
  | Some frame, Some cb =>
      if isPositionAvailable (ok_position_ frame) (resumeManager_ s) then
        ∃ t rm s',
          frameTransport_ s = Some t
          ∧ handleConnectionFrame RESUME_OK payload s = Some s'
          ∧ s' =
              set_outputFrames_ [] (set_resumeManager_ rm
                (set_resumeCallback_ None
                  (set_events_
                     (events_ s ++ [Resume_onResumeOk cb]
                      ++ onStreamsResumed_events (connectionEvents_ s)
                      ++ (Transport_outputFrameOrEnqueue t <$>
                            sendFramesFromPosition (ok_position_ frame)
                              (resumeManager_ s))
                      ++ written fs t (outputFrames_ s)
                      ++ start_events (keepaliveTimer_ s)) s)))
          ∧ sent_frames t (events_ s') =
              sent_frames t (events_ s)
              ++ sendFramesFromPosition (ok_position_ frame) (resumeManager_ s)
              ++ outputFrames_ s
      else refused (handleConnectionFrame RESUME_OK payload s) s
  | _, _ => refused (handleConnectionFrame RESUME_OK payload s) s
  end.
Proof.
  intros Hfs Hinv. unfold handleConnectionFrame.
  destruct (deserializeFrom_RESUME_OK fs payload) as [frame|] eqn:Hd.
  - rewrite (deserializeFrameOrError_ok deserializeFrom_RESUME_OK _ _ _ _ Hfs Hd).
    cbn [mbind option_bind].
    destruct (resumeCallback_ s) as [cb|] eqn:Hcb;
      [|apply closeWithError_refused].
    destruct (isPositionAvailable (ok_position_ frame) (resumeManager_ s));
      cbn [negb]; [|apply closeWithError_refused].
    destruct Hinv as [t Ht]; [eauto|].
    destruct (resumeFromPosition_connected (ok_position_ frame)
                (set_resumeCallback_ None (call (Resume_onResumeOk cb) s)) fs t)
      as [rm Hr]; [done..|].
    rewrite Hr. clear Hr.
    match goal with
    | |- context [Some ?S1] =>
        assert (S1 =
          set_outputFrames_ [] (set_resumeManager_ rm
            (set_resumeCallback_ None
              (set_events_
                 (events_ s ++ [Resume_onResumeOk cb]
                  ++ onStreamsResumed_events (connectionEvents_ s)
                  ++ (Transport_outputFrameOrEnqueue t <$>
                        sendFramesFromPosition (ok_position_ frame)
                          (resumeManager_ s))
                  ++ written fs t (outputFrames_ s)
                  ++ start_events (keepaliveTimer_ s)) s)))) as ->
          by (destruct s; state_compute)
    end.
    exists t, rm. eexists. split; [done|]. split; [reflexivity|].
    split; [reflexivity|].
    proj_simpl. rewrite !sent_frames_app.
    rewrite sent_frames_replayed, sent_frames_written.
    unfold onStreamsResumed_events, start_events.
    destruct (connectionEvents_ s), (keepaliveTimer_ s); cbn;
      by rewrite ?app_nil_r.
  - destruct (deserializeFrameOrError_invalid deserializeFrom_RESUME_OK
                payload s fs Hfs Hd) as (s' & Hcl & ->).
    cbn [mbind option_bind]. rewrite <- Hcl.
    destruct (resumeCallback_ s); apply closeWithError_refused.
Qed.

(** What the peer and the application see of a connection error. *)
Lemma closeWithError_reports (m : string) s s' :
  closeWithError (Frame_ERROR_connectionError m) s = Some s' →
  isClosed_ s = false →
  (∀ c, connectionEvents_ s = Some c →
     Events_onClosed c (Some (runtime_error m)) ∈ events_ s')
  ∧ (∀ fs t, frameSerializer_ s = Some fs → frameTransport_ s = Some t →
       resumeCallback_ s = None →
       Transport_outputFrameOrEnqueue t
         (serializeOut fs (F_ERROR (Frame_ERROR_connectionError m)))
       ∈ events_ s').
Proof.
  rewrite closeWithError_connectionError. intros [= <-] Hc.
  assert (isClosed_ (error_output (Frame_ERROR_connectionError m) s) = false)
    as Hc'.
  { unfold error_output.
    destruct (frameSerializer_ s), (frameTransport_ s), (resumeCallback_ s);
      done. }
  destruct (close_open (Some (runtime_error m)) SIG_ERROR _ Hc')
    as (rm & es1 & es2 & -> & _). proj_simpl. split.
  - intros c Hce.
    assert (connectionEvents_ (error_output (Frame_ERROR_connectionError m) s)
            = Some c) as ->.
    { unfold error_output.
      destruct (frameSerializer_ s), (frameTransport_ s), (resumeCallback_ s);
        done. }
    unfold onClosed_events. set_solver.
  - intros fs t Hfs Ht Hcb. unfold error_output. rewrite Hfs, Ht, Hcb.
    unfold sent at 1. proj_simpl. set_solver.
Qed.

(** *** KEEPALIVE on a server *)

Lemma handleConnectionFrame_keepalive_without_flag payload s fs frame :
  mode_ s = SERVER → frameSerializer_ s = Some fs →
  deserializeFrom_KEEPALIVE fs (remoteResumeable_ s) payload = Some frame →
  flag_set (ka_flags_ frame) FrameFlags_KEEPALIVE_RESPOND = false →
  handleConnectionFrame KEEPALIVE payload s =
    closeWithError (Frame_ERROR_connectionError "keepalive without flag")
      (set_resumeManager_
         (resetUpToPosition (ka_position_ frame) (resumeManager_ s)) s).
Proof.
  intros Hm Hfs Hd Hflag. unfold handleConnectionFrame.
  rewrite (deserializeFrameOrError_ok
             (λ fs, deserializeFrom_KEEPALIVE fs (remoteResumeable_ s))
             _ _ _ _ Hfs Hd).
  cbn [mbind option_bind]. proj_simpl. by rewrite Hm, Hflag.
Qed.

(** *** Frames of an unknown kind *)




(** *** A server resuming *)

Lemma written_not_classification fs t frames :
  Forall (λ e, is_classification e = false) (written fs t frames).
Proof.
  induction frames as [|frame frames IH]; [constructor|].
  cbn. by repeat constructor.
Qed.

(** [resumeFromPositionOrClose] on a bound transport, with no resume
    callback pending (a server). *)
Lemma resumeFromPositionOrClose_spec
  (serverPosition clientPosition : ResumePosition) s fs t :
  frameSerializer_ s = Some fs → frameTransport_ s = Some t →
  resumeCallback_ s = None →
  if (bool_decide (clientPosition = kUnspecifiedResumePosition)
      || (clientPosition <=? impliedPosition (resumeManager_ s))%Z)
     && isPositionAvailable serverPosition (resumeManager_ s)
  then
    ∃ rm es,
      resumeFromPositionOrClose serverPosition clientPosition s =
        Some (true,
              set_outputFrames_ [] (set_resumeManager_ rm
                (set_events_ (events_ s ++ es) s)))
      ∧ Forall (λ e, is_classification e = false) es
      ∧ sent_frames t es =
          [serializeOut fs
             (F_RESUME_OK
                {| ok_position_ := impliedPosition (resumeManager_ s) |})]
          ++ sendFramesFromPosition serverPosition (resumeManager_ s)
          ++ outputFrames_ s
  else
    ∃ (m : string) s',
      resumeFromPositionOrClose serverPosition clientPosition s
        = Some (false, s')
      ∧ closeWithError (Frame_ERROR_connectionError m) s = Some s'
      ∧ isClosed_ s' = true.
Proof.
  intros Hfs Ht Hcb. unfold resumeFromPositionOrClose.
  destruct (_ && _).
  - rewrite Ht, Hfs. cbn [mbind option_bind].
    match goal with
    | |- context [resumeFromPosition serverPosition ?S1] =>
        destruct (resumeFromPosition_connected serverPosition S1 fs t)
          as [rm ->]; [done..|]
    end.
    cbn [mbind option_bind]. exists rm.
    exists ([Transport_outputFrameOrEnqueue t
               (serializeOut fs
                  (F_RESUME_OK
                     {| ok_position_ := impliedPosition (resumeManager_ s) |}))]
            ++ onStreamsResumed_events (connectionEvents_ s)
            ++ (Transport_outputFrameOrEnqueue t <$>
                  sendFramesFromPosition serverPosition (resumeManager_ s))
            ++ written fs t (outputFrames_ s)
            ++ start_events (keepaliveTimer_ s)).
    split; [|split].
    + do 2 f_equal. destruct s. state_compute.
    + rewrite !Forall_app. repeat split.
      * by repeat constructor.
      * unfold onStreamsResumed_events.
        destruct (connectionEvents_ s); by repeat constructor.
      * apply Forall_fmap, Forall_true. done.
      * apply written_not_classification.
      * unfold start_events. destruct (keepaliveTimer_ s); by repeat constructor.
    + rewrite !sent_frames_app, sent_frames_replayed, sent_frames_written.
      unfold onStreamsResumed_events, start_events.
      destruct (connectionEvents_ s), (keepaliveTimer_ s); cbn;
        rewrite decide_True by done; by rewrite ?app_nil_r.
  - match goal with
    | |- context [closeWithError (Frame_ERROR_connectionError ?m) s] =>
        destruct (closeWithError_closes m s) as (s' & Hcl & Hc & _);
        exists m, s'; rewrite Hcl
    end.
    done.
Qed.

End Facts.

(** ** The theorems at work on concrete connections *)

Import Examples.

Lemma close_idempotent_witness :
  count_events is_onClosed
    (events_
       (run_calls
          [CallDisconnect None;
           CallClose (Some (runtime_error "bye")) SIG_SOCKET_CLOSED;
           CallDisconnect None; CallClose None SIG_CONNECTION_END]
          serving_server))
  = count_events is_onClosed (events_ serving_server) + 1
  ∧ close None SIG_CONNECTION_END
      (run_calls
         [CallDisconnect None;
          CallClose (Some (runtime_error "bye")) SIG_SOCKET_CLOSED;
          CallDisconnect None] serving_server)
    = run_calls
        [CallDisconnect None;
         CallClose (Some (runtime_error "bye")) SIG_SOCKET_CLOSED;
         CallDisconnect None] serving_server.
Proof.
  destruct (close_idempotent
              [CallDisconnect None;
               CallClose (Some (runtime_error "bye")) SIG_SOCKET_CLOSED;
               CallDisconnect None; CallClose None SIG_CONNECTION_END]
              serving_server 1) as [Hcount Hlater];
    [vm_compute; reflexivity..|].
  split; [exact Hcount|].
  apply (Hlater _ _ _ []); reflexivity.
Defined.

Lemma no_stream_frames_while_resuming_witness :
  (∃ s' : RS,
     processFrameImpl payload_stream_1 resuming_client = Some s'
     ∧ isClosed_ s' = true)
  ∧ ∃ s' : RS,
      outputFrameOrEnqueue request_stream_3 resuming_client = Some s'
      ∧ events_ s' = events_ resuming_client
      ∧ outputFrames_ s' = outputFrames_ resuming_client ++ [request_stream_3].
Proof.
  destruct (no_stream_frames_while_resuming payload_stream_1 resuming_client
              (simpleSerializer v1_0) 5 1)
    as [[_ (s' & es & Hs' & Hc & _)] Hout];
    [vm_compute; reflexivity..|discriminate|].
  split; [by exists s'|]. exact (Hout request_stream_3).
Defined.

Lemma resume_ok_spec_witness :
  (∃ s' : RS,
     handleConnectionFrame RESUME_OK resume_ok_0 resuming_client = Some s'
     ∧ sent_frames 8 (events_ s') =
         sent_frames 8 (events_ resuming_client)
         ++ outputFrames_ resuming_client)
  ∧ refused (handleConnectionFrame RESUME_OK resume_ok_9 resuming_client)
      resuming_client.
Proof.
  split.
  - pose proof (resume_ok_spec resume_ok_0 resuming_client
                  (simpleSerializer v1_0) eq_refl) as Hw.
    change (deserializeFrom_RESUME_OK (simpleSerializer v1_0) resume_ok_0)
      with (Some {| ok_position_ := 0 |}) in Hw.
    change (resumeCallback_ resuming_client) with (Some 5) in Hw.
    cbv beta iota in Hw.
    change (isPositionAvailable 0%Z (resumeManager_ resuming_client))
      with true in Hw.
    cbv beta iota in Hw.
    destruct Hw as (t & rm & s' & Ht & Hr & _ & Hsent); [by exists 8|].
    assert (t = 8) as -> by (vm_compute in Ht; congruence).
    exists s'. split; [exact Hr|]. exact Hsent.
  - pose proof (resume_ok_spec resume_ok_9 resuming_client
                  (simpleSerializer v1_0) eq_refl) as Hw.
    change (deserializeFrom_RESUME_OK (simpleSerializer v1_0) resume_ok_9)
      with (Some {| ok_position_ := 9 |}) in Hw.
    change (resumeCallback_ resuming_client) with (Some 5) in Hw.
    cbv beta iota in Hw.
    change (isPositionAvailable 9%Z (resumeManager_ resuming_client))
      with false in Hw.
    apply Hw. by exists 8.
Defined.

Lemma outputFrameOrEnqueue_spec_witness :
  (∃ s' : RS,
     outputFrameOrEnqueue payload_stream_1 resumable_serving_server = Some s'
     ∧ events_ s' =
         events_ resumable_serving_server
         ++ [Stats_frameWritten PAYLOAD;
             Transport_outputFrameOrEnqueue 7 payload_stream_1]
     ∧ resumeManager_ s' =
         trackSentFrame payload_stream_1 PAYLOAD (Some 1%N)
           (resumeManager_ resumable_serving_server))
  ∧ ∃ s' : RS,
      outputFrameOrEnqueue payload_stream_1 disconnected_client = Some s'
      ∧ events_ s' = events_ disconnected_client
      ∧ outputFrames_ s' =
          outputFrames_ disconnected_client ++ [payload_stream_1].
Proof.
  split.
  - destruct (outputFrameOrEnqueue_spec payload_stream_1
                resumable_serving_server) as [Hsend _].
    destruct (Hsend 7 (simpleSerializer v1_0) eq_refl eq_refl eq_refl)
      as (s' & Hs' & Hev & _ & Hrm).
    exists s'. split; [exact Hs'|]. split; [exact Hev|]. exact Hrm.
  - destruct (outputFrameOrEnqueue_spec payload_stream_1 disconnected_client)
      as [_ Hqueue].
    destruct Hqueue as (s' & Hs' & Hev & Hq & _); [by left|].
    by exists s'.
Defined.




Lemma onTerminalImpl_spec_witness :
  (streams_ (onTerminalImpl (Some (runtime_error "reset"))
               resumable_serving_server)
   = streams_ resumable_serving_server
   ∧ frameTransport_ (onTerminalImpl (Some (runtime_error "reset"))
                        resumable_serving_server) = None
   ∧ isClosed_ (onTerminalImpl (Some (runtime_error "reset"))
                  resumable_serving_server) = false)
  ∧ (onTerminalImpl (Some (runtime_error "reset")) serving_server
     = close (Some (runtime_error "reset")) SIG_CONNECTION_ERROR serving_server
     ∧ onTerminalImpl None serving_server
       = close None SIG_CONNECTION_END serving_server).
Proof.
  split.
  - destruct (onTerminalImpl_spec (Some (runtime_error "reset"))
                resumable_serving_server) as [Hres _].
    destruct (Hres eq_refl) as (_ & Ht & Hst & _ & _ & Hc & _).
    split; [exact Hst|]. split; [exact Ht|]. exact Hc.
  - destruct (onTerminalImpl_spec (Some (runtime_error "reset"))
                serving_server) as [_ Herr].
    destruct (onTerminalImpl_spec None serving_server) as [_ Hend].
    split; [apply Herr|apply Hend]; reflexivity.
Defined.

Lemma processFrameImpl_closed_witness :
  processFrameImpl request_stream_3
    (close None SIG_SOCKET_CLOSED serving_server)
  = Some (close None SIG_SOCKET_CLOSED serving_server).
Proof.
  apply (processFrameImpl_closed request_stream_3
           (close None SIG_SOCKET_CLOSED serving_server)).
  vm_compute. reflexivity.
Defined.

End RSocketStateMachineFacts.



(** * Properties of [ConnectionAutomaton], and of both state machines *)

Module ConnectionAutomatonFacts.
Import ConnectionAutomaton ConnectionAutomatonSpec.
Local Open Scope nat_scope.
Local Open Scope list_scope.

Section CAFacts.
Context `{Declarations} {RT RC : Type} `{ResumeTracker RT} `{ResumeCache RC}.
Context {RM : Type} `{ResumeManager RM}.
Variable codec : FrameCodec.
Implicit Types (s : State RT RC) (ex : exception_wrapper)
  (signal : StreamCompletionSignal).

Ltac ca_compute :=
  lazy -[app]; rewrite <- ?app_assoc, ?app_nil_r; reflexivity.

Ltac ca_proj :=
  cbn [call set_streamState_ set_onClosed_ set_resumeCallback_
       set_frameTransport_ set_events_ set_streams_ set_outputFrames_
       set_resumeTracker_ set_resumeCache_
       streamState_ isServer_ isResumable_ onClosed_ resumeListener_
       keepaliveTimer_ resumeCallback_ frameTransport_ events_
       streams_ outputFrames_ resumeTracker_ resumeCache_] in *.

Lemma ca_outputFrameOrEnqueue_eq frame s :
  outputFrameOrEnqueue codec frame s = Some (ca_output codec frame s).
Proof.
  unfold outputFrameOrEnqueue, outputFrame, ca_output.
  destruct s as [[? ? ? ?] ? ? ? ? ? ? [t|] ?]; ca_compute.
Qed.

Lemma ca_endStreamInternal_live streamId signal s automaton :
  streams_ (streamState_ s) !! streamId = Some automaton →
  endStreamInternal streamId signal s =
    (true,
     call (Stream_endStream automaton signal)
       (set_streams_ (delete streamId (streams_ (streamState_ s))) s)).
Proof. intros Hl. unfold endStreamInternal. by rewrite Hl. Qed.

Lemma ca_closeStreams_loop_frame fuel signal s :
  size (streams_ (streamState_ s)) ≤ fuel →
  ∃ es,
    closeStreams_loop fuel signal s =
      set_streams_ ∅ (set_events_ (events_ s ++ es) s)
    ∧ Forall (λ e, ∃ sm, e = Stream_endStream sm signal) es.
Proof.
  revert s. induction fuel as [|fuel IH]; intros s Hsize; cbn [closeStreams_loop].
  - exists []. split; [|constructor].
    assert (streams_ (streamState_ s) = ∅) as He
      by (apply map_size_empty_inv; lia).
    destruct s as [[? ? ? ?] ? ? ? ? ? ? ? ?]; cbn in He; subst. ca_compute.
  - destruct (map_to_list (streams_ (streamState_ s)))
      as [|[streamId sm] rest] eqn:Hl.
    + exists []. split; [|constructor].
      apply map_to_list_empty_iff in Hl.
      destruct s as [[? ? ? ?] ? ? ? ? ? ? ? ?]; cbn in Hl; subst. ca_compute.
    + assert (streams_ (streamState_ s) !! streamId = Some sm) as Hs.
      { apply elem_of_map_to_list. rewrite Hl. left. }
      rewrite (ca_endStreamInternal_live _ _ _ _ Hs). cbn [snd].
      destruct (IH (call (Stream_endStream sm signal)
                      (set_streams_
                         (delete streamId (streams_ (streamState_ s))) s)))
        as (es & -> & Hes).
      { ca_proj. rewrite map_size_delete_Some by eauto. lia. }
      exists (Stream_endStream sm signal :: es). split.
      * destruct s as [[? ? ? ?] ? ? ? ? ? ? ? ?]. ca_compute.
      * constructor; eauto.
Qed.

Lemma ca_closeStreams_frame signal s :
  ∃ es,
    closeStreams signal s = set_streams_ ∅ (set_events_ (events_ s ++ es) s)
    ∧ Forall (λ e, ∃ sm, e = Stream_endStream sm signal) es.
Proof. by apply ca_closeStreams_loop_frame. Qed.

(** [close], member by member: the streams are ended, the transport is
    closed, and the [onClosed] callback is called if it is still there. *)
Lemma ca_close_frame ex signal s :
  ∃ es,
    close ex signal s =
      set_onClosed_ false (set_frameTransport_ None
        (set_resumeCallback_
           (match frameTransport_ s with
            | Some _ => None
            | None => resumeCallback_ s
            end)
           (set_streams_ ∅
              (set_events_
                 (events_ s ++ es ++ ca_close_transport_events ex s
                  ++ ca_onClosed_events s) s))))
    ∧ Forall (λ e, ∃ sm, e = Stream_endStream sm signal) es.
Proof.
  unfold close. destruct (ca_closeStreams_frame signal s) as (es & -> & Hes).
  exists es. split; [|done].
  unfold closeFrameTransport, ca_close_transport_events, ca_onClosed_events.
  destruct s as [[? ? ? ?] ? ? [|] ? ? [cb|] [t|] ?]; ca_compute.
Qed.

Lemma ca_closeWithError_eq (error : Frame_ERROR) s :
  closeWithError codec error s =
    Some (close None SIG_ERROR
            (ca_output codec (ERROR_serializeOut codec error) s)).
Proof.
  unfold closeWithError. rewrite ca_outputFrameOrEnqueue_eq. done.
Qed.

(** A connection error leaves the automaton without transport, without
    streams and without [onClosed] callback; the callback is called if it
    was still there. *)
Lemma ca_closeWithError_closes (error : Frame_ERROR) s :
  ∃ s', closeWithError codec error s = Some s'
        ∧ frameTransport_ s' = None
        ∧ streams_ (streamState_ s') = ∅
        ∧ onClosed_ s' = false
        ∧ (onClosed_ s = true → Callback_onClosed ∈ events_ s')
        ∧ (∀ t, frameTransport_ s = Some t →
             Transport_outputFrameOrEnqueue t (ERROR_serializeOut codec error)
             ∈ events_ s').
Proof.
  rewrite ca_closeWithError_eq.
  destruct (ca_close_frame None SIG_ERROR
              (ca_output codec (ERROR_serializeOut codec error) s))
    as (es & -> & _).
  eexists. split; [reflexivity|]. ca_proj. repeat split; try done.
  - intros Hon. unfold ca_onClosed_events, ca_output.
    destruct (frameTransport_ s); ca_proj; rewrite Hon; set_solver.
  - intros t Ht. unfold ca_output. rewrite Ht. ca_proj. set_solver.
Qed.

Lemma ca_processFrame_connection frame s :
  FrameHeader_peekStreamId codec frame = Some 0%N →
  processFrame codec frame s =
    onConnectionFrame codec frame (ca_received codec frame s).
Proof. intros Hid. unfold processFrame. by rewrite Hid. Qed.

(** C9.  A server that receives, on stream 0, a KEEPALIVE frame whose
    RESPOND flag is clear closes the connection with the connection error
    "keepalive without flag": the ERROR frame is written if the transport
    can take it, the application is told, and the connection ends closed
    and without transport.  Both state machines do so. *)
Theorem keepalive_without_flag :
  (∀ (payload : IOBuf) (s : RSocketStateMachine.State RM) fs frame,
     RSocketStateMachine.isClosed_ s = false →
     RSocketStateMachine.mode_ s = SERVER →
     RSocketStateMachine.frameSerializer_ s = Some fs →
     peekFrameType fs payload = KEEPALIVE →
     peekStreamId fs payload = Some 0%N →
     deserializeFrom_KEEPALIVE fs (RSocketStateMachine.remoteResumeable_ s)
       payload = Some frame →
     flag_set (ka_flags_ frame) FrameFlags_KEEPALIVE_RESPOND = false →
     ∃ s' : RSocketStateMachine.State RM,
       RSocketStateMachine.processFrameImpl payload s = Some s'
       ∧ RSocketStateMachine.processFrameImpl payload s =
           RSocketStateMachine.closeWithError
             (Frame_ERROR_connectionError "keepalive without flag")
             (RSocketStateMachine.set_resumeManager_
                (resetUpToPosition (ka_position_ frame)
                   (RSocketStateMachine.resumeManager_
                      (RSocketStateMachineSpec.received fs payload 0%N s)))
                (RSocketStateMachineSpec.received fs payload 0%N s))
       ∧ RSocketStateMachine.isClosed_ s' = true
       ∧ RSocketStateMachine.frameTransport_ s' = None
       ∧ (∀ c, RSocketStateMachine.connectionEvents_ s = Some c →
            Events_onClosed c (Some (runtime_error "keepalive without flag"))
            ∈ RSocketStateMachine.events_ s')
       ∧ (∀ t, RSocketStateMachine.frameTransport_ s = Some t →
            RSocketStateMachine.resumeCallback_ s = None →
            Transport_outputFrameOrEnqueue t
              (serializeOut fs
                 (F_ERROR
                    (Frame_ERROR_connectionError "keepalive without flag")))
            ∈ RSocketStateMachine.events_ s'))
  ∧ (∀ (payload : IOBuf) s frame,
       isServer_ s = true →
       FrameHeader_peekType codec payload = KEEPALIVE →
       FrameHeader_peekStreamId codec payload = Some 0%N →
       KEEPALIVE_deserializeFrom codec payload = Some frame →
       flag_set (ka_flags_ frame) FrameFlags_KEEPALIVE_RESPOND = false →
       ∃ s',
         processFrame codec payload s = Some s'
         ∧ frameTransport_ s' = None
         ∧ streams_ (streamState_ s') = ∅
         ∧ onClosed_ s' = false
         ∧ (onClosed_ s = true → Callback_onClosed ∈ events_ s')
         ∧ (∀ t, frameTransport_ s = Some t →
              Transport_outputFrameOrEnqueue t
                (ERROR_serializeOut codec
                   (Frame_ERROR_connectionError "keepalive without flag"))
              ∈ events_ s')).
Proof.
  split.
  - intros payload s fs frame Hc Hm Hfs Hty Hid Hd Hflag.
    rewrite (RSocketStateMachineFacts.processFrameImpl_dispatch
               _ _ _ _ Hc Hfs Hid).
    cbn [N.eqb]. rewrite Hty.
    rewrite (RSocketStateMachineFacts.handleConnectionFrame_keepalive_without_flag
               payload _ fs frame); [|done..].
    match goal with
    | |- context [RSocketStateMachine.closeWithError
                    (Frame_ERROR_connectionError ?m) ?S1] =>
        destruct (RSocketStateMachineFacts.closeWithError_closes m S1)
          as (s' & Hcl & Hc' & Ht');
        destruct (RSocketStateMachineFacts.closeWithError_reports m S1 s' Hcl)
          as [Hrep Hsend]; [done|]
    end.
    exists s'. split; [done|]. split; [done|]. split; [done|].
    split; [by apply Ht'|]. split.
    + intros c Hce. by apply Hrep.
    + intros t Ht Hcb. by apply Hsend.
  - intros payload s frame Hsrv Hty Hid Hd Hflag.
    rewrite (ca_processFrame_connection _ _ Hid).
    unfold onConnectionFrame. rewrite Hty.
    unfold deserializeFrameOrError. rewrite Hd. cbn [mbind option_bind].
    unfold ca_received at 1. ca_proj. rewrite Hsrv, Hflag.
    destruct (ca_closeWithError_closes
                (Frame_ERROR_connectionError "keepalive without flag")
                (ca_received codec payload s))
      as (s' & -> & Ht' & Hst & Hon & Hcb & Hsend).
    cbn [mbind option_bind]. eexists. split; [reflexivity|].
    ca_proj. repeat split; try done.
Qed.

(** *** RESUME *)

Lemma ca_notify_frame position cache (l : list (N * StreamStateMachineBase)) s :
  resumeCache_ (streamState_ s) = cache →
  foldl
    (λ s it,
       if rc_isPositionAvailable_stream position it.1
            (resumeCache_ (streamState_ s))
       then call (Stream_onCleanResume it.2) s
       else call (Stream_onDirtyResume it.2) s) s l
  = set_events_ (events_ s ++ (classify position cache <$> l)) s.
Proof.
  revert s. induction l as [|it l IH]; intros s Hcache.
  - cbn. rewrite app_nil_r. by destruct s.
  - cbn [foldl fmap list_fmap]. rewrite Hcache. unfold classify at 1.
    destruct (rc_isPositionAvailable_stream position it.1 cache);
      (rewrite IH by done); destruct s; ca_compute.
Qed.

Lemma ca_notifyResumed_frame position s :
  notifyResumed position s =
    set_events_
      (events_ s
       ++ (classify position (resumeCache_ (streamState_ s))
             <$> map_to_list (streams_ (streamState_ s)))) s.
Proof. unfold notifyResumed. by apply ca_notify_frame. Qed.

(** C3, as the code has it.  [RSocketStateMachine] (a server, bound to a
    transport, told to resume from two positions): if the client position is
    the unspecified sentinel or at most the implied position, and the server
    position is available, RESUME_OK with the implied position is written to
    the transport, followed by the cached frames from the server position and
    the pending output, and no stream is classified; otherwise an ERROR frame
    with code CONNECTION_ERROR is sent and the connection closes.
    [ConnectionAutomaton] (a RESUME frame on stream 0): if the automaton is
    a resumable server and the resume listener knows the token, it adopts
    the stream state kept under the token, sends RESUME_OK with the implied
    position and tells each live stream [onCleanResume] or [onDirtyResume]
    after [isPositionAvailable(position, streamId)]; otherwise it sends an
    ERROR frame with code CONNECTION_ERROR and closes. *)
Theorem resume_request_spec :
  (∀ (serverPosition clientPosition : ResumePosition)
     (s : RSocketStateMachine.State RM) fs t,
     RSocketStateMachine.frameSerializer_ s = Some fs →
     RSocketStateMachine.frameTransport_ s = Some t →
     RSocketStateMachine.resumeCallback_ s = None →
     RSocketStateMachine.isClosed_ s = false →
     if (bool_decide (clientPosition = kUnspecifiedResumePosition)
         || (clientPosition
             <=? impliedPosition (RSocketStateMachine.resumeManager_ s))%Z)
        && isPositionAvailable serverPosition
             (RSocketStateMachine.resumeManager_ s)
     then
       ∃ (s' : RSocketStateMachine.State RM) es,
         RSocketStateMachine.resumeFromPositionOrClose
           serverPosition clientPosition s = Some (true, s')
         ∧ RSocketStateMachine.events_ s' =
             RSocketStateMachine.events_ s ++ es
         ∧ RSocketStateMachine.streams_ s' = RSocketStateMachine.streams_ s
         ∧ RSocketStateMachine.isClosed_ s' = false
         ∧ Forall (λ e, RSocketStateMachineSpec.is_classification e = false) es
         ∧ sent_frames t es =
             [serializeOut fs
                (F_RESUME_OK
                   {| ok_position_ :=
                        impliedPosition
                          (RSocketStateMachine.resumeManager_ s) |})]
             ++ sendFramesFromPosition serverPosition
                  (RSocketStateMachine.resumeManager_ s)
             ++ RSocketStateMachine.outputFrames_ s
     else
       ∃ (m : string) (s' : RSocketStateMachine.State RM),
         RSocketStateMachine.resumeFromPositionOrClose
           serverPosition clientPosition s = Some (false, s')
         ∧ RSocketStateMachine.isClosed_ s' = true
         ∧ RSocketStateMachine.frameTransport_ s' = None
         ∧ errorCode_ (Frame_ERROR_connectionError m) = EC_CONNECTION_ERROR
         ∧ Transport_outputFrameOrEnqueue t
             (serializeOut fs (F_ERROR (Frame_ERROR_connectionError m)))
           ∈ RSocketStateMachine.events_ s')
  ∧ (∀ (payload : IOBuf) s frame,
       FrameHeader_peekType codec payload = RESUME →
       RESUME_deserializeFrom codec payload = Some frame →
       match (if isServer_ s && isResumable_ s
              then resumeListener_ s (rs_token_ frame) else None) with
       | Some kept =>
           let answered :=
             ca_output codec
               (RESUME_OK_serializeOut codec
                  {| ok_position_ :=
                       rt_impliedPosition (resumeTracker_ kept) |})
               (set_streamState_ kept s) in
           onConnectionFrame codec payload s =
             Some (set_events_
                     (events_ answered
                      ++ (classify (rs_lastReceivedServerPosition_ frame)
                            (resumeCache_ (streamState_ answered))
                            <$> map_to_list (streams_ kept)))
                     answered)
       | None =>
           onConnectionFrame codec payload s =
             closeWithError codec
               (Frame_ERROR_connectionError "can not resume") s
           ∧ errorCode_ (Frame_ERROR_connectionError "can not resume")
             = EC_CONNECTION_ERROR
           ∧ ∃ s',
               onConnectionFrame codec payload s = Some s'
               ∧ frameTransport_ s' = None
               ∧ (∀ t, frameTransport_ s = Some t →
                    Transport_outputFrameOrEnqueue t
                      (ERROR_serializeOut codec
                         (Frame_ERROR_connectionError "can not resume"))
                    ∈ events_ s')
       end).
Proof.
  split.
  - intros serverPosition clientPosition s fs t Hfs Ht Hcb Hc.
    pose proof (RSocketStateMachineFacts.resumeFromPositionOrClose_spec
                  serverPosition clientPosition s fs t Hfs Ht Hcb) as Hspec.
    destruct (_ && _).
    + destruct Hspec as (rm & es & Hr & Hes & Hsent).
      eexists _, es. split; [exact Hr|]. by repeat split.
    + destruct Hspec as (m & s' & Hr & Hcl & Hc').
      destruct (RSocketStateMachineFacts.closeWithError_closes m s)
        as (s'' & Hcl' & _ & Hgone).
      rewrite Hcl in Hcl'. inversion Hcl'; subst s''.
      destruct (RSocketStateMachineFacts.closeWithError_reports m s s' Hcl Hc)
        as [_ Hsend].
      exists m, s'. split; [done|]. split; [done|].
      split; [by apply Hgone|]. split; [done|]. by apply Hsend.
  - intros payload s frame Hty Hd. unfold onConnectionFrame. rewrite Hty.
    unfold deserializeFrameOrError. rewrite Hd. cbn [mbind option_bind].
    unfold useStreamState.
    destruct (isServer_ s && isResumable_ s) eqn:Hsr.
    + destruct (resumeListener_ s (rs_token_ frame)) as [kept|].
      * rewrite ca_outputFrameOrEnqueue_eq. cbn [mbind option_bind].
        rewrite ca_notifyResumed_frame.
        match goal with
        | |- context [map_to_list (streams_ (streamState_ ?A))] =>
            assert (streams_ (streamState_ A) = streams_ kept) as ->
              by (unfold ca_output; ca_proj;
                  destruct (frameTransport_ s); reflexivity)
        end.
        reflexivity.
      * split; [done|]. split; [done|].
        destruct (ca_closeWithError_closes
                    (Frame_ERROR_connectionError "can not resume") s)
          as (s' & -> & Ht' & _ & _ & _ & Hsend).
        by exists s'.
    + split; [done|]. split; [done|].
      destruct (ca_closeWithError_closes
                  (Frame_ERROR_connectionError "can not resume") s)
        as (s' & -> & Ht' & _ & _ & _ & Hsend).
      by exists s'.
Qed.

End CAFacts.

(** ** The theorems at work on concrete connections *)

Import Examples.

Lemma keepalive_without_flag_witness :
  (∃ s' : RS,
     RSocketStateMachine.processFrameImpl keepalive_no_respond connected_server
     = Some s'
     ∧ RSocketStateMachine.isClosed_ s' = true
     ∧ Events_onClosed 1 (Some (runtime_error "keepalive without flag"))
       ∈ RSocketStateMachine.events_ s')
  ∧ ∃ s' : CA,
      processFrame simpleCodec keepalive_no_respond automaton_server = Some s'
      ∧ frameTransport_ s' = None
      ∧ Callback_onClosed ∈ events_ s'.
Proof.
  destruct (keepalive_without_flag (RT:=Z) (RC:=InMemResumeManager)
              (RM:=InMemResumeManager) simpleCodec) as [Hnew Hold].
  split.
  - destruct (Hnew keepalive_no_respond connected_server
                (simpleSerializer v1_0)
                {| ka_flags_ := 0; ka_position_ := 0; ka_data_ := [] |})
      as (s' & Hs' & _ & Hc & _ & Hrep & _);
      [vm_compute; reflexivity..|].
    exists s'. split; [exact Hs'|]. split; [exact Hc|]. by apply Hrep.
  - destruct (Hold keepalive_no_respond automaton_server
                {| ka_flags_ := 0; ka_position_ := 0; ka_data_ := [] |})
      as (s' & Hs' & Ht & _ & _ & Hcb & _);
      [vm_compute; reflexivity..|].
    exists s'. split; [exact Hs'|]. split; [exact Ht|]. by apply Hcb.
Defined.

Lemma resume_request_spec_witness :
  (∃ s' : RS,
     RSocketStateMachine.resumeFromPositionOrClose 0 (-1)
       resumable_serving_server = Some (true, s')
     ∧ RSocketStateMachine.streams_ s'
       = RSocketStateMachine.streams_ resumable_serving_server)
  ∧ (∃ s' : RS,
       RSocketStateMachine.resumeFromPositionOrClose 5 (-1)
         resumable_serving_server = Some (false, s')
       ∧ RSocketStateMachine.isClosed_ s' = true)
  ∧ ∃ s' : CA,
      onConnectionFrame simpleCodec resume_known automaton_server = Some s'
      ∧ events_ s' =
          events_ automaton_server
          ++ [Stats_frameWritten RESUME_OK;
              Transport_outputFrameOrEnqueue 7 (header RESUME_OK 0 12 0);
              Stream_onCleanResume responder_4;
              Stream_onCleanResume responder_2].
Proof.
  destruct (resume_request_spec (RT:=Z) (RC:=InMemResumeManager)
              (RM:=InMemResumeManager) simpleCodec) as [Hnew Hold].
  split; [|split].
  - pose proof (Hnew 0%Z (-1)%Z resumable_serving_server
                  (simpleSerializer v1_0) 7
                  eq_refl eq_refl eq_refl eq_refl) as Hw.
    match type of Hw with
    | if ?c then _ else _ => change c with true in Hw
    end.
    destruct Hw as (s' & es & Hr & _ & Hst & _). by exists s'.
  - pose proof (Hnew 5%Z (-1)%Z resumable_serving_server
                  (simpleSerializer v1_0) 7
                  eq_refl eq_refl eq_refl eq_refl) as Hw.
    match type of Hw with
    | if ?c then _ else _ => change c with false in Hw
    end.
    destruct Hw as (m & s' & Hr & Hc & _). by exists s'.
  - pose proof (Hold resume_known automaton_server
                  {| rs_token_ := known_token;
                     rs_lastReceivedServerPosition_ := 0;
                     rs_clientPosition_ := 0; rs_version_ := v1_0 |}
                  eq_refl eq_refl) as Hw.
    match type of Hw with
    | match ?c with Some _ => _ | None => _ end =>
        change c with (Some kept_streamState) in Hw
    end.
    cbv beta iota zeta in Hw.
    eexists. split; [exact Hw|]. vm_compute. reflexivity.
Defined.

(** C3 as stated does not hold.  That a refused RESUME is answered with an
    ERROR frame of code REJECTED_RESUME, and that an accepted one classifies
    every live stream, fails on [RSocketStateMachine]: the ERROR frame
    carries CONNECTION_ERROR, and on acceptance no stream is told anything. *)
Lemma resume_refusal_is_a_connection_error :
  (isPositionAvailable 5%Z
     (RSocketStateMachine.resumeManager_ resumable_serving_server) = false
   ∧ ∃ s' : RS,
       RSocketStateMachine.resumeFromPositionOrClose 5 (-1)
         resumable_serving_server = Some (false, s')
       ∧ (λ frame, errorCode_ <$> parse_ERROR frame)
           <$> sent_frames 7
                 (drop
                    (length
                       (RSocketStateMachine.events_ resumable_serving_server))
                    (RSocketStateMachine.events_ s'))
         = [Some EC_CONNECTION_ERROR]
       ∧ EC_CONNECTION_ERROR ≠ EC_REJECTED_RESUME)
  ∧ ∃ s' : RS,
      RSocketStateMachine.resumeFromPositionOrClose 0 (-1)
        resumable_serving_server = Some (true, s')
      ∧ size (RSocketStateMachine.streams_ s') = 1
      ∧ List.filter RSocketStateMachineSpec.is_classification
          (RSocketStateMachine.events_ s') = [].
Proof.
  split; [split; [vm_compute; reflexivity|]|].
  - exists (after resumable_serving_server
              (snd <$> RSocketStateMachine.resumeFromPositionOrClose 5 (-1)
                         resumable_serving_server)).
    split; [vm_compute; reflexivity|]. split; [vm_compute; reflexivity|done].
  - exists (after resumable_serving_server
              (snd <$> RSocketStateMachine.resumeFromPositionOrClose 0 (-1)
                         resumable_serving_server)).
    repeat split; vm_compute; reflexivity.
Qed.

End ConnectionAutomatonFacts.

(** * Further properties of [RSocketStateMachine] *)

Module RSocketStateMachineProperties.
Import RSocketStateMachine RSocketStateMachineSpec RSocketStateMachineNotions.
Import RSocketStateMachineFacts.
Local Open Scope nat_scope.
Local Open Scope list_scope.

Section Properties.
Context `{Declarations} {RM : Type} `{ResumeManager RM}.
Implicit Types (s : State RM) (ex : exception_wrapper)
  (signal : StreamCompletionSignal).

Ltac state_eval :=
  lazy beta iota zeta delta
    [call enqueueOutputPendingFrame moveOutputPendingFrames
     set_isResumable_ set_remoteResumeable_ set_isClosed_ set_streams_
     set_outputFrames_ set_resumeManager_ set_resumeCallback_
     set_frameTransport_ set_frameSerializer_ set_streamsFactory_
     set_connectionEvents_ set_events_
     mode_ isResumable_ remoteResumeable_ isClosed_ streams_ outputFrames_
     resumeManager_ keepaliveTimer_ resumeCallback_ frameTransport_
     frameSerializer_ streamsFactory_ connectionEvents_ events_
     non_null negb andb orb isDisconnectedOrClosed isClosed
     fst snd mbind option_bind] in *.

Ltac proj_simpl :=
  cbn [call enqueueOutputPendingFrame
       set_isResumable_ set_remoteResumeable_ set_isClosed_ set_streams_
       set_outputFrames_ set_resumeManager_ set_resumeCallback_
       set_frameTransport_ set_frameSerializer_ set_streamsFactory_
       set_connectionEvents_ set_events_
       mode_ isResumable_ remoteResumeable_ isClosed_ streams_ outputFrames_
       resumeManager_ keepaliveTimer_ resumeCallback_ frameTransport_
       frameSerializer_ streamsFactory_ connectionEvents_ events_] in *.

Ltac state_compute :=
  lazy -[app]; rewrite <- ?app_assoc, ?app_nil_r; reflexivity.

(** *** Ending all streams *)

Lemma closeStreams_loop_order fuel signal s :
  size (streams_ s) ≤ fuel →
  ∃ order,
    order ≡ₚ map_to_list (streams_ s)
    ∧ closeStreams_loop fuel signal s =
        set_streams_ ∅
          (set_resumeManager_ (streams_closed order (resumeManager_ s))
             (set_events_ (events_ s ++ ended signal order) s)).
Proof.
  revert s. induction fuel as [|fuel IH]; intros s Hsize.
  - assert (streams_ s = ∅) as Hempty by (apply map_size_empty_iff; lia).
    exists []. rewrite Hempty, map_to_list_empty. split; [done|].
    destruct s; simpl in *; subst. state_compute.
  - cbn [closeStreams_loop].
    destruct (map_to_list (streams_ s)) as [|[streamId sm] rest] eqn:Hlist.
    + exists []. split; [done|].
      apply map_to_list_empty_iff in Hlist.
      destruct s; simpl in *; subst. state_compute.
    + assert (streams_ s !! streamId = Some sm) as Hlive.
      { apply elem_of_map_to_list. rewrite Hlist. left. }
      rewrite (endStreamInternal_live _ _ _ _ Hlive). cbn [snd].
      destruct (IH (call (Stream_endStream sm signal)
                      (set_streams_ (delete streamId (streams_ s))
                         (set_resumeManager_
                            (onStreamClosed streamId (resumeManager_ s)) s))))
        as (order & Hperm & Heq).
      { proj_simpl. rewrite map_size_delete, Hlive. lia. }
      exists ((streamId, sm) :: order). split.
      * rewrite <- Hlist. proj_simpl. rewrite Hperm.
        by apply map_to_list_delete.
      * rewrite Heq. destruct s; state_compute.
Qed.

(** *** Closing *)

Lemma close_normal_form ex signal s :
  isClosed_ s = false →
  ∃ order,
    order ≡ₚ map_to_list (streams_ s)
    ∧ close ex signal s =
        set_frameTransport_ None (set_resumeCallback_ None
          (set_connectionEvents_ None (set_isClosed_ true
            (set_streams_ ∅
               (set_resumeManager_ (streams_closed order (resumeManager_ s))
                  (set_events_
                     (events_ s ++ [Stats_socketClosed signal]
                      ++ resumeError_events "RS closing" ex (resumeCallback_ s)
                      ++ onClosed_events ex (connectionEvents_ s)
                      ++ ended signal order
                      ++ transport_closed_events signal ex s) s)))))).
Proof.
  intros Hopen. rewrite (close_eq _ _ _ Hopen). unfold closeStreams.
  destruct (closeStreams_loop_order
              (size (streams_ (close_prefix ex signal s))) signal
              (close_prefix ex signal s)) as (order & Hperm & ->); [done|].
  exists order. split; [exact Hperm|].
  unfold transport_closed_events.
  destruct (frameTransport_ s) as [t|] eqn:Ht.
  - rewrite (closeFrameTransport_connected _ _ _ t) by (by destruct s).
    destruct s as [? ? ? ? ? ? ? timer cb ? ? ? ce ?]; simpl in *; subst.
    destruct timer, cb, ce; state_compute.
  - rewrite closeFrameTransport_disconnected by (by destruct s).
    destruct s as [? ? ? ? ? ? ? timer cb ? ? ? ce ?]; simpl in *; subst.
    destruct timer, cb, ce; state_compute.
Qed.

(** X1.  [close] on an open connection, step by step: the statistics are
    told, a pending resume callback fails with the text of the exception (or
    "RS closing"), [onClosed] fires, every stream ends with the signal, the
    keepalive timer stops and the transport is closed, with the exception if
    and only if the signal is CONNECTION_ERROR.  What stays is a closed
    state machine without streams, transport, resume callback and
    connection events; the pending output and the serializer are kept. *)
Theorem close_teardown ex signal s :
  isClosed_ s = false →
  ∃ order,
    order ≡ₚ map_to_list (streams_ s)
    ∧ events_ (close ex signal s) =
        events_ s ++ [Stats_socketClosed signal]
        ++ resumeError_events "RS closing" ex (resumeCallback_ s)
        ++ onClosed_events ex (connectionEvents_ s)
        ++ ended signal order
        ++ transport_closed_events signal ex s
    ∧ isClosed_ (close ex signal s) = true
    ∧ streams_ (close ex signal s) = ∅
    ∧ frameTransport_ (close ex signal s) = None
    ∧ resumeCallback_ (close ex signal s) = None
    ∧ connectionEvents_ (close ex signal s) = None
    ∧ outputFrames_ (close ex signal s) = outputFrames_ s
    ∧ frameSerializer_ (close ex signal s) = frameSerializer_ s
    ∧ resumeManager_ (close ex signal s) =
        streams_closed order (resumeManager_ s).
Proof.
  intros Hopen.
  destruct (close_normal_form ex signal s Hopen) as (order & Hperm & ->).
  exists order. split; [exact Hperm|]. proj_simpl. by repeat split.
Qed.

(** X2.  [closeStreams] ends every stream of the map exactly once, with the
    given signal, tells the resume manager about each of them, and leaves
    the map empty; nothing else changes. *)
Theorem closeStreams_ends_every_stream signal s :
  ∃ order,
    order ≡ₚ map_to_list (streams_ s)
    ∧ NoDup order.*1
    ∧ closeStreams signal s =
        set_streams_ ∅
          (set_resumeManager_ (streams_closed order (resumeManager_ s))
             (set_events_ (events_ s ++ ended signal order) s)).
Proof.
  destruct (closeStreams_loop_order (size (streams_ s)) signal s)
    as (order & Hperm & Heq); [done|].
  exists order. split; [exact Hperm|]. split; [|exact Heq].
  rewrite Hperm. apply NoDup_fst_map_to_list.
Qed.

(** *** Closing with an error frame *)

Lemma closeWithError_eq (error : Frame_ERROR) s d :
  data (err_payload_ error) = Some d →
  closeWithError error s =
    Some (close (Some (runtime_error (String.string_of_list_byte d)))
            (errorSignal (errorCode_ error)) (error_output error s)).
Proof.
  intros Hd. unfold closeWithError, error_output, outputFrameOrEnqueue_Frame.
  rewrite Hd. cbn [mbind option_bind].
  assert (match errorCode_ error with
          | EC_INVALID_SETUP => SIG_INVALID_SETUP
          | EC_UNSUPPORTED_SETUP => SIG_UNSUPPORTED_SETUP
          | EC_REJECTED_SETUP => SIG_REJECTED_SETUP
          | _ => SIG_ERROR
          end = errorSignal (errorCode_ error)) as -> by done.
  destruct (frameSerializer_ s) as [fs|] eqn:Hfs; cbn [non_null]; [|done].
  cbn [mbind option_bind].
  destruct (frameTransport_ s) as [t|] eqn:Ht.
  - destruct (resumeCallback_ s) as [cb|] eqn:Hcb.
    + rewrite outputFrameOrEnqueue_enqueue by (right; by rewrite Hcb). done.
    + rewrite (outputFrameOrEnqueue_send _ _ t), (outputFrame_connected _ _ fs t)
        by done. done.
  - rewrite outputFrameOrEnqueue_enqueue by (by left). done.
Qed.

Lemma errorSignal_not_transport code : errorSignal code ≠ SIG_CONNECTION_ERROR.
Proof. by destruct code. Qed.

(** X3.  [closeWithError] on an open, connected connection with no resume
    in flight: the ERROR frame is written to the transport first; then the
    connection closes with the signal that belongs to the error code
    (INVALID_SETUP, UNSUPPORTED_SETUP and REJECTED_SETUP keep their name,
    every other code is ERROR) and [onClosed] gets the text of the frame;
    the transport is closed last, with [close()] and never with the
    exception. *)
Theorem closeWithError_sends_then_closes (error : Frame_ERROR) s d fs t :
  data (err_payload_ error) = Some d →
  isClosed_ s = false → frameSerializer_ s = Some fs →
  frameTransport_ s = Some t → resumeCallback_ s = None →
  ∃ s' order,
    closeWithError error s = Some s'
    ∧ order ≡ₚ map_to_list (streams_ s)
    ∧ events_ s' =
        events_ s
        ++ [Stats_frameWritten (peekFrameType fs (serializeOut fs (F_ERROR error)));
            Transport_outputFrameOrEnqueue t (serializeOut fs (F_ERROR error));
            Stats_socketClosed (errorSignal (errorCode_ error))]
        ++ onClosed_events
             (Some (runtime_error (String.string_of_list_byte d)))
             (connectionEvents_ s)
        ++ ended (errorSignal (errorCode_ error)) order
        ++ stop_events (keepaliveTimer_ s) ++ [Transport_close t]
    ∧ isClosed_ s' = true ∧ frameTransport_ s' = None ∧ streams_ s' = ∅.
Proof.
  intros Hd Hopen Hfs Ht Hcb. rewrite (closeWithError_eq _ _ _ Hd).
  unfold error_output. rewrite Hfs, Ht, Hcb.
  destruct (close_normal_form
              (Some (runtime_error (String.string_of_list_byte d)))
              (errorSignal (errorCode_ error))
              (sent fs t (serializeOut fs (F_ERROR error)) s))
    as (order & Hperm & Heq); [by destruct s|].
  eexists _, order. split; [done|]. rewrite Heq. proj_simpl.
  split; [by destruct s|].
  split; [|done]. destruct s; simpl in *; subst.
  unfold transport_closed_events, transport_close_event, sent. proj_simpl.
  rewrite decide_False by apply errorSignal_not_transport.
  by rewrite <- !app_assoc.
Qed.

(** *** Connecting *)

Lemma flushed_eq fs t frames s :
  flushed fs t frames s =
    set_resumeManager_ (tracked fs frames s)
      (set_events_ (events_ s ++ written fs t frames) s).
Proof.
  revert s. induction frames as [|frame frames IH]; intros s.
  - destruct s as [? r ? ? ? ? ? ? ? ? ? ? ? ?]. unfold tracked.
    destruct r; state_compute.
  - rewrite flushed_cons, IH.
    destruct s as [? r ? ? ? ? ? ? ? ? ? ? ? ?]. unfold tracked, sent, written.
    destruct r; cbn; unfold set_resumeManager_, set_events_; cbn;
      by rewrite <- app_assoc.
Qed.

Lemma connect_checks (frameTransport : option FrameTransport)
  (pending : bool) version s :
  is_Some (frameTransport_ s) ∨ frameTransport = None
  ∨ (∃ t, frameTransport = Some t
          ∧ FrameTransport_isClosed t (events_ s) = true) →
  connect frameTransport pending version s = None.
Proof.
  unfold connect, isDisconnectedOrClosed.
  intros [[t0 ->]|[->|(t & -> & Hclosed)]]; [done| |].
  - by destruct (negb _).
  - destruct (negb _); [done|]. cbn [mbind option_bind]. by rewrite Hclosed.
Qed.

Lemma connect_pending_eq (t : FrameTransport) version s fs :
  frameTransport_ s = None → resumeCallback_ s = None →
  FrameTransport_isClosed t (events_ s) = false →
  serializer_agreed version s fs →
  connect (Some t) true version s =
    Some (true,
          set_outputFrames_ []
            (set_resumeManager_ (tracked fs (outputFrames_ s) s)
               (set_frameSerializer_ (Some fs)
                  (set_frameTransport_ (Some t)
                     (set_events_
                        (events_ s
                         ++ onConnected_events (connectionEvents_ s)
                         ++ [Transport_setFrameProcessor t]
                         ++ written fs t (outputFrames_ s)
                         ++ start_events (keepaliveTimer_ s)) s))))).
Proof.
  intros Ht Hcb Hopen Hagreed.
  destruct s as [? r ? ? ? out rm timer cb tr ser ? ce es];
    simpl in Ht, Hcb, Hopen; subst.
  assert (∀ s0 : State RM,
            frameSerializer_ s0 = Some fs → frameTransport_ s0 = Some t →
            resumeCallback_ s0 = None →
            outputFramesOrEnqueue out s0 =
              Some (set_resumeManager_ (tracked fs out s0)
                      (set_events_ (events_ s0 ++ written fs t out) s0)))
    as Hflush.
  { intros s0 ? ? ?. rewrite (outputFramesOrEnqueue_connected _ _ fs t) by done.
    by rewrite flushed_eq. }
  unfold connect, isDisconnectedOrClosed. cbn [frameTransport_ non_null negb].
  cbn [mbind option_bind events_]. rewrite Hopen.
  destruct Hagreed as [[Hfs Hv]|(Hfs & Hv & Hcreate)]; simpl in Hfs; subst.
  - assert ((if decide (version = ProtocolVersion_Unknown)
             then true else
               bool_decide (protocolVersion fs = version)) = true) as Hok.
    { destruct (decide (version = ProtocolVersion_Unknown)); [done|].
      destruct Hv; [done|]. by apply bool_decide_eq_true. }
    destruct (decide (version = ProtocolVersion_Unknown)) as [Hu|Hu].
    + cbn [frameSerializer_ negb connectionEvents_ moveOutputPendingFrames
           outputFrames_].
      destruct ce; (rewrite Hflush by done); destruct timer, r; state_compute.
    + cbn [frameSerializer_].
      destruct (decide (protocolVersion fs = version)) as [Hp|Hp];
        [|by apply bool_decide_eq_true in Hok].
      cbn [negb connectionEvents_ moveOutputPendingFrames outputFrames_].
      destruct ce; (rewrite Hflush by done); destruct timer, r; state_compute.
  - rewrite decide_False by done. cbn [frameSerializer_]. rewrite Hcreate.
    cbn [negb connectionEvents_ moveOutputPendingFrames outputFrames_
         set_frameSerializer_ set_frameTransport_ mode_ isResumable_
         remoteResumeable_ isClosed_ streams_ resumeManager_ keepaliveTimer_
         resumeCallback_ frameTransport_ streamsFactory_ events_].
    destruct ce; (rewrite Hflush by done); destruct timer, r; state_compute.
Qed.

(** X4.  [connect] fails a CHECK when a transport is bound, when the
    transport handed in is null, and when it is closed.  Otherwise, with
    [sendingPendingFrames] on a state machine that is not resuming, when
    the serializer question is settled ([serializer_agreed]): it returns
    true and binds the transport; [onConnected] fires and the state machine
    becomes the frame processor before anything is written; then the
    pending output goes to the transport, frame by frame in the order it
    was queued (each frame tracked if the connection is resumable), the
    queue is left empty and the keepalive timer is started. *)
Theorem connect_flushes_pending (t : FrameTransport) version s fs :
  (is_Some (frameTransport_ s) →
   ∀ frameTransport pending v, connect frameTransport pending v s = None)
  ∧ (∀ pending v, connect None pending v s = None)
  ∧ (FrameTransport_isClosed t (events_ s) = true →
     ∀ pending v, connect (Some t) pending v s = None)
  ∧ (frameTransport_ s = None → resumeCallback_ s = None →
     FrameTransport_isClosed t (events_ s) = false →
     serializer_agreed version s fs →
     ∃ s',
       connect (Some t) true version s = Some (true, s')
       ∧ frameTransport_ s' = Some t
       ∧ frameSerializer_ s' = Some fs
       ∧ outputFrames_ s' = []
       ∧ events_ s' =
           events_ s ++ onConnected_events (connectionEvents_ s)
           ++ [Transport_setFrameProcessor t]
           ++ written fs t (outputFrames_ s)
           ++ start_events (keepaliveTimer_ s)
       ∧ sent_frames t (events_ s') =
           sent_frames t (events_ s) ++ outputFrames_ s
       ∧ resumeManager_ s' = tracked fs (outputFrames_ s) s
       ∧ streams_ s' = streams_ s
       ∧ isClosed_ s' = isClosed_ s).
Proof.
  split; [|split; [|split]].
  - intros Hbound ? ? ?. apply connect_checks. by left.
  - intros ? ?. apply connect_checks. by right; left.
  - intros Hclosed ? ?. apply connect_checks. right; right. by exists t.
  - intros Ht Hcb Hopen Hagreed.
    rewrite (connect_pending_eq t version s fs Ht Hcb Hopen Hagreed).
    eexists. split; [done|]. proj_simpl. repeat split; try done.
    rewrite !sent_frames_app, sent_frames_written.
    assert (sent_frames t (onConnected_events (connectionEvents_ s)) = [])
      as -> by (by destruct (connectionEvents_ s)).
    assert (sent_frames t (start_events (keepaliveTimer_ s)) = [])
      as -> by (by destruct (keepaliveTimer_ s)).
    cbn. by rewrite app_nil_r.
Qed.

(** X5.  [connect] refuses an open transport over a protocol version
    question: when a version is asked for and the serializer at hand has
    another one, or there is no serializer and none can be made for the
    version.  The offered transport is closed with "Protocol version
    mismatch" or "Invalid protocol version"; the state machine itself is
    left as it was: not connected, no callback fired, pending output
    untouched.  [resumeServer] and [connectServer] return false with it.
    The CHECK on the transport comes first: with a closed transport the
    three calls abort instead. *)
Theorem connect_refuses_version (t : FrameTransport) (pending : bool)
  version s :
  frameTransport_ s = None →
  version ≠ ProtocolVersion_Unknown →
  match frameSerializer_ s with
  | Some fs => protocolVersion fs ≠ version
  | None => createFrameSerializer version = None
  end →
  if FrameTransport_isClosed t (events_ s)
  then
    connect (Some t) pending version s = None
    ∧ (∀ serverPosition clientPosition,
         resumeServer (Some t) version serverPosition clientPosition s = None)
    ∧ ∀ resumable, connectServer (Some t) resumable version s = None
  else
    connect (Some t) pending version s =
      Some (false,
            call (Transport_closeWithError t
                    (Some (runtime_error
                             (if non_null (frameSerializer_ s)
                              then "Protocol version mismatch"
                              else "Invalid protocol version")))) s)
    ∧ (∀ serverPosition clientPosition,
         resumeServer (Some t) version serverPosition clientPosition s
         = connect (Some t) false version s)
    ∧ ∀ resumable, ∃ s',
        connectServer (Some t) resumable version s = Some (false, s')
        ∧ frameTransport_ s' = None
        ∧ outputFrames_ s' = outputFrames_ s
        ∧ sent_frames t (events_ s') = sent_frames t (events_ s).
Proof.
  intros Ht Hv Hser.
  destruct (FrameTransport_isClosed t (events_ s)) eqn:Hopen.
  { assert (∀ (b : bool) (s0 : State RM),
              events_ s0 = events_ s → connect (Some t) b version s0 = None)
      as Hcheck.
    { intros b s0 He. apply connect_checks. right; right. exists t.
      by rewrite He. }
    split; [by apply Hcheck|]. split.
    - intros ? ?. unfold resumeServer. by rewrite Hcheck.
    - intros resumable. unfold connectServer. apply Hcheck. by destruct s. }
  assert (∀ (b : bool) (s0 : State RM),
            frameTransport_ s0 = None →
            frameSerializer_ s0 = frameSerializer_ s →
            events_ s0 = events_ s →
            connect (Some t) b version s0 =
              Some (false,
                    call (Transport_closeWithError t
                            (Some (runtime_error
                                     (if non_null (frameSerializer_ s)
                                      then "Protocol version mismatch"
                                      else "Invalid protocol version")))) s0))
    as Hconnect.
  { intros b s0 Ht0 Hs0 He0. unfold connect, isDisconnectedOrClosed.
    rewrite Ht0, Hs0. cbn [non_null negb mbind option_bind].
    rewrite He0, Hopen. rewrite decide_False by done.
    destruct (frameSerializer_ s) as [fs|].
    - by rewrite decide_False.
    - by rewrite Hser. }
  split; [by apply Hconnect|]. split.
  - intros ? ?. unfold resumeServer. by rewrite Hconnect.
  - intros resumable. unfold connectServer.
    rewrite Hconnect by (by destruct s). eexists. split; [done|].
    destruct s; simpl in *. repeat split; try done.
    by rewrite sent_frames_app, app_nil_r.
Qed.

Lemma disconnect_events_quiet ex s (t : FrameTransport) :
  sent_frames t (events_ (disconnect ex s)) = sent_frames t (events_ s).
Proof.
  destruct (frameTransport_ s) as [t0|] eqn:Ht.
  - rewrite (disconnect_connected _ _ _ Ht). proj_simpl.
    rewrite !sent_frames_app.
    destruct (connectionEvents_ s), (keepaliveTimer_ s), (resumeCallback_ s);
      cbn; by rewrite ?app_nil_r.
  - by rewrite disconnect_disconnected.
Qed.

Lemma outputFramesOrEnqueue_disconnected frames s :
  frameTransport_ s = None →
  outputFramesOrEnqueue frames s =
    Some (set_outputFrames_ (outputFrames_ s ++ frames) s).
Proof.
  revert s. induction frames as [|frame frames IH]; intros s Ht.
  - cbn. rewrite app_nil_r. by destruct s.
  - cbn [outputFramesOrEnqueue].
    rewrite outputFrameOrEnqueue_enqueue by (by left).
    cbn [mbind option_bind]. rewrite IH by (by destruct s).
    destruct s. cbn. unfold set_outputFrames_. cbn. by rewrite <- app_assoc.
Qed.

Lemma disconnect_closes_transport ex s (t : FrameTransport) :
  frameTransport_ s = Some t →
  FrameTransport_isClosed t (events_ (disconnect ex s)) = true.
Proof.
  intros Ht. apply FrameTransport_isClosed_after_close.
  apply existsb_exists. exists (Transport_close t). split.
  - rewrite (disconnect_connected _ _ _ Ht). proj_simpl.
    apply list_elem_of_In. set_solver.
  - cbn. by apply bool_decide_eq_true.
Qed.

(** X6.  No output is lost or reordered over a reconnection.  After
    [disconnect], frames handed to the outbound path are only queued; the
    next [connect], on a transport that is open, writes what was pending
    before, followed by those frames, in order, to the new transport, and
    empties the queue.  The transport that [disconnect] closed cannot be
    connected again: [connect] fails its CHECK. *)
Theorem pending_output_survives_disconnect (frames : list IOBuf) ex
  (t : FrameTransport) s fs :
  frameSerializer_ s = Some fs →
  (frameTransport_ s = None → resumeCallback_ s = None) →
  ∃ s1,
    outputFramesOrEnqueue frames (disconnect ex s) = Some s1
    ∧ events_ s1 = events_ (disconnect ex s)
    ∧ (∀ t0 pending v,
         frameTransport_ s = Some t0 → connect (Some t0) pending v s1 = None)
    ∧ (FrameTransport_isClosed t (events_ (disconnect ex s)) = false →
       ∃ s2,
         connect (Some t) true ProtocolVersion_Unknown s1 = Some (true, s2)
         ∧ sent_frames t (events_ s2) =
             sent_frames t (events_ s) ++ outputFrames_ s ++ frames
         ∧ outputFrames_ s2 = []
         ∧ streams_ s2 = streams_ s).
Proof.
  intros Hfs Hcons.
  assert (frameTransport_ (disconnect ex s) = None
          ∧ resumeCallback_ (disconnect ex s) = None
          ∧ frameSerializer_ (disconnect ex s) = Some fs
          ∧ outputFrames_ (disconnect ex s) = outputFrames_ s
          ∧ streams_ (disconnect ex s) = streams_ s)
    as (Ht & Hcb & Hfs' & Hout & Hst).
  { destruct (frameTransport_ s) as [t0|] eqn:Ht.
    - rewrite (disconnect_connected _ _ _ Ht). by proj_simpl.
    - rewrite disconnect_disconnected by done. auto. }
  rewrite (outputFramesOrEnqueue_disconnected _ _ Ht).
  eexists. split; [done|]. split; [by destruct (disconnect ex s)|]. split.
  - intros t0 pending v Ht0. apply connect_checks. right; right.
    exists t0. split; [done|].
    rewrite <- (disconnect_closes_transport ex s t0 Ht0).
    by destruct (disconnect ex s).
  - intros Hopen.
    rewrite (connect_pending_eq t _ _ fs);
      [| by destruct (disconnect ex s) | by destruct (disconnect ex s)
       | by destruct (disconnect ex s)
       | left; split; [by destruct (disconnect ex s) | by left] ].
    eexists. split; [done|]. proj_simpl. rewrite Hout, Hst. split; [|done].
    rewrite !sent_frames_app, sent_frames_written, disconnect_events_quiet.
    assert (∀ ce, sent_frames t (onConnected_events ce) = [])
      as -> by (by intros []).
    assert (∀ timer, sent_frames t (start_events timer) = [])
      as -> by (by intros []).
    cbn. by rewrite app_nil_r.
Qed.

Lemma connect_plain_eq (t : FrameTransport) s :
  frameTransport_ s = None →
  FrameTransport_isClosed t (events_ s) = false →
  connect (Some t) false ProtocolVersion_Unknown s =
    Some (true,
          set_frameTransport_ (Some t)
            (set_events_
               (events_ s ++ onConnected_events (connectionEvents_ s)
                ++ [Transport_setFrameProcessor t]) s)).
Proof.
  intros Ht Hopen. unfold connect, isDisconnectedOrClosed. rewrite Ht.
  cbn [non_null negb mbind option_bind]. rewrite Hopen.
  rewrite decide_True by done. cbn [negb].
  destruct s as [? ? ? ? ? ? ? ? ? ? ? ? ce ?]. destruct ce; state_compute.
Qed.

(** *** Resuming as a client *)

(** X7.  [tryClientResume] on a client that has a serializer, with a
    transport that is still open once the old connection is gone: the
    RESUME frame (token, implied position, first sent position, protocol
    version) is written to the new transport, and it is the only frame
    written; the old connection, if there is one, is disconnected; the state
    machine becomes resumable, keeps the resume callback and binds the new
    transport.  Streams, pending output and resume manager are as before:
    nothing is flushed and the keepalive timer is not started until
    RESUME_OK arrives.  The call aborts on a server (a CHECK of
    [reconnect]), with a null transport or a null callback, and when it is
    handed the transport that is bound: it closes that transport before it
    connects. *)
Theorem tryClientResume_sends_resume_only (token : list Byte.byte)
  (t : FrameTransport) (cb : ClientResumeStatusCallback) s fs :
  frameSerializer_ s = Some fs →
  (frameTransport_ s = None → resumeCallback_ s = None) →
  (mode_ s = CLIENT →
   FrameTransport_isClosed t
     (events_
        (disconnect
           (Some (runtime_error "resuming client on a different connection"))
           (call (Transport_outputFrameOrEnqueue t
                    (serializeOut fs (F_RESUME (resume_frame token fs s))))
              s))) = false →
   ∃ s',
     tryClientResume token (Some t) (Some cb) s = Some s'
     ∧ events_ s' =
         events_
           (disconnect
              (Some (runtime_error "resuming client on a different connection"))
              (call (Transport_outputFrameOrEnqueue t
                       (serializeOut fs (F_RESUME (resume_frame token fs s))))
                 s))
         ++ onConnected_events (connectionEvents_ s)
         ++ [Transport_setFrameProcessor t]
     ∧ sent_frames t (events_ s') =
         sent_frames t (events_ s)
         ++ [serializeOut fs (F_RESUME (resume_frame token fs s))]
     ∧ resumeCallback_ s' = Some cb
     ∧ frameTransport_ s' = Some t
     ∧ isResumable_ s' = true ∧ remoteResumeable_ s' = true
     ∧ outputFrames_ s' = outputFrames_ s
     ∧ streams_ s' = streams_ s
     ∧ resumeManager_ s' = resumeManager_ s
     ∧ isClosed_ s' = isClosed_ s)
  ∧ (mode_ s = SERVER → tryClientResume token (Some t) (Some cb) s = None)
  ∧ (frameTransport_ s = Some t →
     tryClientResume token (Some t) (Some cb) s = None)
  ∧ tryClientResume token None (Some cb) s = None
  ∧ tryClientResume token (Some t) None s = None.
Proof.
  intros Hfs Hcons.
  set (ex := Some (runtime_error "resuming client on a different connection")).
  set (frame := serializeOut fs (F_RESUME (resume_frame token fs s))).
  pose (s1 := disconnect ex (call (Transport_outputFrameOrEnqueue t frame) s)).
  assert (∀ resumeCallback,
            tryClientResume token (Some t) resumeCallback s
            = reconnect (Some t) resumeCallback (setResumable true s1))
    as Htry.
  { intros ?. unfold tryClientResume. rewrite Hfs. done. }
  assert (frameTransport_ s1 = None ∧ resumeCallback_ s1 = None
          ∧ mode_ s1 = mode_ s ∧ outputFrames_ s1 = outputFrames_ s
          ∧ streams_ s1 = streams_ s ∧ resumeManager_ s1 = resumeManager_ s
          ∧ isClosed_ s1 = isClosed_ s
          ∧ connectionEvents_ s1 = connectionEvents_ s)
    as (Ht1 & Hcb1 & Hm1 & Hout1 & Hst1 & Hrm1 & Hcl1 & Hce1).
  { subst s1. destruct (frameTransport_ s) as [t0|] eqn:Ht.
    - rewrite (disconnect_connected _ _ t0) by (by destruct s).
      by destruct s.
    - rewrite disconnect_disconnected by (by destruct s).
      specialize (Hcons eq_refl). by destruct s. }
  split; [|split; [|split; [|split]]].
  - intros Hmode Hopen. rewrite Htry. unfold reconnect.
    assert (resumeCallback_ (setResumable true s1) = None) as ->
      by (by destruct s1).
    assert (isResumable_ (setResumable true s1) = true) as ->
      by (by destruct s1).
    assert (mode_ (setResumable true s1) = CLIENT) as ->
      by (destruct s1; simpl in *; congruence).
    cbn [non_null negb]. rewrite bool_decide_eq_true_2 by done. cbn [negb].
    rewrite connect_plain_eq; [|by destruct s1|exact Hopen].
    cbn [mbind option_bind]. eexists. split; [done|].
    clear Hopen.
    destruct s1 as [? ? ? ? ? ? ? ? ? ? ? ? ? es1] eqn:Hs1.
    simpl in *; subst.
    assert (es1 = events_ s1) as Hes1 by (by rewrite Hs1).
    repeat split; try done.
    + rewrite !app_assoc. do 2 f_equal. rewrite Hes1. done.
    + rewrite !sent_frames_app, Hes1. subst s1.
      rewrite disconnect_events_quiet. proj_simpl.
      rewrite sent_frames_app. cbn. rewrite decide_True by done. cbn.
      destruct (connectionEvents_ s); cbn; by rewrite ?app_nil_r.
  - intros Hmode. rewrite Htry. unfold reconnect.
    assert (resumeCallback_ (setResumable true s1) = None) as ->
      by (by destruct s1).
    assert (isResumable_ (setResumable true s1) = true) as ->
      by (by destruct s1).
    assert (mode_ (setResumable true s1) = SERVER) as ->
      by (destruct s1; simpl in *; congruence).
    done.
  - intros Ht. rewrite Htry. unfold reconnect. cbn [non_null negb].
    repeat (match goal with
            | |- (if ?c then None else _) = None => destruct c; [done|]
            end).
    rewrite connect_checks; [done|]. right; right. exists t.
    split; [done|].
    rewrite <- (disconnect_closes_transport ex
                  (call (Transport_outputFrameOrEnqueue t frame) s) t)
      by (by destruct s).
    done.
  - unfold tryClientResume. by rewrite Hfs.
  - rewrite Htry. done.
Qed.

(** *** Setting up as a client *)

Section ClientSetup.
Variable FrameFlags_RESUME_ENABLE : FrameFlags.
Variables Frame_SETUP_kMaxKeepaliveTime Frame_SETUP_kMaxLifetime : N.
Variable createCurrentVersion : option FrameSerializer.
Variable serializeOut_SETUP : FrameSerializer → Frame_SETUP → IOBuf.
Variable keepaliveTime : KeepaliveTimer → Z.

(** X8.  [connectClientSendSetup] on a disconnected client: the serializer
    is the current version if the parameters name no version, and the one
    made for the named version otherwise (one that was set before is
    replaced); the SETUP frame carries RESUME_ENABLE exactly when the
    parameters ask for a resumable connection, the version of the
    serializer, and the keepalive time of the timer (as a 32-bit number) or
    the maximum if there is no timer.  The SETUP frame is the first frame on
    the transport, written before the state machine connects; the pending
    output follows it in order.  When no serializer can be made the call
    fails a CHECK, and so it does, after the SETUP frame was handed to the
    transport, when the transport is closed by then. *)
Theorem connectClientSendSetup_setup_first (t : FrameTransport)
  (setupParams : SetupParameters) s :
  frameTransport_ s = None → resumeCallback_ s = None →
  match (if decide (sp_protocolVersion setupParams = ProtocolVersion_Unknown)
         then createCurrentVersion
         else createFrameSerializer (sp_protocolVersion setupParams)) with
  | Some fs =>
      if FrameTransport_isClosed t
           (events_ s
            ++ [Transport_outputFrameOrEnqueue t
                  (serializeOut_SETUP fs
                     (setup_frame FrameFlags_RESUME_ENABLE
                        Frame_SETUP_kMaxKeepaliveTime Frame_SETUP_kMaxLifetime
                        keepaliveTime setupParams fs s))])
      then
        connectClientSendSetup FrameFlags_RESUME_ENABLE
          Frame_SETUP_kMaxKeepaliveTime Frame_SETUP_kMaxLifetime
          createCurrentVersion serializeOut_SETUP keepaliveTime
          t setupParams s = None
      else
      ∃ s',
        connectClientSendSetup FrameFlags_RESUME_ENABLE
          Frame_SETUP_kMaxKeepaliveTime Frame_SETUP_kMaxLifetime
          createCurrentVersion serializeOut_SETUP keepaliveTime
          t setupParams s = Some s'
        ∧ events_ s' =
            events_ s
            ++ [Transport_outputFrameOrEnqueue t
                  (serializeOut_SETUP fs
                     (setup_frame FrameFlags_RESUME_ENABLE
                        Frame_SETUP_kMaxKeepaliveTime Frame_SETUP_kMaxLifetime
                        keepaliveTime setupParams fs s))]
            ++ onConnected_events (connectionEvents_ s)
            ++ [Transport_setFrameProcessor t]
            ++ written fs t (outputFrames_ s)
            ++ start_events (keepaliveTimer_ s)
        ∧ sent_frames t (events_ s') =
            sent_frames t (events_ s)
            ++ serializeOut_SETUP fs
                 (setup_frame FrameFlags_RESUME_ENABLE
                    Frame_SETUP_kMaxKeepaliveTime Frame_SETUP_kMaxLifetime
                    keepaliveTime setupParams fs s)
               :: outputFrames_ s
        ∧ frameSerializer_ s' = Some fs
        ∧ frameTransport_ s' = Some t
        ∧ isResumable_ s' = sp_resumable setupParams
        ∧ remoteResumeable_ s' = sp_resumable setupParams
        ∧ outputFrames_ s' = []
  | None =>
      connectClientSendSetup FrameFlags_RESUME_ENABLE
        Frame_SETUP_kMaxKeepaliveTime Frame_SETUP_kMaxLifetime
        createCurrentVersion serializeOut_SETUP keepaliveTime
        t setupParams s = None
  end.
Proof.
  intros Ht Hcb. unfold connectClientSendSetup.
  destruct (if decide (sp_protocolVersion setupParams = ProtocolVersion_Unknown)
            then createCurrentVersion
            else createFrameSerializer (sp_protocolVersion setupParams))
    as [fs|]; [|done].
  cbn [setFrameSerializer mbind option_bind].
  assert (frameSerializer_
            (setResumable (sp_resumable setupParams)
               (set_frameSerializer_ (Some fs) s)) = Some fs) as ->
    by (by destruct s).
  cbn [mbind option_bind].
  destruct (FrameTransport_isClosed t _) eqn:Hopen.
  { rewrite connect_checks; [done|]. right; right. exists t.
    split; [done|]. exact Hopen. }
  rewrite (connect_pending_eq t _ _ fs);
    [| by destruct s | by destruct s | exact Hopen
     | left; split; [by destruct s|by left] ].
  cbn [mbind option_bind]. eexists. split; [done|].
  clear Hopen.
  destruct s as [? ? ? ? ? out ? timer ? ? ? ? ce es]. proj_simpl. subst.
  unfold setup_frame, getKeepaliveTime, setResumable. proj_simpl.
  split; [by rewrite <- !app_assoc|]. split; [|done].
  rewrite !sent_frames_app, sent_frames_written.
  assert (sent_frames t (onConnected_events ce) = []) as ->
    by (by destruct ce).
  assert (sent_frames t (start_events timer) = []) as -> by (by destruct timer).
  cbn. rewrite decide_True by done. cbn. by rewrite app_nil_r, <- app_assoc.
Qed.

End ClientSetup.

(** *** Inbound frames never abort the state machine *)

Lemma same_settings_refl s : same_settings s s.
Proof. by repeat split. Qed.

Lemma same_settings_trans s1 s2 s3 :
  same_settings s1 s2 → same_settings s2 s3 → same_settings s1 s3.
Proof.
  intros (?&?&?&?&Hfs12) (?&?&?&?&Hfs23).
  repeat split; try congruence. intros fs Hfs. by apply Hfs23, Hfs12.
Qed.

Lemma benign_refl s : benign s s.
Proof. repeat split; done. Qed.

Lemma benign_trans s1 s2 s3 : benign s1 s2 → benign s2 s3 → benign s1 s3.
Proof.
  intros (Hc12&Ht12&Hcb12&Hset12) (Hc23&Ht23&Hcb23&Hset23).
  split; [congruence|]. split; [congruence|]. split; [congruence|].
  by eapply same_settings_trans.
Qed.

Lemma benign_resume_on_transport s s' :
  resume_on_transport s → benign s s' → resume_on_transport s'.
Proof.
  intros Hres (Hc & Ht & Hcb & _). unfold resume_on_transport.
  rewrite Hcb, Ht. exact Hres.
Qed.

Lemma returns_well_refl s : resume_on_transport s → returns_well s (Some s).
Proof.
  intros. exists s. split; [done|].
  split; [done|apply same_settings_refl].
Qed.

Lemma returns_well_benign s s' :
  resume_on_transport s → benign s s' → returns_well s (Some s').
Proof.
  intros Hs Hb. exists s'. split; [done|].
  split; [by eapply benign_resume_on_transport|apply Hb].
Qed.

Lemma returns_well_after s s1 r :
  same_settings s s1 → returns_well s1 r → returns_well s r.
Proof.
  intros Hset (s' & -> & Hs' & Hset'). exists s'. split; [done|].
  split; [done|by eapply same_settings_trans].
Qed.

Lemma close_returns_well ex signal s :
  resume_on_transport s → returns_well s (Some (close ex signal s)).
Proof.
  intros Hs. destruct (isClosed_ s) eqn:Hc.
  - rewrite close_closed by done. by apply returns_well_refl.
  - destruct (close_normal_form ex signal s Hc) as (order & _ & ->).
    eexists. split; [done|]. split.
    + unfold resume_on_transport. proj_simpl. by intros [? ?].
    + by repeat split.
Qed.

Lemma call_benign e s : benign s (call e s).
Proof. by repeat split. Qed.

Lemma enqueue_benign frame s : benign s (enqueueOutputPendingFrame frame s).
Proof. by repeat split. Qed.

Lemma sent_benign fs t frame s : benign s (sent fs t frame s).
Proof. by repeat split. Qed.

Lemma error_output_benign error s : benign s (error_output error s).
Proof.
  unfold error_output. destruct (frameSerializer_ s); [|apply benign_refl].
  destruct (frameTransport_ s), (resumeCallback_ s);
    (apply sent_benign || apply enqueue_benign).
Qed.

Lemma closeWithError_returns_well (m : string) s :
  resume_on_transport s →
  returns_well s (closeWithError (Frame_ERROR_connectionError m) s).
Proof.
  intros Hs. rewrite closeWithError_connectionError.
  eapply returns_well_after; [apply error_output_benign|].
  apply close_returns_well. eapply benign_resume_on_transport; [done|].
  apply error_output_benign.
Qed.

Lemma outputFrameOrEnqueue_benign frame s fs :
  frameSerializer_ s = Some fs →
  ∃ s', outputFrameOrEnqueue frame s = Some s' ∧ benign s s'.
Proof.
  intros Hfs. destruct (frameTransport_ s) as [t|] eqn:Ht.
  - destruct (resumeCallback_ s) as [cb|] eqn:Hcb.
    + rewrite outputFrameOrEnqueue_enqueue by (right; by rewrite Hcb).
      eexists. split; [done|apply enqueue_benign].
    + rewrite (outputFrameOrEnqueue_send _ _ t), (outputFrame_connected _ _ fs t)
        by done.
      eexists. split; [done|apply sent_benign].
  - rewrite outputFrameOrEnqueue_enqueue by (by left).
    eexists. split; [done|apply enqueue_benign].
Qed.

Lemma deserializeFrameOrError_cases {T}
  (f : FrameSerializer → IOBuf → option T) payload s fs :
  resume_on_transport s → frameSerializer_ s = Some fs →
  (∃ frame, f fs payload = Some frame
            ∧ deserializeFrameOrError f payload s = Some (Some frame, s))
  ∨ (∃ s', deserializeFrameOrError f payload s = Some (None, s')
           ∧ resume_on_transport s' ∧ same_settings s s').
Proof.
  intros Hs Hfs. destruct (f fs payload) as [frame|] eqn:Hd.
  - left. exists frame. split; [done|].
    by apply (deserializeFrameOrError_ok f payload s fs).
  - right. destruct (deserializeFrameOrError_invalid f payload s fs Hfs Hd)
      as (s' & Hclose & ->).
    destruct (closeWithError_returns_well "Invalid frame" s Hs)
      as (s'' & Heq & ? & ?).
    exists s'. split; [done|]. rewrite Hclose in Heq. by simplify_eq.
Qed.

Lemma set_resumeManager_benign rm s : benign s (set_resumeManager_ rm s).
Proof. by repeat split. Qed.

Lemma sendKeepalive_benign flags data s fs :
  frameSerializer_ s = Some fs →
  ∃ s', sendKeepalive flags data s = Some s' ∧ benign s s'.
Proof.
  intros Hfs. unfold sendKeepalive. rewrite Hfs. cbn [mbind option_bind].
  by apply (outputFrameOrEnqueue_benign _ _ fs).
Qed.

Lemma resumeFromPosition_returns_well position s fs t :
  frameSerializer_ s = Some fs → frameTransport_ s = Some t →
  resumeCallback_ s = None → isClosed_ s = false →
  returns_well s (resumeFromPosition position s).
Proof.
  intros Hfs Ht Hcb Hc.
  destruct (resumeFromPosition_connected position s fs t Hfs Ht Hcb)
    as (rm & ->).
  eexists. split; [done|]. split.
  - unfold resume_on_transport. proj_simpl. rewrite Hcb. by intros [? ?].
  - by repeat split.
Qed.

Lemma handleConnectionFrame_returns_well frameType payload s fs :
  resume_on_transport s → isClosed_ s = false →
  frameSerializer_ s = Some fs →
  returns_well s (handleConnectionFrame frameType payload s).
Proof.
  intros Hs Hc Hfs.
  destruct frameType; try apply (closeWithError_returns_well _ s Hs).
  - (* KEEPALIVE *)
    unfold handleConnectionFrame.
    destruct (deserializeFrameOrError_cases
                (λ fs, deserializeFrom_KEEPALIVE fs (remoteResumeable_ s))
                payload s fs Hs Hfs)
      as [(frame & _ & ->)|(s' & -> & Hs' & Hset)]; cbn [mbind option_bind];
      [|by exists s'].
    set (s1 := set_resumeManager_ _ s).
    assert (benign s s1) as Hb by apply set_resumeManager_benign.
    assert (resume_on_transport s1) as Hs1
      by (by eapply benign_resume_on_transport).
    destruct (bool_decide (mode_ s1 = SERVER)).
    + destruct (flag_set _ _).
      * destruct (sendKeepalive_benign FrameFlags_EMPTY (ka_data_ frame) s1 fs)
          as (s' & -> & Hb'); [by destruct s|].
        apply returns_well_benign; [done|by eapply benign_trans].
      * eapply returns_well_after; [apply Hb|].
        by apply closeWithError_returns_well.
    + destruct (flag_set _ _).
      * eapply returns_well_after; [apply Hb|].
        by apply closeWithError_returns_well.
      * destruct (non_null _).
        -- apply returns_well_benign; [done|].
           eapply benign_trans; [apply Hb|apply call_benign].
        -- by apply returns_well_benign.
  - (* ERROR *)
    unfold handleConnectionFrame.
    destruct (deserializeFrameOrError_cases deserializeFrom_ERROR
                payload s fs Hs Hfs)
      as [(frame & _ & ->)|(s' & -> & Hs' & Hset)]; cbn [mbind option_bind];
      [|by exists s'].
    destruct (resumeCallback_ s) as [cb|] eqn:Hcb.
    + destruct (bool_decide _ || bool_decide _).
      * destruct (moveDataToString (err_payload_ frame)) as [text payload_].
        eapply returns_well_after;
          [|apply close_returns_well].
        { by repeat split. }
        unfold resume_on_transport. proj_simpl. by intros [? ?].
      * by apply close_returns_well.
    + by apply close_returns_well.
  - (* METADATA_PUSH *)
    unfold handleConnectionFrame.
    destruct (deserializeFrameOrError_cases deserializeFrom_METADATA_PUSH
                payload s fs Hs Hfs)
      as [(frame & _ & ->)|(s' & -> & Hs' & Hset)]; cbn [mbind option_bind];
      [|by exists s'].
    apply returns_well_benign; [done|apply call_benign].
  - (* RESUME_OK *)
    unfold handleConnectionFrame.
    destruct (deserializeFrameOrError_cases deserializeFrom_RESUME_OK
                payload s fs Hs Hfs)
      as [(frame & _ & ->)|(s' & -> & Hs' & Hset)]; cbn [mbind option_bind];
      [|by exists s'].
    destruct (resumeCallback_ s) as [cb|] eqn:Hcb;
      [|by apply closeWithError_returns_well].
    destruct (isPositionAvailable _ _); cbn [negb];
      [|by apply closeWithError_returns_well].
    destruct (Hs (ltac:(by rewrite Hcb))) as [t Ht].
    eapply returns_well_after;
      [|apply (resumeFromPosition_returns_well _ _ fs t); by destruct s].
    by repeat split.
Qed.

Lemma addStream_benign streamId sm s :
  isClosed_ s = false → benign s (addStream streamId sm s).
Proof.
  intros Hc. unfold addStream. destruct (streams_ s !! streamId).
  - apply benign_refl.
  - by repeat split.
Qed.

Lemma set_streamsFactory_benign f s : benign s (set_streamsFactory_ f s).
Proof. by repeat split. Qed.

Lemma handleUnknownStream_returns_well streamId frameType payload s fs :
  resume_on_transport s → isClosed_ s = false →
  frameSerializer_ s = Some fs →
  returns_well s (handleUnknownStream streamId frameType payload s).
Proof.
  intros Hs Hc Hfs. unfold handleUnknownStream. rewrite Hfs.
  cbn [mbind option_bind].
  assert (∃ ok f,
            (if ProtocolVersion_gt (protocolVersion fs)
                  {| major := 0; minor := 0 |}
             then
               let '(ok, factory) :=
                 registerNewPeerStreamId streamId (streamsFactory_ s) in
               (ok, set_streamsFactory_ factory s)
             else (true, s)) = (ok, set_streamsFactory_ f s))
    as (ok & f & ->).
  { destruct (ProtocolVersion_gt _ _).
    - destruct (registerNewPeerStreamId _ _) as [ok factory]. by exists ok, factory.
    - exists true, (streamsFactory_ s). by destruct s. }
  set (s1 := set_streamsFactory_ f s).
  assert (benign s s1) as Hb by apply set_streamsFactory_benign.
  assert (resume_on_transport s1) as Hs1
    by (by eapply benign_resume_on_transport).
  assert (frameSerializer_ s1 = Some fs) as Hfs1 by (by destruct s).
  assert (isClosed_ s1 = false) as Hc1 by (by destruct s).
  destruct ok; cbn [negb]; [|by apply returns_well_benign].
  eapply returns_well_after; [apply Hb|]. clearbody s1. clear Hb Hs Hc Hfs s.
  destruct frameType; try apply (closeWithError_returns_well _ s1 Hs1).
  - (* REQUEST_RESPONSE *)
    destruct (deserializeFrameOrError_cases deserializeFrom_REQUEST_RESPONSE
                payload s1 fs Hs1 Hfs1)
      as [(frame & _ & ->)|(s' & -> & Hs' & Hset)]; cbn [mbind option_bind];
      [|by exists s'].
    unfold createResponder. apply returns_well_benign; [done|].
    eapply benign_trans; [by apply addStream_benign|apply call_benign].
  - (* REQUEST_FNF *)
    destruct (deserializeFrameOrError_cases deserializeFrom_REQUEST_FNF
                payload s1 fs Hs1 Hfs1)
      as [(frame & _ & ->)|(s' & -> & Hs' & Hset)]; cbn [mbind option_bind];
      [|by exists s'].
    apply returns_well_benign; [done|apply call_benign].
  - (* REQUEST_STREAM *)
    destruct (deserializeFrameOrError_cases deserializeFrom_REQUEST_STREAM
                payload s1 fs Hs1 Hfs1)
      as [(frame & _ & ->)|(s' & -> & Hs' & Hset)]; cbn [mbind option_bind];
      [|by exists s'].
    unfold createResponder. apply returns_well_benign; [done|].
    eapply benign_trans; [by apply addStream_benign|apply call_benign].
  - (* REQUEST_CHANNEL *)
    destruct (deserializeFrameOrError_cases deserializeFrom_REQUEST_CHANNEL
                payload s1 fs Hs1 Hfs1)
      as [(frame & _ & ->)|(s' & -> & Hs' & Hset)]; cbn [mbind option_bind];
      [|by exists s'].
    unfold createResponder. apply returns_well_benign; [done|].
    eapply benign_trans; [by apply addStream_benign|].
    eapply benign_trans; apply call_benign.
Qed.

Lemma handleStreamFrame_returns_well streamId frameType payload s fs :
  resume_on_transport s → isClosed_ s = false →
  frameSerializer_ s = Some fs →
  returns_well s (handleStreamFrame streamId frameType payload s).
Proof.
  intros Hs Hc Hfs. unfold handleStreamFrame.
  destruct (streams_ s !! streamId) as [sm|];
    [|by apply (handleUnknownStream_returns_well _ _ _ _ fs)].
  destruct frameType; try apply (closeWithError_returns_well _ s Hs);
    try (by apply returns_well_refl).
  - (* REQUEST_N *)
    destruct (deserializeFrameOrError_cases deserializeFrom_REQUEST_N
                payload s fs Hs Hfs)
      as [(frame & _ & ->)|(s' & -> & Hs' & Hset)]; cbn [mbind option_bind];
      [|by exists s'].
    apply returns_well_benign; [done|apply call_benign].
  - (* CANCEL *)
    apply returns_well_benign; [done|apply call_benign].
  - (* PAYLOAD *)
    destruct (deserializeFrameOrError_cases deserializeFrom_PAYLOAD
                payload s fs Hs Hfs)
      as [(frame & _ & ->)|(s' & -> & Hs' & Hset)]; cbn [mbind option_bind];
      [|by exists s'].
    apply returns_well_benign; [done|apply call_benign].
  - (* ERROR *)
    destruct (deserializeFrameOrError_cases deserializeFrom_ERROR
                payload s fs Hs Hfs)
      as [(frame & _ & ->)|(s' & -> & Hs' & Hset)]; cbn [mbind option_bind];
      [|by exists s'].
    apply returns_well_benign; [done|apply call_benign].
Qed.

Lemma closeWithError_no_serializer (m : string) s :
  frameSerializer_ s = None →
  closeWithError (Frame_ERROR_connectionError m) s =
    Some (close (Some (runtime_error m)) SIG_ERROR s).
Proof.
  intros Hfs. rewrite closeWithError_connectionError. unfold error_output.
  by rewrite Hfs.
Qed.

Lemma processFrameImpl_returns_early frame s :
  isClosed_ s = true → processFrameImpl frame s = Some s.
Proof. intros Hc. unfold processFrameImpl, isClosed. by rewrite Hc. Qed.

Lemma processFrameImpl_no_stream_id frame s fs :
  isClosed_ s = false → frameSerializer_ s = Some fs →
  peekStreamId fs frame = None →
  processFrameImpl frame s =
    closeWithError (Frame_ERROR_connectionError "Cannot decode stream ID")
      (call (Stats_frameRead (peekFrameType fs frame)) s).
Proof.
  intros Hc Hfs Hid.
  unfold processFrameImpl, ensureOrAutodetectFrameSerializer, isClosed.
  rewrite Hc, Hfs. cbn [non_null negb]. proj_simpl.
  rewrite Hfs. cbn [mbind option_bind]. rewrite Hid. done.
Qed.

Lemma processFrameImpl_returns_well frame s :
  resume_on_transport s → returns_well s (processFrameImpl frame s).
Proof.
  intros Hs. destruct (isClosed_ s) eqn:Hc.
  - rewrite processFrameImpl_returns_early by done.
    by apply returns_well_refl.
  - assert (∀ fs s1,
              benign s s1 → frameSerializer_ s1 = Some fs →
              returns_well s (processFrameImpl frame s1)) as Hgo.
    { intros fs s1 Hb Hfs1.
      assert (resume_on_transport s1) as Hs1
        by (by eapply benign_resume_on_transport).
      assert (isClosed_ s1 = false) as Hc1
        by (destruct Hb as [-> _]; done).
      eapply returns_well_after; [apply Hb|].
      destruct (peekStreamId fs frame) as [streamId|] eqn:Hid.
      - rewrite (processFrameImpl_dispatch _ _ fs streamId) by done.
        assert (benign s1 (received fs frame streamId s1)) as Hb1
          by (by repeat split).
        assert (resume_on_transport (received fs frame streamId s1)) as Hr
          by (by eapply benign_resume_on_transport).
        eapply returns_well_after; [apply Hb1|].
        destruct (streamId =? 0)%N.
        + apply (handleConnectionFrame_returns_well _ _ _ fs);
            [done|by destruct s1|by destruct s1].
        + destruct (non_null _).
          * by apply closeWithError_returns_well.
          * apply (handleStreamFrame_returns_well _ _ _ _ fs);
              [done|by destruct s1|by destruct s1].
      - rewrite (processFrameImpl_no_stream_id _ _ fs) by done.
        eapply returns_well_after; [apply call_benign|].
        apply closeWithError_returns_well.
        eapply benign_resume_on_transport; [done|apply call_benign]. }
    destruct (frameSerializer_ s) as [fs|] eqn:Hfs.
    + by apply (Hgo fs s (benign_refl s)).
    + destruct (decide (mode_ s = SERVER)) as [Hm|Hm].
      * destruct (createAutodetectedSerializer frame) as [ser|] eqn:Hdet.
        -- assert (processFrameImpl frame s
                   = processFrameImpl frame (set_frameSerializer_ (Some ser) s))
             as ->.
           { destruct s. proj_simpl. subst.
             unfold processFrameImpl, isClosed, ensureOrAutodetectFrameSerializer.
             proj_simpl. cbn [non_null negb bool_decide].
             rewrite bool_decide_eq_true_2 by done. by rewrite Hdet. }
           apply (Hgo ser); [|by destruct s].
           repeat split; try done. proj_simpl. by rewrite Hfs.
        -- unfold processFrameImpl, isClosed, ensureOrAutodetectFrameSerializer.
           rewrite Hc, Hfs, Hdet, Hm. cbn [non_null negb bool_decide].
           rewrite bool_decide_eq_true_2 by done. cbn [negb].
           by apply closeWithError_returns_well.
      * unfold processFrameImpl, isClosed, ensureOrAutodetectFrameSerializer.
        rewrite Hc, Hfs. cbn [non_null negb].
        rewrite bool_decide_eq_false_2 by done. cbn [negb].
        by apply closeWithError_returns_well.
Qed.

Lemma disconnect_returns_well ex s :
  resume_on_transport s → returns_well s (Some (disconnect ex s)).
Proof.
  intros Hs. destruct (frameTransport_ s) as [t|] eqn:Ht.
  - rewrite (disconnect_connected _ _ t) by done.
    eexists. split; [done|]. split; [|by repeat split].
    unfold resume_on_transport. proj_simpl. by intros [? ?].
  - rewrite disconnect_disconnected by done. by apply returns_well_refl.
Qed.

Lemma runTask_returns_well task s :
  resume_on_transport s → returns_well s (runTask task s).
Proof.
  intros Hs. destruct task as [frame|ex]; cbn [runTask].
  - by apply processFrameImpl_returns_well.
  - unfold onTerminalImpl. destruct (isResumable_ s).
    + by apply disconnect_returns_well.
    + by apply close_returns_well.
Qed.

Lemma runTask_closed task s :
  isClosed_ s = true → frameTransport_ s = None → runTask task s = Some s.
Proof.
  intros Hc Ht. destruct task as [frame|ex]; cbn [runTask].
  - by apply processFrameImpl_returns_early.
  - unfold onTerminalImpl. destruct (isResumable_ s).
    + by rewrite disconnect_disconnected.
    + by rewrite close_closed.
Qed.

(** X9.  Whatever the transport delivers, the state machine takes it.  From
    a state in which a resume is only in flight on a bound transport, every
    sequence of frames and terminal signals, run by the executor in order,
    is processed without a null dereference or failed CHECK, and the same
    holds of the state it leaves.  The peer cannot change the mode, the
    resumability, the keepalive timer or a serializer that was set; and
    once the state machine is closed and has let go of the transport,
    nothing the transport delivers changes it. *)
Theorem transport_signals_never_abort (executor : list Task) s :
  resume_on_transport s →
  ∃ s',
    runTasks executor s = Some s'
    ∧ resume_on_transport s'
    ∧ same_settings s s'
    ∧ (isClosed_ s = true → frameTransport_ s = None → s' = s).
Proof.
  revert s. induction executor as [|task executor IH]; intros s Hs.
  - exists s. split; [done|]. split; [done|].
    split; [apply same_settings_refl|done].
  - cbn [runTasks].
    destruct (runTask_returns_well task s Hs) as (s1 & Hrun & Hs1 & Hset1).
    rewrite Hrun. cbn [mbind option_bind].
    destruct (IH s1 Hs1) as (s' & -> & Hs' & Hset' & Hclosed').
    exists s'. split; [done|]. split; [done|].
    split; [by eapply same_settings_trans|].
    intros Hc Ht. rewrite (runTask_closed task s Hc Ht) in Hrun.
    simplify_eq. by apply Hclosed'.
Qed.

(** *** KEEPALIVE *)

Lemma handleConnectionFrame_keepalive payload s fs frame :
  frameSerializer_ s = Some fs →
  deserializeFrom_KEEPALIVE fs (remoteResumeable_ s) payload = Some frame →
  handleConnectionFrame KEEPALIVE payload s =
    if bool_decide (mode_ s = SERVER) then
      if flag_set (ka_flags_ frame) FrameFlags_KEEPALIVE_RESPOND
      then outputFrameOrEnqueue (keepalive_reply fs frame s)
             (acknowledged frame s)
      else closeWithError
             (Frame_ERROR_connectionError "keepalive without flag")
             (acknowledged frame s)
    else
      if flag_set (ka_flags_ frame) FrameFlags_KEEPALIVE_RESPOND
      then closeWithError
             (Frame_ERROR_connectionError
                "client received keepalive with respond flag")
             (acknowledged frame s)
      else if non_null (keepaliveTimer_ s)
      then Some (call Keepalive_keepaliveReceived (acknowledged frame s))
      else Some (acknowledged frame s).
Proof.
  intros Hfs Hd. unfold handleConnectionFrame.
  rewrite (deserializeFrameOrError_ok
             (λ fs, deserializeFrom_KEEPALIVE fs (remoteResumeable_ s))
             payload s fs frame Hfs Hd).
  cbn [mbind option_bind]. unfold sendKeepalive, keepalive_reply, acknowledged.
  destruct s; proj_simpl; subst. cbn [mbind option_bind]. done.
Qed.

(** X10.  A server answers a KEEPALIVE that has the RESPOND flag with a
    KEEPALIVE of its own: flags EMPTY, the data of the request, and the
    implied position of the resume manager, which has first dropped the
    frames up to the position the peer reported.  The answer takes the
    outbound path: it is written if a transport is bound and no resume is in
    flight, and queued otherwise.  The connection stays open. *)
Theorem keepalive_respond_echo payload s fs frame :
  frameSerializer_ s = Some fs → mode_ s = SERVER →
  deserializeFrom_KEEPALIVE fs (remoteResumeable_ s) payload = Some frame →
  flag_set (ka_flags_ frame) FrameFlags_KEEPALIVE_RESPOND = true →
  ∃ s',
    handleConnectionFrame KEEPALIVE payload s = Some s'
    ∧ isClosed_ s' = isClosed_ s
    ∧ streams_ s' = streams_ s
    ∧ frameTransport_ s' = frameTransport_ s
    ∧ match frameTransport_ s, resumeCallback_ s with
      | Some t, None =>
          events_ s' =
            events_ s
            ++ [Stats_frameWritten
                  (peekFrameType fs (keepalive_reply fs frame s));
                Transport_outputFrameOrEnqueue t (keepalive_reply fs frame s)]
          ∧ outputFrames_ s' = outputFrames_ s
      | _, _ =>
          events_ s' = events_ s
          ∧ outputFrames_ s' = outputFrames_ s ++ [keepalive_reply fs frame s]
      end.
Proof.
  intros Hfs Hmode Hd Hflag.
  rewrite (handleConnectionFrame_keepalive _ _ fs frame Hfs Hd), Hflag.
  rewrite bool_decide_eq_true_2 by done.
  destruct (frameTransport_ s) as [t|] eqn:Ht.
  - destruct (resumeCallback_ s) as [cb|] eqn:Hcb.
    + rewrite outputFrameOrEnqueue_enqueue
        by (right; destruct s; proj_simpl; by subst).
      eexists. split; [done|]. destruct s; proj_simpl; by subst.
    + rewrite (outputFrameOrEnqueue_send _ _ t),
        (outputFrame_connected _ _ fs t) by (by destruct s).
      eexists. split; [done|]. destruct s; proj_simpl; by subst.
  - rewrite outputFrameOrEnqueue_enqueue by (left; by destruct s).
    eexists. split; [done|]. destruct s; proj_simpl; by subst.
Qed.

(** X11.  A client that receives a KEEPALIVE: with the RESPOND flag it is a
    protocol violation, and the connection closes with the connection error
    "client received keepalive with respond flag"; without the flag the
    keepalive timer, if there is one, is told, and nothing is sent back.  In
    both cases the resume manager has dropped the frames up to the position
    the peer reported. *)
Theorem keepalive_at_client payload s fs frame :
  frameSerializer_ s = Some fs → mode_ s = CLIENT →
  deserializeFrom_KEEPALIVE fs (remoteResumeable_ s) payload = Some frame →
  if flag_set (ka_flags_ frame) FrameFlags_KEEPALIVE_RESPOND
  then
    handleConnectionFrame KEEPALIVE payload s =
      closeWithError
        (Frame_ERROR_connectionError
           "client received keepalive with respond flag")
        (acknowledged frame s)
    ∧ refused (handleConnectionFrame KEEPALIVE payload s) (acknowledged frame s)
  else
    ∃ s',
      handleConnectionFrame KEEPALIVE payload s = Some s'
      ∧ events_ s' =
          events_ s
          ++ (if non_null (keepaliveTimer_ s)
              then [Keepalive_keepaliveReceived] else [])
      ∧ resumeManager_ s' =
          resetUpToPosition (ka_position_ frame) (resumeManager_ s)
      ∧ outputFrames_ s' = outputFrames_ s
      ∧ isClosed_ s' = isClosed_ s
      ∧ streams_ s' = streams_ s
      ∧ frameTransport_ s' = frameTransport_ s.
Proof.
  intros Hfs Hmode Hd.
  rewrite (handleConnectionFrame_keepalive _ _ fs frame Hfs Hd).
  rewrite bool_decide_eq_false_2 by (rewrite Hmode; done).
  destruct (flag_set _ _).
  - split; [done|]. apply closeWithError_refused.
  - destruct (keepaliveTimer_ s) eqn:Htimer; cbn [non_null];
      (eexists; split; [done|]); destruct s; proj_simpl;
      by rewrite ?app_nil_r.
Qed.

(** *** ERROR on stream 0 *)

Lemma sent_frames_ended (t : FrameTransport) signal order :
  sent_frames t (ended signal order) = [].
Proof. by induction order. Qed.

Lemma filter_onResumeError_ended signal order :
  List.filter is_onResumeError (ended signal order) = [].
Proof. by induction order. Qed.

Lemma sent_frames_closing (t : FrameTransport) signal ex s :
  sent_frames t (transport_closed_events signal ex s) = [].
Proof.
  unfold transport_closed_events, transport_close_event.
  destruct (frameTransport_ s); [|done].
  by destruct (keepaliveTimer_ s), (decide _).
Qed.

Lemma filter_onResumeError_closing signal ex s :
  List.filter is_onResumeError (transport_closed_events signal ex s) = [].
Proof.
  unfold transport_closed_events, transport_close_event.
  destruct (frameTransport_ s); [|done].
  by destruct (keepaliveTimer_ s), (decide _).
Qed.

(** X12.  An ERROR frame on stream 0 ends the connection: the state machine
    closes with signal ERROR, closes the transport with [close()] and sends
    nothing back.  A resume that was in flight fails exactly once: with a
    [ResumptionException] if the code of the frame is CONNECTION_ERROR or
    REJECTED_RESUME, and with the [ConnectionException] of [close]
    otherwise. *)
Theorem error_frame_closes_connection payload s fs frame :
  frameSerializer_ s = Some fs → isClosed_ s = false →
  deserializeFrom_ERROR fs payload = Some frame →
  ∃ s' es,
    handleConnectionFrame ERROR payload s = Some s'
    ∧ events_ s' = events_ s ++ es
    ∧ isClosed_ s' = true
    ∧ frameTransport_ s' = None
    ∧ streams_ s' = ∅
    ∧ resumeCallback_ s' = None
    ∧ Stats_socketClosed SIG_ERROR ∈ es
    ∧ (∀ t : FrameTransport, sent_frames t es = [])
    ∧ (∀ t : FrameTransport, frameTransport_ s = Some t → Transport_close t ∈ es)
    ∧ (∀ cb, resumeCallback_ s = Some cb →
         ∃ text,
           List.filter is_onResumeError es =
             [Resume_onResumeError cb
                (if bool_decide (errorCode_ frame = EC_CONNECTION_ERROR)
                    || bool_decide (errorCode_ frame = EC_REJECTED_RESUME)
                 then ResumptionException text
                 else ConnectionException text)]).
Proof.
  intros Hfs Hc Hd. unfold handleConnectionFrame.
  rewrite (deserializeFrameOrError_ok deserializeFrom_ERROR
             payload s fs frame Hfs Hd).
  cbn [mbind option_bind].
  assert (∀ ex (s2 : State RM) (pre : list Event),
            isClosed_ s2 = false → events_ s2 = events_ s ++ pre →
            frameTransport_ s2 = frameTransport_ s →
            (∀ t : FrameTransport, sent_frames t pre = []) →
            ∃ s' es,
              Some (close ex SIG_ERROR s2) = Some s'
              ∧ events_ s' = events_ s ++ es
              ∧ isClosed_ s' = true ∧ frameTransport_ s' = None
              ∧ streams_ s' = ∅ ∧ resumeCallback_ s' = None
              ∧ Stats_socketClosed SIG_ERROR ∈ es
              ∧ (∀ t : FrameTransport, sent_frames t es = [])
              ∧ (∀ t : FrameTransport,
                   frameTransport_ s = Some t → Transport_close t ∈ es)
              ∧ List.filter is_onResumeError es =
                  List.filter is_onResumeError pre
                  ++ List.filter is_onResumeError
                       (resumeError_events "RS closing" ex (resumeCallback_ s2)))
    as Hclose.
  { intros ex s2 pre Hc2 Hev2 Ht2 Hpre.
    destruct (close_normal_form ex SIG_ERROR s2 Hc2) as (order & _ & ->).
    eexists _, _. split; [done|]. proj_simpl. rewrite Hev2.
    split; [by rewrite <- app_assoc|]. repeat split.
    - set_solver.
    - intros t. rewrite !sent_frames_app, Hpre, sent_frames_ended,
        sent_frames_closing.
      by destruct (resumeCallback_ s2), (connectionEvents_ s2).
    - intros t Ht. unfold transport_closed_events, transport_close_event.
      rewrite Ht2, Ht. rewrite decide_False by done. set_solver.
    - rewrite !List.filter_app, filter_onResumeError_ended,
        filter_onResumeError_closing.
      cbn [List.filter is_onResumeError app].
      destruct (connectionEvents_ s2); cbn; by rewrite ?app_nil_r. }
  destruct (resumeCallback_ s) as [cb|] eqn:Hcb.
  - destruct (bool_decide (errorCode_ frame = EC_CONNECTION_ERROR)
              || bool_decide (errorCode_ frame = EC_REJECTED_RESUME)) eqn:Hcode.
    + destruct (moveDataToString (err_payload_ frame)) as [text payload_].
      destruct (Hclose (Some (runtime_error (moveDataToString payload_).1))
                  (set_resumeCallback_ None
                     (call (Resume_onResumeError cb (ResumptionException text))
                        s))
                  [Resume_onResumeError cb (ResumptionException text)])
        as (s' & es & Heq & Hev & ? & ? & ? & ? & ? & ? & ? & Hfilter);
        [done..|].
      exists s', es. repeat split; try done.
      intros cb' [= <-]. exists text. by rewrite Hfilter.
    + destruct (Hclose (Some (runtime_error
                                (moveDataToString (err_payload_ frame)).1))
                  s [])
        as (s' & es & Heq & Hev & ? & ? & ? & ? & ? & ? & ? & Hfilter);
        [done|by rewrite app_nil_r|done..|].
      exists s', es. repeat split; try done.
      intros cb' [= <-]. eexists. rewrite Hfilter, Hcb. done.
  - destruct (Hclose (Some (runtime_error
                              (moveDataToString (err_payload_ frame)).1))
                s [])
      as (s' & es & Heq & Hev & ? & ? & ? & ? & ? & ? & ? & Hfilter);
      [done|by rewrite app_nil_r|done..|].
    exists s', es. repeat split; try done.
Qed.

(** *** Frames of a known kind in the wrong place *)

(** X13.  A frame of a known kind that does not belong where it arrives is
    a protocol violation.  On stream 0 that is every kind but KEEPALIVE,
    METADATA_PUSH, RESUME_OK and ERROR (SETUP and RESUME among them: they
    are processed before the state machine exists); on a live stream it is
    every kind but REQUEST_N, CANCEL, PAYLOAD and ERROR.  The connection
    closes with the connection error "Unexpected <kind> frame for stream
    <id>". *)
Theorem unexpected_known_kind (frameType : FrameType) (payload : IOBuf)
  (streamId : StreamId) s :
  (frameType ∈ unexpected_on_connection →
   handleConnectionFrame frameType payload s =
     closeWithError
       (Frame_ERROR_connectionError
          ("Unexpected " ++ FrameType_show frameType
           ++ " frame for stream 0")%string) s
   ∧ refused (handleConnectionFrame frameType payload s) s)
  ∧ (frameType ∈ unexpected_on_stream →
     is_Some (streams_ s !! streamId) →
     handleStreamFrame streamId frameType payload s =
       closeWithError
         (Frame_ERROR_connectionError
            ("Unexpected " ++ FrameType_show frameType
             ++ " frame for stream " ++ pretty streamId)%string) s
     ∧ refused (handleStreamFrame streamId frameType payload s) s).
Proof.
  split.
  - intros Hin.
    assert (handleConnectionFrame frameType payload s =
              closeWithError
                (Frame_ERROR_connectionError
                   ("Unexpected " ++ FrameType_show frameType
                    ++ " frame for stream 0")%string) s) as Heq.
    { unfold unexpected_on_connection in Hin.
      repeat (apply elem_of_cons in Hin as [->|Hin]; [done|]).
      by apply elem_of_nil in Hin. }
    split; [exact Heq|]. rewrite Heq. apply closeWithError_refused.
  - intros Hin [sm Hsm].
    assert (handleStreamFrame streamId frameType payload s =
              closeWithError
                (Frame_ERROR_connectionError
                   ("Unexpected " ++ FrameType_show frameType
                    ++ " frame for stream " ++ pretty streamId)%string) s)
      as Heq.
    { unfold handleStreamFrame. rewrite Hsm.
      unfold unexpected_on_stream in Hin.
      repeat (apply elem_of_cons in Hin as [->|Hin]; [done|]).
      by apply elem_of_nil in Hin. }
    split; [exact Heq|]. rewrite Heq. apply closeWithError_refused.
Qed.

(** *** Frames for a live stream *)

(** X14.  On an open connection with no resume in flight, a frame for a
    stream that is in the map is counted by the statistics, tracked by the
    resume manager and handed to the automaton of that stream: REQUEST_N
    with its number, CANCEL, PAYLOAD with its payload and its COMPLETE and
    NEXT flags, ERROR as an exception.  When the automaton is called the
    stream is still in the map, nothing has been written and the connection
    is open; the call is the last thing the state machine does with the
    frame.  What the automaton does in the call is its own: a terminal
    signal makes it end its stream through [onStreamClosed]. *)
Theorem frame_reaches_live_stream (frame : IOBuf) (streamId : StreamId)
  s fs sm :
  isClosed_ s = false → frameSerializer_ s = Some fs →
  resumeCallback_ s = None →
  peekStreamId fs frame = Some streamId → streamId ≠ 0%N →
  streams_ s !! streamId = Some sm →
  ∀ delivery,
    match peekFrameType fs frame with
    | REQUEST_N =>
        ∃ f, deserializeFrom_REQUEST_N fs frame = Some f
             ∧ delivery = Stream_handleRequestN sm (rn_requestN_ f)
    | CANCEL => delivery = Stream_handleCancel sm
    | PAYLOAD =>
        ∃ f, deserializeFrom_PAYLOAD fs frame = Some f
             ∧ delivery =
                 Stream_handlePayload sm (pl_payload_ f)
                   (flag_set (pl_flags_ f) FrameFlags_COMPLETE)
                   (flag_set (pl_flags_ f) FrameFlags_NEXT)
    | ERROR =>
        ∃ f, deserializeFrom_ERROR fs frame = Some f
             ∧ delivery =
                 Stream_handleError sm
                   (runtime_error (moveDataToString (err_payload_ f)).1)
    | _ => False
    end →
    processFrameImpl frame s =
      Some (call delivery (received fs frame streamId s))
    ∧ events_ (received fs frame streamId s) =
        events_ s ++ [Stats_frameRead (peekFrameType fs frame)]
    ∧ resumeManager_ (received fs frame streamId s) =
        trackReceivedFrame frame (peekFrameType fs frame) streamId
          (resumeManager_ s)
    ∧ streams_ (received fs frame streamId s) !! streamId = Some sm
    ∧ outputFrames_ (received fs frame streamId s) = outputFrames_ s
    ∧ frameTransport_ (received fs frame streamId s) = frameTransport_ s
    ∧ isClosed_ (received fs frame streamId s) = false.
Proof.
  intros Hc Hfs Hcb Hid Hne Hsm delivery Hkind.
  rewrite (processFrameImpl_dispatch _ _ fs streamId Hc Hfs Hid).
  apply N.eqb_neq in Hne. rewrite Hne, Hcb. cbn [non_null].
  assert (frameSerializer_ (received fs frame streamId s) = Some fs) as Hfs'
    by (by destruct s).
  split.
  - unfold handleStreamFrame.
    assert (streams_ (received fs frame streamId s) !! streamId = Some sm)
      as -> by (by destruct s).
    destruct (peekFrameType fs frame); try done.
    + destruct Hkind as (f & Hd & ->).
      by rewrite (deserializeFrameOrError_ok deserializeFrom_REQUEST_N
                    frame _ fs f Hfs' Hd).
    + by subst.
    + destruct Hkind as (f & Hd & ->).
      by rewrite (deserializeFrameOrError_ok deserializeFrom_PAYLOAD
                    frame _ fs f Hfs' Hd).
    + destruct Hkind as (f & Hd & ->).
      by rewrite (deserializeFrameOrError_ok deserializeFrom_ERROR
                    frame _ fs f Hfs' Hd).
  - destruct s; proj_simpl. unfold received. by proj_simpl.
Qed.

(** *** A fire-and-forget request *)

(** X15.  A REQUEST_FNF frame for a stream that is not in the map, whose
    stream id is accepted, is handed to the responder and leaves no trace in
    the streams map: no stream tracking is necessary. *)
Theorem fire_and_forget_is_not_tracked (streamId : StreamId)
  (payload : IOBuf) s fs f :
  frameSerializer_ s = Some fs →
  streams_ s !! streamId = None →
  (registered fs streamId s).1 = true →
  deserializeFrom_REQUEST_FNF fs payload = Some f →
  handleStreamFrame streamId REQUEST_FNF payload s =
    Some (call (Responder_handleFireAndForget (rq_payload_ f) streamId)
            (registered fs streamId s).2)
  ∧ streams_ (registered fs streamId s).2 = streams_ s
  ∧ events_ (registered fs streamId s).2 = events_ s.
Proof.
  intros Hfs Hsm Hreg Hd. unfold handleStreamFrame. rewrite Hsm.
  unfold handleUnknownStream. rewrite Hfs. cbn [mbind option_bind].
  unfold registered in *.
  destruct (ProtocolVersion_gt _ _).
  - destruct (registerNewPeerStreamId _ _) as [ok factory]. cbn [fst snd] in *.
    subst ok. cbn [negb].
    rewrite (deserializeFrameOrError_ok deserializeFrom_REQUEST_FNF
               payload _ fs f) by (by destruct s). done.
  - cbn [negb fst snd].
    by rewrite (deserializeFrameOrError_ok deserializeFrom_REQUEST_FNF
                  payload _ fs f Hfs Hd).
Qed.

(** *** Frames that cannot be read *)

Lemma close_writes_nothing ex signal s (t : FrameTransport) :
  sent_frames t (events_ (close ex signal s)) = sent_frames t (events_ s).
Proof.
  destruct (isClosed_ s) eqn:Hc; [by rewrite close_closed|].
  destruct (close_normal_form ex signal s Hc) as (order & _ & ->).
  proj_simpl. rewrite !sent_frames_app, sent_frames_ended, sent_frames_closing.
  destruct (resumeCallback_ s), (connectionEvents_ s); cbn;
    by rewrite ?app_nil_r.
Qed.

Lemma teardown_writes_nothing (t : FrameTransport) es :
  Forall (λ e, is_teardown e = true) es → sent_frames t es = [].
Proof.
  induction 1 as [|e es He _ IH]; [done|]. by destruct e.
Qed.

(** X16.  A frame that arrives while the protocol version is not known (no
    serializer): a client cannot detect it, and a server may fail to detect
    it from the frame.  Then the connection closes with "Cannot detect
    protocol version"; only the calls of the teardown are made: no ERROR
    frame is written, for there is nothing to serialize it with, and the
    frame is neither counted nor tracked.  When a server does detect the
    version, the detected serializer is kept and the frame is processed
    with it. *)
Theorem frame_without_serializer (frame : IOBuf) s :
  resume_on_transport s → isClosed_ s = false →
  frameSerializer_ s = None →
  match (if bool_decide (mode_ s = SERVER)
         then createAutodetectedSerializer frame else None) with
  | None =>
      ∃ es,
        processFrameImpl frame s =
          Some (close (Some (runtime_error "Cannot detect protocol version"))
                  SIG_ERROR s)
        ∧ events_
            (close (Some (runtime_error "Cannot detect protocol version"))
               SIG_ERROR s) = events_ s ++ es
        ∧ Forall (λ e, is_teardown e = true) es
        ∧ ∀ t : FrameTransport, sent_frames t es = []
  | Some serializer =>
      processFrameImpl frame s =
        processFrameImpl frame (set_frameSerializer_ (Some serializer) s)
      ∧ ∃ s', processFrameImpl frame s = Some s'
              ∧ frameSerializer_ s' = Some serializer
  end.
Proof.
  intros Hs Hc Hfs.
  destruct (bool_decide (mode_ s = SERVER)) eqn:Hm.
  - apply bool_decide_eq_true in Hm.
    destruct (createAutodetectedSerializer frame) as [ser|] eqn:Hdet.
    + assert (processFrameImpl frame s =
                processFrameImpl frame (set_frameSerializer_ (Some ser) s))
        as Heq.
      { destruct s. proj_simpl. subst.
        unfold processFrameImpl, isClosed, ensureOrAutodetectFrameSerializer.
        proj_simpl. cbn [non_null negb bool_decide].
        rewrite bool_decide_eq_true_2 by done. by rewrite Hdet. }
      split; [exact Heq|]. rewrite Heq.
      destruct (processFrameImpl_returns_well frame
                  (set_frameSerializer_ (Some ser) s))
        as (s' & -> & _ & (_ & _ & _ & _ & Hkeep)).
      { eapply benign_resume_on_transport; [exact Hs|]. repeat split; try done.
        proj_simpl. by rewrite Hfs. }
      exists s'. split; [done|]. by apply Hkeep.
    + destruct (close_events_teardown
                  (Some (runtime_error "Cannot detect protocol version"))
                  SIG_ERROR s) as (es & Hev & Hes).
      exists es. split; [|split; [exact Hev|split; [exact Hes|]]].
      * unfold processFrameImpl, isClosed, ensureOrAutodetectFrameSerializer.
        rewrite Hc, Hfs, Hdet. cbn [non_null negb].
        rewrite bool_decide_eq_true_2 by done. cbn [negb].
        by apply closeWithError_no_serializer.
      * intros t. by apply teardown_writes_nothing.
  - destruct (close_events_teardown
                (Some (runtime_error "Cannot detect protocol version"))
                SIG_ERROR s) as (es & Hev & Hes).
    exists es. split; [|split; [exact Hev|split; [exact Hes|]]].
    + unfold processFrameImpl, isClosed, ensureOrAutodetectFrameSerializer.
      rewrite Hc, Hfs, Hm. cbn [non_null negb].
      by apply closeWithError_no_serializer.
    + intros t. by apply teardown_writes_nothing.
Qed.

(** X17.  A frame whose stream id cannot be decoded is counted by the
    statistics (its kind is peeked first) but not tracked by the resume
    manager, and the connection closes with the connection error "Cannot
    decode stream ID". *)
Theorem frame_without_stream_id (frame : IOBuf) s fs :
  isClosed_ s = false → frameSerializer_ s = Some fs →
  peekStreamId fs frame = None →
  processFrameImpl frame s =
    closeWithError (Frame_ERROR_connectionError "Cannot decode stream ID")
      (call (Stats_frameRead (peekFrameType fs frame)) s)
  ∧ resumeManager_ (call (Stats_frameRead (peekFrameType fs frame)) s)
    = resumeManager_ s
  ∧ refused (processFrameImpl frame s)
      (call (Stats_frameRead (peekFrameType fs frame)) s).
Proof.
  intros Hc Hfs Hid.
  rewrite (processFrameImpl_no_stream_id _ _ fs Hc Hfs Hid).
  split; [done|]. split; [done|]. apply closeWithError_refused.
Qed.

(** *** Streams come and go *)

(** X18.  [addStream] registers an automaton under a stream id that is not
    in the map, and keeps the automaton that is there if the id is taken
    ([emplace]); no other id is affected.  Ending a stream that was just
    added gives the automaton its signal and leaves the map as it was
    before. *)
Theorem addStream_then_endStream (streamId : StreamId)
  (sm : StreamStateMachineBase) signal s :
  streams_ (addStream streamId sm s) !! streamId
    = Some (default sm (streams_ s !! streamId))
  ∧ (∀ other, other ≠ streamId →
       streams_ (addStream streamId sm s) !! other = streams_ s !! other)
  ∧ (streams_ s !! streamId = None →
     streams_ (endStream streamId signal (addStream streamId sm s))
       = streams_ s
     ∧ events_ (endStream streamId signal (addStream streamId sm s))
       = events_ s ++ [Stream_endStream sm signal]
     ∧ resumeManager_ (endStream streamId signal (addStream streamId sm s))
       = onStreamClosed streamId (resumeManager_ s)).
Proof.
  unfold addStream. destruct (streams_ s !! streamId) as [old|] eqn:Hold.
  - split; [done|]. split; [done|]. done.
  - split; [proj_simpl; by rewrite lookup_insert_eq|].
    split; [intros other Hne; proj_simpl; by rewrite lookup_insert_ne|].
    intros _. unfold endStream.
    rewrite (endStreamInternal_live _ _ _ sm)
      by (proj_simpl; by rewrite lookup_insert_eq).
    proj_simpl. split; [|done].
    rewrite delete_insert_eq. by apply delete_id.
Qed.

(** *** An error on a resumable connection *)

(** X19.  [disconnectOrCloseWithError]: a resumable connection only
    disconnects over an error: no ERROR frame is written, the streams and
    the pending output are kept, and the state machine stays open; a
    connection that is not resumable closes with the error frame. *)
Theorem disconnectOrCloseWithError_keeps_resumable (errorFrame : Frame_ERROR)
  s d :
  data (err_payload_ errorFrame) = Some d →
  (isResumable_ s = true →
   disconnectOrCloseWithError errorFrame s =
     Some (disconnect (Some (runtime_error (String.string_of_list_byte d))) s)
   ∧ (∀ t : FrameTransport,
        sent_frames t
          (events_
             (disconnect
                (Some (runtime_error (String.string_of_list_byte d))) s))
        = sent_frames t (events_ s))
   ∧ streams_
       (disconnect (Some (runtime_error (String.string_of_list_byte d))) s)
     = streams_ s
   ∧ outputFrames_
       (disconnect (Some (runtime_error (String.string_of_list_byte d))) s)
     = outputFrames_ s
   ∧ isClosed_
       (disconnect (Some (runtime_error (String.string_of_list_byte d))) s)
     = isClosed_ s
   ∧ frameTransport_
       (disconnect (Some (runtime_error (String.string_of_list_byte d))) s)
     = None)
  ∧ (isResumable_ s = false →
     disconnectOrCloseWithError errorFrame s = closeWithError errorFrame s
     ∧ ∃ s', closeWithError errorFrame s = Some s' ∧ isClosed_ s' = true).
Proof.
  intros Hd. split; intros Hr; unfold disconnectOrCloseWithError; rewrite Hr.
  - rewrite Hd. cbn [mbind option_bind]. split; [done|].
    split; [intros t; apply disconnect_events_quiet|].
    destruct (frameTransport_ s) as [t|] eqn:Ht.
    + rewrite (disconnect_connected _ _ t) by done. by proj_simpl.
    + by rewrite disconnect_disconnected.
  - split; [done|]. rewrite (closeWithError_eq _ _ d Hd).
    eexists. split; [done|]. apply close_isClosed.
Qed.

(** *** Resuming as a server *)

Lemma connect_quiet_eq (t : FrameTransport) version s fs :
  frameTransport_ s = None →
  FrameTransport_isClosed t (events_ s) = false →
  serializer_agreed version s fs →
  connect (Some t) false version s =
    Some (true,
          set_frameSerializer_ (Some fs)
            (set_frameTransport_ (Some t)
               (set_events_
                  (events_ s ++ onConnected_events (connectionEvents_ s)
                   ++ [Transport_setFrameProcessor t]) s))).
Proof.
  intros Ht Hopen Hagreed.
  destruct s as [? ? ? ? ? ? ? ? ? tr ser ? ce ?]; simpl in Ht, Hopen; subst.
  unfold connect, isDisconnectedOrClosed. cbn [frameTransport_ non_null negb].
  cbn [mbind option_bind events_]. rewrite Hopen.
  destruct Hagreed as [[Hfs Hv]|(Hfs & Hv & Hcreate)]; simpl in Hfs; subst.
  - destruct (decide (version = ProtocolVersion_Unknown)) as [Hu|Hu].
    + destruct ce; state_compute.
    + cbn [frameSerializer_]. destruct Hv as [?|Hp]; [done|].
      rewrite decide_True by done. destruct ce; state_compute.
  - rewrite decide_False by done. cbn [frameSerializer_]. rewrite Hcreate.
    destruct ce; state_compute.
Qed.

(** X20.  [resumeServer] on a disconnected server with an open transport,
    when the serializer question is settled: the transport is bound without
    flushing anything, so that the first frame on it is RESUME_OK with the
    implied position; the cached frames from the server position follow, and
    then the pending output, each in order.  If the positions are not
    acceptable the result is false and the state machine is closed.  With a
    closed transport the call fails the CHECK of [connect]. *)
Theorem resumeServer_resumes_in_order (t : FrameTransport) version
  (serverPosition clientPosition : ResumePosition) s fs :
  frameTransport_ s = None → resumeCallback_ s = None →
  serializer_agreed version s fs →
  if FrameTransport_isClosed t (events_ s)
  then resumeServer (Some t) version serverPosition clientPosition s = None
  else if (bool_decide (clientPosition = kUnspecifiedResumePosition)
           || (clientPosition <=? impliedPosition (resumeManager_ s))%Z)
          && isPositionAvailable serverPosition (resumeManager_ s)
  then
    ∃ s',
      resumeServer (Some t) version serverPosition clientPosition s
      = Some (true, s')
      ∧ sent_frames t (events_ s') =
          sent_frames t (events_ s)
          ++ [serializeOut fs
                (F_RESUME_OK
                   {| ok_position_ := impliedPosition (resumeManager_ s) |})]
          ++ sendFramesFromPosition serverPosition (resumeManager_ s)
          ++ outputFrames_ s
      ∧ frameTransport_ s' = Some t
      ∧ outputFrames_ s' = []
      ∧ streams_ s' = streams_ s
      ∧ isClosed_ s' = isClosed_ s
  else
    ∃ s',
      resumeServer (Some t) version serverPosition clientPosition s
      = Some (false, s')
      ∧ isClosed_ s' = true.
Proof.
  intros Ht Hcb Hagreed. unfold resumeServer.
  destruct (FrameTransport_isClosed t (events_ s)) eqn:Hopen.
  { rewrite connect_checks; [done|]. right; right. by exists t. }
  rewrite (connect_quiet_eq t version s fs Ht Hopen Hagreed).
  cbn [mbind option_bind].
  match goal with
  | |- context [resumeFromPositionOrClose _ _ ?S1] =>
      pose proof (resumeFromPositionOrClose_spec serverPosition clientPosition
                    S1 fs t) as Hresume
  end.
  proj_simpl. specialize (Hresume eq_refl eq_refl Hcb).
  destruct ((bool_decide (clientPosition = kUnspecifiedResumePosition)
             || (clientPosition <=? impliedPosition (resumeManager_ s))%Z)
            && isPositionAvailable serverPosition (resumeManager_ s)).
  - destruct Hresume as (rm & es & -> & _ & Hsent).
    eexists. split; [done|]. proj_simpl. split; [|done].
    rewrite !sent_frames_app, Hsent.
    assert (sent_frames t (onConnected_events (connectionEvents_ s)) = [])
      as -> by (by destruct (connectionEvents_ s)).
    cbn. by rewrite app_nil_r.
  - destruct Hresume as (m & s' & -> & _ & Hc). by exists s'.
Qed.

(** *** The invariant of the connection *)

Lemma same_link_refl s : same_link s s.
Proof. done. Qed.

Lemma same_link_trans s1 s2 s3 :
  same_link s1 s2 → same_link s2 s3 → same_link s1 s3.
Proof. intros [? ?] [? ?]. split; congruence. Qed.

Lemma same_link_resume_on_transport s s' :
  resume_on_transport s → same_link s s' → resume_on_transport s'.
Proof.
  intros Hs [Ht Hcb]. unfold resume_on_transport. rewrite Hcb, Ht. exact Hs.
Qed.

Lemma benign_same_link s s' : benign s s' → same_link s s'.
Proof. by intros (_ & ? & ? & _). Qed.

Lemma outputFrameOrEnqueue_same_link frame s s' :
  outputFrameOrEnqueue frame s = Some s' → same_link s s'.
Proof.
  unfold outputFrameOrEnqueue, outputFrame, isDisconnectedOrClosed.
  intros Hout.
  destruct s as [? r ? ? ? ? ? ? cb t fs ? ? ?].
  destruct t, cb, fs, r; state_eval; by simplify_eq.
Qed.

Lemma outputFramesOrEnqueue_same_link frames s s' :
  outputFramesOrEnqueue frames s = Some s' → same_link s s'.
Proof.
  revert s. induction frames as [|frame frames IH]; intros s Hout.
  - cbn in Hout. by simplify_eq.
  - cbn [outputFramesOrEnqueue] in Hout.
    destruct (outputFrameOrEnqueue frame s) as [s1|] eqn:H1; [|done].
    cbn [mbind option_bind] in Hout.
    eapply same_link_trans;
      [by eapply outputFrameOrEnqueue_same_link|by apply IH].
Qed.

Lemma outputFrameOrEnqueue_Frame_same_link frame s s' :
  outputFrameOrEnqueue_Frame frame s = Some s' → same_link s s'.
Proof.
  unfold outputFrameOrEnqueue_Frame. destruct (frameSerializer_ s); [|done].
  apply outputFrameOrEnqueue_same_link.
Qed.

Lemma connect_cases (frameTransport : option FrameTransport)
  (pending : bool) version s ok s' :
  connect frameTransport pending version s = Some (ok, s') →
  (ok = true ∧ is_Some (frameTransport_ s'))
  ∨ (ok = false ∧ version ≠ ProtocolVersion_Unknown ∧ same_link s s').
Proof.
  intros Hc. unfold connect in Hc.
  destruct (negb (isDisconnectedOrClosed s)); [done|].
  destruct frameTransport as [t|]; [|done].
  cbn [mbind option_bind] in Hc.
  destruct (FrameTransport_isClosed t (events_ s)); [done|].
  assert (∀ s0,
            (if negb true then Some (false, s0)
             else
               let s := set_frameTransport_ (Some t) s0 in
               let s :=
                 match connectionEvents_ s with
                 | Some c => call (Events_onConnected c) s
                 | None => s
                 end in
               let s := call (Transport_setFrameProcessor t) s in
               if pending then
                 let '(outputFrames, s) := moveOutputPendingFrames s in
                 s ← outputFramesOrEnqueue outputFrames s;
                 let s := if non_null (keepaliveTimer_ s)
                          then call Keepalive_start s else s in
                 Some (true, s)
               else Some (true, s)) = Some (ok, s') →
            ok = true ∧ is_Some (frameTransport_ s')) as Hbound.
  { intros s0 Hs0. cbn [negb] in Hs0. cbv zeta in Hs0.
    destruct pending.
    - unfold moveOutputPendingFrames in Hs0.
      match type of Hs0 with
      | context [outputFramesOrEnqueue ?f ?s1] =>
          destruct (outputFramesOrEnqueue f s1) as [s2|] eqn:Hout; [|done];
          apply outputFramesOrEnqueue_same_link in Hout as [Ht _]
      end.
      cbn [mbind option_bind] in Hs0. simplify_eq. split; [done|].
      destruct (non_null _); proj_simpl; rewrite Ht;
        by destruct s0 as [? ? ? ? ? ? ? ? ? ? ? ? [] ?].
    - simplify_eq. split; [done|].
      by destruct s0 as [? ? ? ? ? ? ? ? ? ? ? ? [] ?]. }
  destruct (decide (version = ProtocolVersion_Unknown)) as [->|Hv].
  - left. by apply (Hbound s).
  - destruct (frameSerializer_ s) as [fs|].
    + destruct (decide (protocolVersion fs = version)).
      * left. by apply (Hbound s).
      * right. cbn in Hc. by simplify_eq.
    + destruct (createFrameSerializer version) as [fs|].
      * left. by apply (Hbound (set_frameSerializer_ (Some fs) s)).
      * right. cbn in Hc. by simplify_eq.
Qed.

Lemma connect_resume_on_transport (frameTransport : option FrameTransport)
  (pending : bool) version s ok s' :
  resume_on_transport s →
  connect frameTransport pending version s = Some (ok, s') →
  resume_on_transport s'.
Proof.
  intros Hs Hc. apply connect_cases in Hc as [[_ Ht]|(_ & _ & Hl)].
  - intros _. exact Ht.
  - by eapply same_link_resume_on_transport.
Qed.

Lemma reconnect_binds (newFrameTransport : option FrameTransport)
  (resumeCallback : option ClientResumeStatusCallback) s s' :
  reconnect newFrameTransport resumeCallback s = Some s' →
  is_Some (frameTransport_ s').
Proof.
  unfold reconnect. intros Hr.
  destruct (negb (non_null newFrameTransport)); [done|].
  destruct (negb (non_null resumeCallback)); [done|].
  destruct (non_null (resumeCallback_ s)); [done|].
  destruct (negb (isResumable_ s)); [done|].
  destruct (negb (bool_decide (mode_ s = CLIENT))); [done|].
  cbv zeta in Hr.
  destruct (connect newFrameTransport false ProtocolVersion_Unknown _)
    as [[ok s1]|] eqn:Hc; [|done].
  cbn in Hr. simplify_eq.
  by apply connect_cases in Hc as [[_ Ht]|(_ & ? & _)].
Qed.

Lemma bound_resume_on_transport s :
  is_Some (frameTransport_ s) → resume_on_transport s.
Proof. by intros Ht _. Qed.

Lemma resumeFromPosition_same_link position s s' :
  resumeFromPosition position s = Some s' → same_link s s'.
Proof.
  unfold resumeFromPosition. intros Hr. cbv zeta in Hr.
  assert (∀ (t : FrameTransport) frames s0,
            same_link s0
              (foldl (λ s frame, call (Transport_outputFrameOrEnqueue t frame) s)
                 s0 frames)) as Hfold.
  { intros t frames. induction frames as [|frame frames IH]; intros s0.
    - done.
    - cbn [foldl]. eapply same_link_trans; [|apply IH]. done. }
  set (s1 := match connectionEvents_ s with
             | Some c => call (Events_onStreamsResumed c) s
             | None => s
             end) in *.
  assert (same_link s s1) as H1
    by (subst s1; by destruct (connectionEvents_ s)).
  destruct (frameTransport_ s1) as [t|]; [|done].
  cbn [mbind option_bind] in Hr. unfold moveOutputPendingFrames in Hr.
  match type of Hr with
  | context [outputFramesOrEnqueue ?f ?s2] =>
      destruct (outputFramesOrEnqueue f s2) as [s3|] eqn:Hout; [|done];
      apply outputFramesOrEnqueue_same_link in Hout
  end.
  cbn [mbind option_bind] in Hr.
  eapply same_link_trans; [exact H1|].
  eapply same_link_trans; [apply (Hfold t)|].
  eapply same_link_trans; [|eapply same_link_trans; [exact Hout|]].
  - done.
  - destruct (_ && _); by simplify_eq.
Qed.

Lemma closeWithError_resume_on_transport (error : Frame_ERROR) s s' :
  resume_on_transport s → closeWithError error s = Some s' →
  resume_on_transport s'.
Proof.
  intros Hs Hc. unfold closeWithError in Hc. cbv zeta in Hc.
  destruct (data (err_payload_ error)) as [d|]; [|done].
  cbn [mbind option_bind] in Hc.
  match type of Hc with
  | context [mbind _ ?r] => destruct r as [s1|] eqn:Hout; [|done]
  end.
  cbn [mbind option_bind] in Hc. simplify_eq.
  assert (resume_on_transport s1) as Hs1.
  { destruct (non_null (frameSerializer_ s)); [|by simplify_eq].
    eapply same_link_resume_on_transport; [done|].
    by eapply outputFrameOrEnqueue_Frame_same_link. }
  match goal with
  | |- resume_on_transport (close ?ex ?sig _) =>
      destruct (close_returns_well ex sig s1 Hs1) as (? & ? & ? & _)
  end.
  by simplify_eq.
Qed.

Lemma resumeFromPositionOrClose_resume_on_transport
  (serverPosition clientPosition : ResumePosition) s ok s' :
  resume_on_transport s →
  resumeFromPositionOrClose serverPosition clientPosition s = Some (ok, s') →
  resume_on_transport s'.
Proof.
  intros Hs Hr. unfold resumeFromPositionOrClose in Hr. cbv zeta in Hr.
  destruct (_ && isPositionAvailable _ _).
  - destruct (frameTransport_ s) as [t|]; [|done].
    destruct (frameSerializer_ s) as [fs|]; [|done].
    cbn [mbind option_bind] in Hr.
    match type of Hr with
    | context [resumeFromPosition ?p ?s0] =>
        destruct (resumeFromPosition p s0) as [s1|] eqn:Hres; [|done];
        apply resumeFromPosition_same_link in Hres
    end.
    cbn [mbind option_bind] in Hr. simplify_eq.
    eapply same_link_resume_on_transport; [exact Hs|].
    eapply same_link_trans; [|exact Hres]. done.
  - match type of Hr with
    | context [closeWithError ?e ?s0] =>
        destruct (closeWithError e s0) as [s1|] eqn:Hclose; [|done];
        apply closeWithError_resume_on_transport in Hclose; [|done]
    end.
    cbn [mbind option_bind] in Hr. by simplify_eq.
Qed.

Lemma returns_well_resume_on_transport s r s' :
  returns_well s r → r = Some s' → resume_on_transport s'.
Proof. intros (? & -> & ? & _) ?. by simplify_eq. Qed.

Lemma endStream_same_link streamId signal s :
  same_link s (endStream streamId signal s).
Proof.
  unfold endStream, endStreamInternal. by destruct (streams_ s !! streamId).
Qed.

Section Calls.
Variable FrameFlags_RESUME_ENABLE : FrameFlags.
Variables Frame_SETUP_kMaxKeepaliveTime Frame_SETUP_kMaxLifetime : N.
Variable createCurrentVersion : option FrameSerializer.
Variable serializeOut_SETUP : FrameSerializer → Frame_SETUP → IOBuf.
Variable keepaliveTime : KeepaliveTimer → Z.

Lemma make_resume_on_transport (c : Call) s s' :
  resume_on_transport s →
  make FrameFlags_RESUME_ENABLE Frame_SETUP_kMaxKeepaliveTime
    Frame_SETUP_kMaxLifetime createCurrentVersion serializeOut_SETUP
    keepaliveTime c s = Some s' →
  resume_on_transport s'.
Proof.
  intros Hs Hm. destruct c; cbn [RSocketStateMachineNotions.make] in Hm.
  - unfold connectClientSendSetup, setFrameSerializer in Hm.
    destruct (if decide _ then _ else _) as [fs|]; [|done].
    cbn [mbind option_bind] in Hm. cbv zeta in Hm.
    destruct (frameSerializer_ _) as [fs'|]; [|done].
    cbn [mbind option_bind] in Hm.
    destruct (connect _ _ _ _) as [[ok s1]|] eqn:Hc; [|done].
    cbn in Hm. simplify_eq.
    eapply connect_resume_on_transport; [|exact Hc].
    eapply same_link_resume_on_transport; [exact Hs|done].
  - unfold connectServer in Hm.
    destruct (connect _ _ _ _) as [[ok s1]|] eqn:Hc; [|done].
    cbn in Hm. simplify_eq.
    eapply connect_resume_on_transport; [|exact Hc].
    eapply same_link_resume_on_transport; [exact Hs|done].
  - unfold resumeServer in Hm.
    destruct (connect _ _ _ _) as [[ok s1]|] eqn:Hc; [|done].
    cbn [mbind option_bind] in Hm.
    apply connect_resume_on_transport in Hc; [|done].
    destruct ok.
    + destruct (resumeFromPositionOrClose _ _ _) as [[ok s2]|] eqn:Hr; [|done].
      cbn in Hm. simplify_eq.
      by eapply resumeFromPositionOrClose_resume_on_transport.
    + cbn in Hm. by simplify_eq.
  - unfold tryClientResume in Hm.
    destruct (frameSerializer_ s) as [fs|]; [|done].
    cbn [mbind option_bind] in Hm.
    destruct frameTransport as [t|]; [|done].
    cbn [mbind option_bind] in Hm.
    eapply bound_resume_on_transport, reconnect_binds, Hm.
  - eapply bound_resume_on_transport, reconnect_binds, Hm.
  - by eapply returns_well_resume_on_transport;
      [apply disconnect_returns_well|].
  - by eapply returns_well_resume_on_transport; [apply close_returns_well|].
  - by eapply closeWithError_resume_on_transport.
  - unfold disconnectOrCloseWithError in Hm. destruct (isResumable_ s).
    + destruct (data _); [|done]. cbn [mbind option_bind] in Hm.
      by eapply returns_well_resume_on_transport;
        [apply disconnect_returns_well|].
    + by eapply closeWithError_resume_on_transport.
  - by eapply returns_well_resume_on_transport; [apply runTask_returns_well|].
  - simplify_eq. eapply same_link_resume_on_transport; [exact Hs|].
    unfold addStream. by destruct (streams_ s !! streamId).
  - simplify_eq. eapply same_link_resume_on_transport; [exact Hs|].
    apply endStream_same_link.
  - eapply same_link_resume_on_transport; [exact Hs|].
    unfold writeNewStream in Hm.
    destruct streamType; by eapply outputFrameOrEnqueue_Frame_same_link.
  - eapply same_link_resume_on_transport; [exact Hs|].
    by eapply outputFrameOrEnqueue_Frame_same_link.
  - eapply same_link_resume_on_transport; [exact Hs|].
    by eapply outputFrameOrEnqueue_Frame_same_link.
  - eapply same_link_resume_on_transport; [exact Hs|].
    unfold writeCloseStream in Hm.
    destruct signal; try done;
      by eapply outputFrameOrEnqueue_Frame_same_link.
  - simplify_eq. eapply same_link_resume_on_transport; [exact Hs|].
    apply endStream_same_link.
  - eapply same_link_resume_on_transport; [exact Hs|].
    unfold requestFireAndForget in Hm.
    destruct (getNextStreamId _) as [streamId factory].
    apply outputFrameOrEnqueue_Frame_same_link in Hm. exact Hm.
  - eapply same_link_resume_on_transport; [exact Hs|].
    by eapply outputFrameOrEnqueue_Frame_same_link.
  - eapply same_link_resume_on_transport; [exact Hs|].
    unfold sendKeepalive_data, sendKeepalive in Hm. cbv zeta in Hm.
    destruct (frameSerializer_ s); [|done].
    by eapply outputFrameOrEnqueue_same_link.
  - eapply same_link_resume_on_transport; [exact Hs|].
    by eapply outputFrameOrEnqueue_same_link.
  - simplify_eq. eapply same_link_resume_on_transport; [exact Hs|done].
  - destruct frameSerializer; [|done]. cbn in Hm. simplify_eq.
    eapply same_link_resume_on_transport; [exact Hs|done].
Qed.

(** X21.  A resume is only ever in flight on a bound transport.  A new state
    machine has no resume callback, and no member function -- connecting,
    resuming, disconnecting, closing, handling what the transport
    delivers, adding and ending streams, writing frames, changing the
    settings -- returns with a resume callback and no transport, in
    whatever order they are called. *)
Theorem resume_is_always_on_a_transport :
  (∀ mode (rm : RM) keepaliveTimer connectionEvents,
     resume_on_transport (init mode rm keepaliveTimer connectionEvents))
  ∧ (∀ (calls : list Call) s s',
       resume_on_transport s →
       makes FrameFlags_RESUME_ENABLE Frame_SETUP_kMaxKeepaliveTime
         Frame_SETUP_kMaxLifetime createCurrentVersion serializeOut_SETUP
         keepaliveTime calls s = Some s' →
       resume_on_transport s').
Proof.
  split.
  - intros mode rm keepaliveTimer connectionEvents [cb Hcb].
    discriminate Hcb.
  - intros calls. induction calls as [|c calls IH]; intros s s' Hs Hm.
    + cbn in Hm. by simplify_eq.
    + cbn [RSocketStateMachineNotions.makes] in Hm.
      destruct (make _ _ _ _ _ _ c s) as [s1|] eqn:Hc; [|done].
      cbn [mbind option_bind] in Hm.
      eapply IH; [|exact Hm]. by eapply make_resume_on_transport.
Qed.

End Calls.

End Properties.
(** ** The properties at work on concrete connections *)

Import Examples.

Lemma close_teardown_witness :
  isClosed_ (close None SIG_SOCKET_CLOSED serving_server) = true
  ∧ streams_ (close None SIG_SOCKET_CLOSED serving_server) = ∅
  ∧ frameTransport_ (close None SIG_SOCKET_CLOSED serving_server) = None.
Proof.
  destruct (close_teardown None SIG_SOCKET_CLOSED serving_server)
    as (order & _ & _ & Hc & Hst & Ht & _); [reflexivity|].
  exact (conj Hc (conj Hst Ht)).
Defined.

Lemma closeWithError_sends_then_closes_witness :
  ∃ s' : RS,
    closeWithError (Frame_ERROR_connectionError "bye") serving_server = Some s'
    ∧ isClosed_ s' = true ∧ frameTransport_ s' = None ∧ streams_ s' = ∅.
Proof.
  destruct (closeWithError_sends_then_closes
              (Frame_ERROR_connectionError "bye") serving_server
              (String.list_byte_of_string "bye") (simpleSerializer v1_0) 7)
    as (s' & order & Hs' & _ & _ & Hc & Ht & Hst);
    [reflexivity..|].
  exists s'. exact (conj Hs' (conj Hc (conj Ht Hst))).
Defined.

Lemma connect_flushes_pending_witness :
  (∃ s' : RS,
     connect (Some 9) true v1_0 disconnected_client = Some (true, s')
     ∧ frameTransport_ s' = Some 9
     ∧ outputFrames_ s' = []
     ∧ sent_frames 9 (events_ s') =
         sent_frames 9 (events_ disconnected_client)
         ++ outputFrames_ disconnected_client)
  ∧ connect (Some 7) true v1_0 disconnected_client = None
  ∧ connect (Some 9) true v1_0 connected_client = None.
Proof.
  destruct (connect_flushes_pending 9 v1_0 disconnected_client
              (simpleSerializer v1_0)) as (_ & _ & _ & Hopen).
  destruct (connect_flushes_pending 7 v1_0 disconnected_client
              (simpleSerializer v1_0)) as (_ & _ & Hclosed & _).
  destruct (connect_flushes_pending 9 v1_0 connected_client
              (simpleSerializer v1_0)) as (Hbound & _).
  split; [|split].
  - destruct Hopen as (s' & Hs' & Ht & _ & Hout & _ & Hsent & _);
      [reflexivity..| |].
    + left. split; [reflexivity|by right].
    + exists s'. exact (conj Hs' (conj Ht (conj Hout Hsent))).
  - exact (Hclosed eq_refl true v1_0).
  - exact (Hbound (ex_intro _ 7 eq_refl) (Some 9) true v1_0).
Defined.

Lemma connect_refuses_version_witness :
  connect (Some 9) true v0_0 disconnected_client =
    Some (false,
          call (Transport_closeWithError 9
                  (Some (runtime_error "Protocol version mismatch")))
            disconnected_client)
  ∧ connect (Some 7) true v0_0 disconnected_client = None.
Proof.
  pose proof (connect_refuses_version 9 true v0_0 disconnected_client
                eq_refl) as Hopen.
  lapply Hopen; [clear Hopen; intros Hopen|discriminate].
  lapply Hopen; [clear Hopen; intros Hopen|discriminate].
  pose proof (connect_refuses_version 7 true v0_0 disconnected_client
                eq_refl) as Hclosed.
  lapply Hclosed; [clear Hclosed; intros Hclosed|discriminate].
  lapply Hclosed; [clear Hclosed; intros Hclosed|discriminate].
  match type of Hopen with
  | if ?c then _ else _ => change c with false in Hopen
  end.
  match type of Hclosed with
  | if ?c then _ else _ => change c with true in Hclosed
  end.
  cbv beta iota in Hopen, Hclosed.
  exact (conj (proj1 Hopen) (proj1 Hclosed)).
Defined.

Lemma pending_output_survives_disconnect_witness :
  ∃ s1 s2 : RS,
    outputFramesOrEnqueue [payload_stream_1; request_n_stream_1]
      (disconnect None serving_server) = Some s1
    ∧ connect (Some 9) true ProtocolVersion_Unknown s1 = Some (true, s2)
    ∧ sent_frames 9 (events_ s2) =
        sent_frames 9 (events_ serving_server)
        ++ outputFrames_ serving_server
        ++ [payload_stream_1; request_n_stream_1]
    ∧ connect (Some 7) true ProtocolVersion_Unknown s1 = None.
Proof.
  destruct (pending_output_survives_disconnect
              [payload_stream_1; request_n_stream_1] None 9 serving_server
              (simpleSerializer v1_0))
    as (s1 & Hs1 & _ & Hclosed & Hopen);
    [reflexivity|discriminate|].
  destruct Hopen as (s2 & Hs2 & Hsent & _); [reflexivity|].
  exists s1, s2.
  exact (conj Hs1 (conj Hs2 (conj Hsent (Hclosed 7 true _ eq_refl)))).
Defined.

Lemma tryClientResume_sends_resume_only_witness :
  (∃ s' : RS,
     tryClientResume [] (Some 8) (Some 5) disconnected_client = Some s'
     ∧ resumeCallback_ s' = Some 5
     ∧ frameTransport_ s' = Some 8
     ∧ outputFrames_ s' = outputFrames_ disconnected_client)
  ∧ tryClientResume [] (Some 8) (Some 5) (disconnect None serving_server)
    = None
  ∧ tryClientResume [] (Some 7) (Some 5) connected_client = None.
Proof.
  split; [|split].
  - destruct (tryClientResume_sends_resume_only [] 8 5 disconnected_client
                (simpleSerializer v1_0)) as [Hclient _];
      [reflexivity|reflexivity|].
    destruct (Hclient eq_refl eq_refl)
      as (s' & Hs' & _ & _ & Hcb & Ht & _ & _ & Hout & _).
    exists s'. exact (conj Hs' (conj Hcb (conj Ht Hout))).
  - destruct (tryClientResume_sends_resume_only [] 8 5
                (disconnect None serving_server) (simpleSerializer v1_0))
      as (_ & Hserver & _); [reflexivity|reflexivity|].
    exact (Hserver eq_refl).
  - destruct (tryClientResume_sends_resume_only [] 7 5 connected_client
                (simpleSerializer v1_0))
      as (_ & _ & Hbound & _); [reflexivity|discriminate|].
    exact (Hbound eq_refl).
Defined.

Lemma connectClientSendSetup_setup_first_witness :
  ∃ s' : RS,
    connectClientSendSetup 128 2147483647 2147483647
      (Some (simpleSerializer v1_0)) simple_serializeOut_SETUP (λ _, 5000%Z)
      9 resumable_setup fresh_client = Some s'
    ∧ sent_frames 9 (events_ s') =
        sent_frames 9 (events_ fresh_client)
        ++ simple_serializeOut_SETUP (simpleSerializer v1_0)
             (setup_frame 128 2147483647 2147483647 (λ _, 5000%Z)
                resumable_setup (simpleSerializer v1_0) fresh_client)
           :: outputFrames_ fresh_client
    ∧ isResumable_ s' = true.
Proof.
  pose proof (connectClientSendSetup_setup_first 128 2147483647 2147483647
                (Some (simpleSerializer v1_0)) simple_serializeOut_SETUP
                (λ _, 5000%Z) 9 resumable_setup fresh_client
                eq_refl eq_refl) as Hw.
  match type of Hw with
  | match ?c with _ => _ end =>
      change c with (Some (simpleSerializer v1_0)) in Hw
  end.
  cbv beta iota in Hw.
  match type of Hw with
  | if ?c then _ else _ => change c with false in Hw
  end.
  cbv beta iota in Hw.
  destruct Hw as (s' & Hs' & _ & Hsent & _ & _ & Hr & _).
  exists s'. exact (conj Hs' (conj Hsent Hr)).
Defined.

Lemma connected_server_resume_on_transport :
  resume_on_transport connected_server.
Proof. intros [cb Hcb]. discriminate Hcb. Qed.

Lemma transport_signals_never_abort_witness :
  ∃ s' : RS,
    runTasks
      [Task_processFrameImpl request_stream_1;
       Task_processFrameImpl truncated_frame;
       Task_processFrameImpl payload_stream_1; Task_onTerminalImpl None]
      connected_server = Some s'
    ∧ resume_on_transport s'
    ∧ frameSerializer_ s' = Some (simpleSerializer v1_0).
Proof.
  destruct (transport_signals_never_abort
              [Task_processFrameImpl request_stream_1;
               Task_processFrameImpl truncated_frame;
               Task_processFrameImpl payload_stream_1;
               Task_onTerminalImpl None] connected_server
              connected_server_resume_on_transport)
    as (s' & Hs' & Hcons & (_ & _ & _ & _ & Hfs) & _).
  exists s'. exact (conj Hs' (conj Hcons (Hfs _ eq_refl))).
Defined.

Lemma keepalive_respond_echo_witness :
  ∃ s' : RS,
    handleConnectionFrame KEEPALIVE keepalive_respond connected_server
      = Some s'
    ∧ isClosed_ s' = isClosed_ connected_server
    ∧ frameTransport_ s' = frameTransport_ connected_server.
Proof.
  destruct (keepalive_respond_echo keepalive_respond connected_server
              (simpleSerializer v1_0)
              {| ka_flags_ := 128; ka_position_ := 0;
                 ka_data_ := [Byte.x2a] |})
    as (s' & Hs' & Hc & _ & Ht & _); [reflexivity..|].
  exists s'. exact (conj Hs' (conj Hc Ht)).
Defined.

Lemma keepalive_at_client_witness :
  refused (handleConnectionFrame KEEPALIVE keepalive_respond connected_client)
    (acknowledged
       {| ka_flags_ := 128; ka_position_ := 0; ka_data_ := [Byte.x2a] |}
       connected_client)
  ∧ ∃ s' : RS,
      handleConnectionFrame KEEPALIVE keepalive_no_respond connected_client
        = Some s'
      ∧ events_ s' = events_ connected_client ++ [Keepalive_keepaliveReceived].
Proof.
  split.
  - pose proof (keepalive_at_client keepalive_respond connected_client
                  (simpleSerializer v1_0)
                  {| ka_flags_ := 128; ka_position_ := 0;
                     ka_data_ := [Byte.x2a] |}
                  eq_refl eq_refl eq_refl) as Hw.
    match type of Hw with
    | if ?c then _ else _ => change c with true in Hw
    end.
    cbv beta iota in Hw. exact (proj2 Hw).
  - pose proof (keepalive_at_client keepalive_no_respond connected_client
                  (simpleSerializer v1_0)
                  {| ka_flags_ := 0; ka_position_ := 0; ka_data_ := [] |}
                  eq_refl eq_refl eq_refl) as Hw.
    match type of Hw with
    | if ?c then _ else _ => change c with false in Hw
    end.
    cbv beta iota in Hw.
    destruct Hw as (s' & Hs' & Hev & _).
    exists s'. exact (conj Hs' Hev).
Defined.

Lemma error_frame_closes_connection_witness :
  ∃ (s' : RS) (es : list Event),
    handleConnectionFrame ERROR error_stream_0 resuming_client = Some s'
    ∧ events_ s' = events_ resuming_client ++ es
    ∧ isClosed_ s' = true
    ∧ ∃ text,
        List.filter is_onResumeError es =
          [Resume_onResumeError 5 (ResumptionException text)].
Proof.
  destruct (error_frame_closes_connection error_stream_0 resuming_client
              (simpleSerializer v1_0)
              {| err_streamId_ := 0; errorCode_ := EC_CONNECTION_ERROR;
                 err_payload_ :=
                   payload_of_bytes (String.list_byte_of_string "bye") |})
    as (s' & es & Hs' & Hev & Hc & _ & _ & _ & _ & _ & _ & Hcb);
    [reflexivity..|].
  exists s', es. split; [exact Hs'|]. split; [exact Hev|].
  split; [exact Hc|]. exact (Hcb 5 eq_refl).
Defined.

Lemma unexpected_known_kind_witness :
  refused (handleConnectionFrame SETUP setup_stream_0 serving_server)
    serving_server
  ∧ refused (handleStreamFrame 1 SETUP setup_stream_1 serving_server)
      serving_server.
Proof.
  destruct (unexpected_known_kind SETUP setup_stream_0 1 serving_server)
    as [Hconnection _].
  destruct (unexpected_known_kind SETUP setup_stream_1 1 serving_server)
    as [_ Hstream].
  split.
  - apply Hconnection. unfold unexpected_on_connection. repeat constructor.
  - apply Hstream.
    + unfold unexpected_on_stream. repeat constructor.
    + eexists. reflexivity.
Defined.

Lemma frame_reaches_live_stream_witness :
  processFrameImpl request_n_stream_1 serving_server =
    Some (call (Stream_handleRequestN
                  {| sm_kind := StreamResponder; sm_streamId := 1;
                     sm_initialRequestN := 3 |} 4)
            (received (simpleSerializer v1_0) request_n_stream_1 1
               serving_server)).
Proof.
  destruct (frame_reaches_live_stream request_n_stream_1 1 serving_server
              (simpleSerializer v1_0)
              {| sm_kind := StreamResponder; sm_streamId := 1;
                 sm_initialRequestN := 3 |}
              eq_refl eq_refl eq_refl eq_refl)
    with (delivery :=
            Stream_handleRequestN
              {| sm_kind := StreamResponder; sm_streamId := 1;
                 sm_initialRequestN := 3 |} 4)
    as [Hdelivered _].
  - discriminate.
  - reflexivity.
  - exists {| rn_streamId_ := 1; rn_requestN_ := 4 |}. split; reflexivity.
  - exact Hdelivered.
Defined.

Lemma fire_and_forget_is_not_tracked_witness :
  handleStreamFrame 7 REQUEST_FNF request_fnf_7 serving_server =
    Some (call (Responder_handleFireAndForget (payload_of_bytes [Byte.x2a]) 7)
            (registered (simpleSerializer v1_0) 7 serving_server).2)
  ∧ streams_ (registered (simpleSerializer v1_0) 7 serving_server).2
    = streams_ serving_server.
Proof.
  destruct (fire_and_forget_is_not_tracked 7 request_fnf_7 serving_server
              (simpleSerializer v1_0)
              {| rq_streamId_ := 7; rq_flags_ := 0; rq_requestN_ := 0;
                 rq_payload_ := payload_of_bytes [Byte.x2a] |})
    as (Hfnf & Hst & _); [reflexivity..|].
  exact (conj Hfnf Hst).
Defined.

Lemma unconnected_server_resume_on_transport :
  resume_on_transport unconnected_server.
Proof. intros [cb Hcb]. discriminate Hcb. Qed.

Lemma frame_without_serializer_witness :
  processFrameImpl [] unconnected_server =
    Some (close (Some (runtime_error "Cannot detect protocol version"))
            SIG_ERROR unconnected_server)
  ∧ ∃ s' : RS,
      processFrameImpl request_stream_1 unconnected_server = Some s'
      ∧ frameSerializer_ s' = Some (simpleSerializer v1_0).
Proof.
  split.
  - pose proof (frame_without_serializer [] unconnected_server
                  unconnected_server_resume_on_transport eq_refl eq_refl) as Hw.
    match type of Hw with
    | match ?c with _ => _ end =>
        change c with (@None FrameSerializer) in Hw
    end.
    cbv beta iota in Hw. destruct Hw as (es & Hclose & _). exact Hclose.
  - pose proof (frame_without_serializer request_stream_1 unconnected_server
                  unconnected_server_resume_on_transport eq_refl eq_refl) as Hw.
    match type of Hw with
    | match ?c with _ => _ end =>
        change c with (Some (simpleSerializer v1_0)) in Hw
    end.
    cbv beta iota in Hw. exact (proj2 Hw).
Defined.

Lemma frame_without_stream_id_witness :
  refused (processFrameImpl truncated_frame connected_server)
    (call (Stats_frameRead PAYLOAD) connected_server).
Proof.
  destruct (frame_without_stream_id truncated_frame connected_server
              (simpleSerializer v1_0)) as (_ & _ & Hrefused);
    [reflexivity..|].
  exact Hrefused.
Defined.

Lemma addStream_then_endStream_witness :
  streams_
    (endStream 9 SIG_CANCEL
       (addStream 9
          {| sm_kind := StreamResponder; sm_streamId := 9;
             sm_initialRequestN := 1 |} serving_server))
  = streams_ serving_server.
Proof.
  destruct (addStream_then_endStream 9
              {| sm_kind := StreamResponder; sm_streamId := 9;
                 sm_initialRequestN := 1 |} SIG_CANCEL serving_server)
    as (_ & _ & Hround).
  destruct (Hround eq_refl) as (Hst & _). exact Hst.
Defined.

Lemma disconnectOrCloseWithError_keeps_resumable_witness :
  disconnectOrCloseWithError (Frame_ERROR_connectionError "bye")
    resumable_serving_server
  = Some (disconnect (Some (runtime_error "bye")) resumable_serving_server)
  ∧ ∃ s' : RS,
      disconnectOrCloseWithError (Frame_ERROR_connectionError "bye")
        serving_server = Some s'
      ∧ isClosed_ s' = true.
Proof.
  destruct (disconnectOrCloseWithError_keeps_resumable
              (Frame_ERROR_connectionError "bye") resumable_serving_server
              (String.list_byte_of_string "bye") eq_refl)
    as [Hresumable _].
  destruct (disconnectOrCloseWithError_keeps_resumable
              (Frame_ERROR_connectionError "bye") serving_server
              (String.list_byte_of_string "bye") eq_refl)
    as [_ Hplain].
  split.
  - exact (proj1 (Hresumable eq_refl)).
  - destruct (Hplain eq_refl) as (Heq & s' & Hs' & Hc).
    exists s'. split; [|exact Hc]. exact (eq_trans Heq Hs').
Defined.

Lemma resumeServer_resumes_in_order_witness :
  (∃ s' : RS,
     resumeServer (Some 9) v1_0 0 (-1)
       (disconnect None resumable_serving_server) = Some (true, s')
     ∧ frameTransport_ s' = Some 9)
  ∧ resumeServer (Some 7) v1_0 0 (-1)
      (disconnect None resumable_serving_server) = None.
Proof.
  pose proof (resumeServer_resumes_in_order 9 v1_0 0 (-1)
                (disconnect None resumable_serving_server)
                (simpleSerializer v1_0) eq_refl eq_refl
                (or_introl (conj eq_refl (or_intror eq_refl)))) as Hw.
  pose proof (resumeServer_resumes_in_order 7 v1_0 0 (-1)
                (disconnect None resumable_serving_server)
                (simpleSerializer v1_0) eq_refl eq_refl
                (or_introl (conj eq_refl (or_intror eq_refl)))) as Hclosed.
  match type of Hw with
  | if ?c then _ else _ => change c with false in Hw
  end.
  cbv beta iota in Hw.
  match type of Hw with
  | if ?c then _ else _ => change c with true in Hw
  end.
  match type of Hclosed with
  | if ?c then _ else _ => change c with true in Hclosed
  end.
  cbv beta iota in Hw, Hclosed. destruct Hw as (s' & Hs' & _ & Ht & _).
  exact (conj (ex_intro _ s' (conj Hs' Ht)) Hclosed).
Defined.

Lemma resume_is_always_on_a_transport_witness :
  resume_on_transport fresh_client
  ∧ ∃ s' : RS,
      makes 128 2147483647 2147483647 (Some (simpleSerializer v1_0))
        simple_serializeOut_SETUP (λ _, 5000%Z)
        [Call_connectClientSendSetup 7 resumable_setup;
         Call_writeRequestN 1 4; Call_disconnect None;
         Call_tryClientResume [] (Some 8) (Some 5);
         Call_runTask (Task_processFrameImpl resume_ok_0);
         Call_close None SIG_SOCKET_CLOSED] fresh_client = Some s'
      ∧ resume_on_transport s'.
Proof.
  destruct (resume_is_always_on_a_transport 128 2147483647 2147483647
              (Some (simpleSerializer v1_0)) simple_serializeOut_SETUP
              (λ _, 5000%Z)) as [Hinit Hcalls].
  split; [apply Hinit|].
  destruct (makes 128 2147483647 2147483647 (Some (simpleSerializer v1_0))
              simple_serializeOut_SETUP (λ _, 5000%Z)
              [Call_connectClientSendSetup 7 resumable_setup;
               Call_writeRequestN 1 4; Call_disconnect None;
               Call_tryClientResume [] (Some 8) (Some 5);
               Call_runTask (Task_processFrameImpl resume_ok_0);
               Call_close None SIG_SOCKET_CLOSED] fresh_client)
    as [s'|] eqn:Hm.
  - exists s'. exact (conj eq_refl (Hcalls _ _ _ (Hinit _ _ _ _) Hm)).
  - discriminate Hm.
Defined.

End RSocketStateMachineProperties.

(** * Further properties of [ConnectionAutomaton] *)

Module ConnectionAutomatonProperties.
Import ConnectionAutomaton ConnectionAutomatonSpec ConnectionAutomatonNotions.
Import ConnectionAutomatonFacts.
Local Open Scope nat_scope.
Local Open Scope list_scope.

Section CAProperties.
Context `{Declarations} {RT RC : Type} `{ResumeTracker RT} `{ResumeCache RC}.
Variable codec : FrameCodec.
Implicit Types (s : State RT RC) (ex : exception_wrapper)
  (signal : StreamCompletionSignal).

Ltac ca_compute :=
  lazy -[app]; rewrite <- ?app_assoc, ?app_nil_r; reflexivity.

Ltac ca_proj :=
  cbn [call set_streamState_ set_onClosed_ set_resumeCallback_
       set_frameTransport_ set_events_ set_streams_ set_outputFrames_
       set_resumeTracker_ set_resumeCache_
       streamState_ isServer_ isResumable_ onClosed_ resumeListener_
       keepaliveTimer_ resumeCallback_ frameTransport_ events_
       streams_ outputFrames_ resumeTracker_ resumeCache_] in *.

(** *** Closing *)




(** *** Inbound frames *)

(** X23.  The earlier automaton tracks a frame before it looks at it: a
    frame whose stream id cannot be decoded is counted by the statistics and
    tracked by the resume tracker all the same (both sides stay in sync),
    and then the connection closes with an ERROR frame "invalid frame". *)
Theorem ca_invalid_frame_is_tracked (frame : IOBuf) s :
  FrameHeader_peekStreamId codec frame = None →
  processFrame codec frame s =
    closeWithError codec (Frame_ERROR_connectionError "invalid frame")
      (ca_received codec frame s)
  ∧ resumeTracker_ (streamState_ (ca_received codec frame s)) =
      rt_trackReceivedFrame frame (resumeTracker_ (streamState_ s))
  ∧ ∃ s',
      processFrame codec frame s = Some s'
      ∧ frameTransport_ s' = None
      ∧ streams_ (streamState_ s') = ∅
      ∧ resumeTracker_ (streamState_ s') =
          rt_trackReceivedFrame frame (resumeTracker_ (streamState_ s))
      ∧ Stats_frameRead (FrameHeader_peekType codec frame) ∈ events_ s'
      ∧ (∀ t, frameTransport_ s = Some t →
           Transport_outputFrameOrEnqueue t
             (ERROR_serializeOut codec
                (Frame_ERROR_connectionError "invalid frame"))
           ∈ events_ s').
Proof.
  intros Hid.
  assert (processFrame codec frame s =
            closeWithError codec (Frame_ERROR_connectionError "invalid frame")
              (ca_received codec frame s)) as Heq.
  { unfold processFrame. by rewrite Hid. }
  split; [exact Heq|]. split; [by destruct s as [[? ? ? ?] ? ? ? ? ? ? ? ?]|].
  rewrite Heq, ca_closeWithError_eq.
  destruct (ca_close_frame None SIG_ERROR
              (ca_output codec
                 (ERROR_serializeOut codec
                    (Frame_ERROR_connectionError "invalid frame"))
                 (ca_received codec frame s))) as (es & -> & _).
  eexists. split; [done|]. ca_proj. split; [done|]. split; [done|].
  unfold ca_output, ca_received.
  destruct s as [[? ? ? ?] ? ? ? ? ? ? [t|] ?]; ca_proj;
    (split; [done|]); (split; [set_solver|]); intros t' [= <-] || intros t' [=].
  set_solver.
Qed.

(** X25.  RESUME_OK at the earlier automaton.  The frame completes a
    resume only when a resume callback is pending on a resumable client and
    the resume cache has the acknowledged position: then [onResumeOk] fires
    and the callback is dropped; nothing is replayed and the connection is
    otherwise untouched.  With a callback pending in any other case the
    connection closes with the error "can not resume"; with no callback
    pending it closes with the unexpected-frame error. *)
Theorem ca_resume_ok (payload : IOBuf) s frame :
  FrameHeader_peekType codec payload = RESUME_OK →
  RESUME_OK_deserializeFrom codec payload = Some frame →
  match resumeCallback_ s with
  | Some cb =>
      if negb (isServer_ s) && isResumable_ s
         && rc_isPositionAvailable (ok_position_ frame)
              (resumeCache_ (streamState_ s))
      then
        onConnectionFrame codec payload s =
          Some (set_resumeCallback_ None (call (Resume_onResumeOk cb) s))
      else
        onConnectionFrame codec payload s =
          closeWithError codec (Frame_ERROR_connectionError "can not resume") s
        ∧ ∃ s', onConnectionFrame codec payload s = Some s'
                ∧ frameTransport_ s' = None
                ∧ streams_ (streamState_ s') = ∅
  | None =>
      onConnectionFrame codec payload s =
        closeWithError codec Frame_ERROR_unexpectedFrame s
      ∧ ∃ s', onConnectionFrame codec payload s = Some s'
              ∧ frameTransport_ s' = None
              ∧ streams_ (streamState_ s') = ∅
  end.
Proof.
  intros Hkind Hd. unfold onConnectionFrame. rewrite Hkind.
  unfold deserializeFrameOrError. rewrite Hd. cbn [mbind option_bind].
  destruct (resumeCallback_ s) as [cb|].
  - destruct (negb (isServer_ s) && isResumable_ s
              && rc_isPositionAvailable (ok_position_ frame)
                   (resumeCache_ (streamState_ s))); [done|].
    split; [done|].
    destruct (ca_closeWithError_closes codec
                (Frame_ERROR_connectionError "can not resume") s)
      as (s' & -> & ? & ? & _).
    by exists s'.
  - split; [done|].
    destruct (ca_closeWithError_closes codec Frame_ERROR_unexpectedFrame s)
      as (s' & -> & ? & ? & _).
    by exists s'.
Qed.

(** X26.  An ERROR frame on stream 0 does not end the earlier automaton.
    If a resume callback is pending and the code is CONNECTION_ERROR, the
    callback gets [onResumeError] and is dropped; in every other case
    nothing happens at all.  The transport stays bound, the streams stay in
    the map, and nothing is sent. *)
Theorem ca_error_frame_keeps_connection (payload : IOBuf) s frame :
  FrameHeader_peekType codec payload = ERROR →
  ERROR_deserializeFrom codec payload = Some frame →
  ∃ s',
    onConnectionFrame codec payload s = Some s'
    ∧ frameTransport_ s' = frameTransport_ s
    ∧ streamState_ s' = streamState_ s
    ∧ onClosed_ s' = onClosed_ s
    ∧ match resumeCallback_ s with
      | Some cb =>
          if bool_decide (errorCode_ frame = EC_CONNECTION_ERROR) then
            resumeCallback_ s' = None
            ∧ ∃ text,
                events_ s' =
                  events_ s ++ [Resume_onResumeError cb (runtime_error text)]
          else s' = s
      | None => s' = s
      end.
Proof.
  intros Hkind Hd. unfold onConnectionFrame. rewrite Hkind.
  unfold deserializeFrameOrError. rewrite Hd. cbn [mbind option_bind].
  destruct (resumeCallback_ s) as [cb|] eqn:Hcb.
  - destruct (bool_decide (errorCode_ frame = EC_CONNECTION_ERROR)).
    + eexists. split; [done|]. ca_proj. repeat split; try done. by eexists.
    + by exists s.
  - by exists s.
Qed.

(** X27.  A server answers a KEEPALIVE that has the RESPOND flag by sending
    the frame back with that flag cleared (the other flags, the position
    and the data are those of the request); the answer is written to the
    transport, or queued if there is none.  After the answer the resume
    cache drops the frames up to the position the peer reported.  The
    transport and the streams are as before. *)
Theorem ca_keepalive_respond_echo (payload : IOBuf) s frame :
  isServer_ s = true →
  FrameHeader_peekType codec payload = KEEPALIVE →
  KEEPALIVE_deserializeFrom codec payload = Some frame →
  flag_set (ka_flags_ frame) FrameFlags_KEEPALIVE_RESPOND = true →
  let reply :=
    KEEPALIVE_serializeOut codec
      {| ka_flags_ := N.ldiff (ka_flags_ frame) FrameFlags_KEEPALIVE_RESPOND;
         ka_position_ := ka_position_ frame;
         ka_data_ := ka_data_ frame |} in
  ∃ s',
    onConnectionFrame codec payload s = Some s'
    ∧ frameTransport_ s' = frameTransport_ s
    ∧ streams_ (streamState_ s') = streams_ (streamState_ s)
    ∧ match frameTransport_ s with
      | Some t =>
          events_ s' =
            events_ s
            ++ [Stats_frameWritten (FrameHeader_peekType codec reply);
                Transport_outputFrameOrEnqueue t reply]
          ∧ outputFrames_ (streamState_ s') = outputFrames_ (streamState_ s)
          ∧ resumeCache_ (streamState_ s') =
              rc_resetUpToPosition (ka_position_ frame)
                (rc_trackSentFrame reply (resumeCache_ (streamState_ s)))
      | None =>
          events_ s' = events_ s
          ∧ outputFrames_ (streamState_ s') =
              outputFrames_ (streamState_ s) ++ [reply]
          ∧ resumeCache_ (streamState_ s') =
              rc_resetUpToPosition (ka_position_ frame)
                (resumeCache_ (streamState_ s))
      end.
Proof.
  intros Hserver Hkind Hd Hflag reply. unfold onConnectionFrame.
  rewrite Hkind. unfold deserializeFrameOrError. rewrite Hd.
  cbn [mbind option_bind]. rewrite Hserver, Hflag.
  rewrite ca_outputFrameOrEnqueue_eq. cbn [mbind option_bind].
  eexists. split; [done|]. unfold ca_output. subst reply.
  destruct s as [[? ? ? ?] ? ? ? ? ? ? [t|] ?]; by ca_proj.
Qed.


(** *** Connecting *)

Lemma ca_outputFrames_eq frames s (t : FrameTransport) :
  frameTransport_ s = Some t →
  outputFrames codec frames s =
    Some (set_resumeCache_
            (ca_tracked frames (resumeCache_ (streamState_ s)))
            (set_events_ (events_ s ++ ca_written codec t frames) s)).
Proof.
  revert s. induction frames as [|frame frames IH]; intros s Ht.
  - destruct s as [[? ? ? ?] ? ? ? ? ? ? ? ?]. ca_compute.
  - cbn [outputFrames]. unfold outputFrame. ca_proj. rewrite Ht.
    cbn [mbind option_bind]. rewrite IH by (by destruct s).
    destruct s as [[? ? ? ?] ? ? ? ? ? ? ? ?]. ca_compute.
Qed.

Lemma ca_sent_frames_written (t : FrameTransport) frames :
  sent_frames t (ca_written codec t frames) = frames.
Proof.
  induction frames as [|frame frames IH]; [done|].
  cbn. rewrite decide_True by done. cbn. f_equal. exact IH.
Qed.

Lemma ca_connect_checks (frameTransport : option FrameTransport)
  (pulled : list Input) s :
  is_Some (frameTransport_ s) ∨ frameTransport = None
  ∨ (∃ t, frameTransport = Some t
          ∧ FrameTransport_isClosed t (events_ s) = true) →
  connect codec frameTransport pulled s = None.
Proof.
  unfold connect.
  intros [[t0 ->]|[->|(t & -> & Hclosed)]]; [done| |].
  - by destruct (non_null _).
  - destruct (non_null _); [done|]. cbn [mbind option_bind].
    by rewrite Hclosed.
Qed.

Lemma ca_connect_spec (t : FrameTransport) (pulled : list Input) s :
  frameTransport_ s = None →
  FrameTransport_isClosed t (events_ s) = false →
  match inputs codec pulled (ca_bound t s) with
  | None => connect codec (Some t) pulled s = None
  | Some s1 =>
      ∃ s', connect codec (Some t) pulled s = Some s'
            ∧ ca_connect_outcome codec s1 s'
  end.
Proof.
  intros Ht Hopen. unfold connect. rewrite Ht.
  cbn [non_null mbind option_bind]. rewrite Hopen. fold (ca_bound t s).
  destruct (inputs codec pulled (ca_bound t s)) as [s1|]; [|done].
  cbn [mbind option_bind]. unfold ca_connect_outcome.
  destruct (frameTransport_ s1) as [t1|] eqn:Ht1.
  - assert (frameTransport_ (set_outputFrames_ [] s1) = Some t1) as Ht1'
      by (by destruct s1).
    rewrite Ht1'. cbn [non_null].
    rewrite (ca_outputFrames_eq _ _ t1 Ht1'). cbn [mbind option_bind].
    eexists. split; [done|].
    destruct s1 as [[? out ? ?] ? ? ? ? ? ? ? es1]. ca_proj. subst.
    repeat split; try done.
    + by rewrite <- !app_assoc.
    + rewrite <- !app_assoc, !RSocketStateMachineFacts.sent_frames_app,
        ca_sent_frames_written.
      cbn. by rewrite app_nil_r.
  - assert (frameTransport_ (set_outputFrames_ [] s1) = None) as ->
      by (by destruct s1).
    cbn [non_null mbind option_bind]. eexists. split; [done|].
    by destruct s1 as [[? ? ? ?] ? ? ? ? ? ? ? ?].
Qed.

(** X28.  [connect] of the earlier automaton fails a CHECK when a
    transport is bound, when the transport handed in is null and when it is
    closed.  Otherwise it binds the transport and makes the automaton its
    frame processor; the transport may deliver frames and its end before
    [setFrameProcessor] returns, and the automaton handles them at once.
    If a transport is still bound after that, the queued output is written
    to it, frame by frame in the order it was queued, each frame counted
    and tracked by the resume cache, and then [onConnected] fires; if the
    transport is gone, the queued output is thrown away and [onConnected]
    does not fire.  The queue is left empty either way.  When nothing is
    delivered inside the call, the transport stays bound and the streams
    are not touched. *)
Theorem ca_connect_flushes_queue (t : FrameTransport) (pulled : list Input)
  s :
  (is_Some (frameTransport_ s) →
   ∀ frameTransport, connect codec frameTransport pulled s = None)
  ∧ connect codec None pulled s = None
  ∧ (FrameTransport_isClosed t (events_ s) = true →
     connect codec (Some t) pulled s = None)
  ∧ (frameTransport_ s = None →
     FrameTransport_isClosed t (events_ s) = false →
     match inputs codec pulled (ca_bound t s) with
     | None => connect codec (Some t) pulled s = None
     | Some s1 =>
         ∃ s', connect codec (Some t) pulled s = Some s'
               ∧ ca_connect_outcome codec s1 s'
     end
     ∧ ∃ s',
         connect codec (Some t) [] s = Some s'
         ∧ frameTransport_ s' = Some t
         ∧ events_ s' =
             events_ s ++ [Transport_setFrameProcessor t]
             ++ ca_written codec t (outputFrames_ (streamState_ s))
             ++ [Callback_onConnected; Stats_socketCreated]
         ∧ sent_frames t (events_ s') =
             sent_frames t (events_ s) ++ outputFrames_ (streamState_ s)
         ∧ outputFrames_ (streamState_ s') = []
         ∧ resumeCache_ (streamState_ s') =
             ca_tracked (outputFrames_ (streamState_ s))
               (resumeCache_ (streamState_ s))
         ∧ streams_ (streamState_ s') = streams_ (streamState_ s)).
Proof.
  split; [|split; [|split]].
  - intros Hbound ?. apply ca_connect_checks. by left.
  - apply ca_connect_checks. by right; left.
  - intros Hclosed. apply ca_connect_checks. right; right. by exists t.
  - intros Ht Hopen. split; [by apply ca_connect_spec|].
    destruct (ca_connect_spec t [] s Ht Hopen)
      as (s' & Hs' & Hout & Hst & Ht' & Hcb' & He & Hsent & Hrc).
    exists s'. split; [done|]. unfold ca_bound in *. ca_proj.
    rewrite RSocketStateMachineFacts.sent_frames_app in Hsent.
    cbn in Hsent. rewrite app_nil_r in Hsent.
    rewrite <- app_assoc in He. done.
Qed.

Lemma ca_disconnect_eq s :
  disconnect s =
    match frameTransport_ s with
    | Some t =>
        set_frameTransport_ None
          (set_resumeCallback_ None
             (set_events_
                (events_ s ++ ca_close_transport_events None s
                 ++ [Stats_socketDisconnected; Callback_onDisconnected]) s))
    | None => s
    end.
Proof.
  unfold disconnect, closeFrameTransport, ca_close_transport_events.
  destruct s as [[? ? ? ?] ? ? ? ? ? [cb|] [t|] ?]; ca_compute.
Qed.

Lemma ca_sent_frames_close_transport (t : FrameTransport) ex s :
  sent_frames t (ca_close_transport_events ex s) = [].
Proof.
  unfold ca_close_transport_events.
  by destruct (frameTransport_ s), (resumeCallback_ s).
Qed.

Lemma ca_disconnect_closes_transport s (t : FrameTransport) :
  frameTransport_ s = Some t →
  FrameTransport_isClosed t (events_ (disconnect s)) = true.
Proof.
  intros Ht. apply FrameTransport_isClosed_after_close.
  apply existsb_exists. exists (Transport_closeEx t None). split.
  - rewrite ca_disconnect_eq, Ht. ca_proj. unfold ca_close_transport_events.
    rewrite Ht. apply list_elem_of_In.
    destruct (resumeCallback_ s); set_solver.
  - cbn. by apply bool_decide_eq_true.
Qed.

(** X29.  [reconnect] of the earlier automaton fails a CHECK with a null
    transport or a null callback, on a server, on an automaton that is not
    resumable, and with a resume already in flight.  Otherwise it
    disconnects the old transport, keeps the resume callback and goes on as
    [connect] with the new transport: handed the transport it has just
    closed it fails the CHECK of [connect]; on an open transport it ends
    as [connect] does, whatever the transport delivers inside
    [setFrameProcessor].  When nothing is delivered there, the queued output
    is written to the new transport at once: the automaton does not wait
    for RESUME_OK with it, and the streams are kept. *)
Theorem ca_reconnect_flushes_at_once (t : FrameTransport)
  (cb : ClientResumeStatusCallback) (pulled : list Input) s :
  reconnect codec None (Some cb) pulled s = None
  ∧ reconnect codec (Some t) None pulled s = None
  ∧ if non_null (resumeCallback_ s) || negb (isResumable_ s) || isServer_ s
    then reconnect codec (Some t) (Some cb) pulled s = None
    else
      reconnect codec (Some t) (Some cb) pulled s =
        connect codec (Some t) pulled
          (set_resumeCallback_ (Some cb) (disconnect s))
      ∧ (frameTransport_ s = Some t →
         reconnect codec (Some t) (Some cb) pulled s = None)
      ∧ (FrameTransport_isClosed t (events_ (disconnect s)) = false →
         match inputs codec pulled
                 (ca_bound t (set_resumeCallback_ (Some cb) (disconnect s)))
         with
         | None => reconnect codec (Some t) (Some cb) pulled s = None
         | Some s1 =>
             ∃ s', reconnect codec (Some t) (Some cb) pulled s = Some s'
                   ∧ ca_connect_outcome codec s1 s'
         end
         ∧ ∃ s',
             reconnect codec (Some t) (Some cb) [] s = Some s'
             ∧ resumeCallback_ s' = Some cb
             ∧ frameTransport_ s' = Some t
             ∧ sent_frames t (events_ s') =
                 sent_frames t (events_ s) ++ outputFrames_ (streamState_ s)
             ∧ outputFrames_ (streamState_ s') = []
             ∧ streams_ (streamState_ s') = streams_ (streamState_ s)
             ∧ (∀ t0, frameTransport_ s = Some t0 →
                  Transport_closeEx t0 None ∈ events_ s')).
Proof.
  split; [done|]. split; [done|].
  assert (∀ pulled',
            non_null (resumeCallback_ s) || negb (isResumable_ s)
            || isServer_ s = false →
            reconnect codec (Some t) (Some cb) pulled' s =
              connect codec (Some t) pulled'
                (set_resumeCallback_ (Some cb) (disconnect s))) as Hre.
  { intros pulled' Hguard. unfold reconnect. cbn [non_null negb].
    destruct (resumeCallback_ s); [done|]. cbn [non_null orb] in *.
    destruct (isResumable_ s); [|done]. cbn [negb orb] in *.
    by destruct (isServer_ s). }
  destruct (non_null (resumeCallback_ s) || negb (isResumable_ s)
            || isServer_ s) eqn:Hguard.
  { unfold reconnect. cbn [non_null negb].
    destruct (resumeCallback_ s); [done|]. cbn [non_null orb] in *.
    destruct (isResumable_ s); [|done]. cbn [negb orb] in *.
    by destruct (isServer_ s). }
  assert (resumeCallback_ s = None) as Hcb.
  { destruct (resumeCallback_ s); [done|done]. }
  assert (frameTransport_ (set_resumeCallback_ (Some cb) (disconnect s))
          = None) as Hnone.
  { ca_proj. rewrite ca_disconnect_eq.
    destruct (frameTransport_ s) eqn:Ht; [done|exact Ht]. }
  split; [by apply Hre|]. split.
  - intros Ht. rewrite Hre by done. apply ca_connect_checks.
    right; right. exists t. split; [done|].
    rewrite <- (ca_disconnect_closes_transport s t Ht). by ca_proj.
  - intros Hopen.
    assert (FrameTransport_isClosed t
              (events_ (set_resumeCallback_ (Some cb) (disconnect s)))
            = false) as Hopen' by (by ca_proj).
    split.
    + rewrite Hre by done.
      by apply (ca_connect_spec t pulled _ Hnone Hopen').
    + rewrite Hre by done.
      destruct (ca_connect_spec t [] _ Hnone Hopen')
        as (s' & Hs' & Hout & Hst & Ht' & Hcb' & He & Hsent & Hrc).
      exists s'. split; [done|]. unfold ca_bound in *. ca_proj.
      rewrite RSocketStateMachineFacts.sent_frames_app in Hsent.
      cbn in Hsent. rewrite app_nil_r in Hsent.
      rewrite ca_disconnect_eq in *.
      destruct (frameTransport_ s) as [t0|] eqn:Ht; ca_proj.
      * repeat split; try done.
        -- rewrite Hsent, !RSocketStateMachineFacts.sent_frames_app,
             ca_sent_frames_close_transport.
           cbn. by rewrite !app_nil_r.
        -- intros ? [= <-]. rewrite He. unfold ca_close_transport_events.
           rewrite Ht, Hcb. set_solver.
      * by repeat split.
Qed.

(** *** The transport ends *)

Lemma ca_closeStreams_loop_order fuel signal s :
  size (streams_ (streamState_ s)) ≤ fuel →
  ∃ order,
    order ≡ₚ map_to_list (streams_ (streamState_ s))
    ∧ closeStreams_loop fuel signal s =
        set_streams_ ∅
          (set_events_
             (events_ s ++ ((λ it, Stream_endStream it.2 signal) <$> order))
             s).
Proof.
  revert s. induction fuel as [|fuel IH]; intros s Hsize.
  - assert (streams_ (streamState_ s) = ∅) as Hempty
      by (apply map_size_empty_iff; lia).
    exists []. rewrite Hempty, map_to_list_empty. split; [done|].
    destruct s as [[? ? ? ?] ? ? ? ? ? ? ? ?]. ca_proj. subst. ca_compute.
  - cbn [closeStreams_loop].
    destruct (map_to_list (streams_ (streamState_ s)))
      as [|[streamId sm] rest] eqn:Hlist.
    + exists []. split; [done|]. apply map_to_list_empty_iff in Hlist.
      destruct s as [[? ? ? ?] ? ? ? ? ? ? ? ?]. ca_proj. subst. ca_compute.
    + assert (streams_ (streamState_ s) !! streamId = Some sm) as Hlive.
      { apply elem_of_map_to_list. rewrite Hlist. left. }
      rewrite (ca_endStreamInternal_live _ _ _ _ Hlive). cbn [snd].
      destruct (IH (call (Stream_endStream sm signal)
                      (set_streams_
                         (delete streamId (streams_ (streamState_ s))) s)))
        as (order & Hperm & Heq).
      { ca_proj. rewrite map_size_delete, Hlive. lia. }
      exists ((streamId, sm) :: order). split.
      * rewrite <- Hlist. ca_proj. rewrite Hperm.
        by apply map_to_list_delete.
      * rewrite Heq. destruct s as [[? ? ? ?] ? ? ? ? ? ? ? ?]. ca_compute.
Qed.

Lemma ca_close_normal_form ex signal s :
  ∃ order,
    order ≡ₚ map_to_list (streams_ (streamState_ s))
    ∧ close ex signal s =
        set_onClosed_ false (set_frameTransport_ None
          (set_resumeCallback_
             (match frameTransport_ s with
              | Some _ => None
              | None => resumeCallback_ s
              end)
             (set_streams_ ∅
                (set_events_
                   (events_ s
                    ++ ((λ it, Stream_endStream it.2 signal) <$> order)
                    ++ ca_close_transport_events ex s
                    ++ ca_onClosed_events s) s)))).
Proof.
  unfold close, closeStreams.
  destruct (ca_closeStreams_loop_order
              (size (streams_ (streamState_ s))) signal s)
    as (order & Hperm & ->); [done|].
  exists order. split; [done|].
  unfold closeFrameTransport, ca_close_transport_events, ca_onClosed_events.
  destruct s as [[? ? ? ?] ? ? [|] ? ? [cb|] [t|] ?]; ca_compute.
Qed.

(** X30.  A terminal signal of the transport at the earlier automaton.  A
    resumable automaton only disconnects: the transport is closed (without
    the exception of the signal), [onDisconnected] fires, and the streams,
    the queued output and the [onClosed] callback are kept.  Any other
    automaton closes: every stream ends, exactly once, with the signal, the
    transport is closed with the exception, and [onClosed] fires if it was
    still there. *)
Theorem ca_onTerminal_disconnects_or_closes ex signal s :
  (isResumable_ s = true →
   onTerminal ex signal s = disconnect s
   ∧ frameTransport_ (onTerminal ex signal s) = None
   ∧ streamState_ (onTerminal ex signal s) = streamState_ s
   ∧ onClosed_ (onTerminal ex signal s) = onClosed_ s
   ∧ ∀ t : FrameTransport, frameTransport_ s = Some t →
       events_ (onTerminal ex signal s) =
         events_ s ++ ca_close_transport_events None s
         ++ [Stats_socketDisconnected; Callback_onDisconnected])
  ∧ (isResumable_ s = false →
     onTerminal ex signal s = close ex signal s
     ∧ frameTransport_ (onTerminal ex signal s) = None
     ∧ streams_ (streamState_ (onTerminal ex signal s)) = ∅
     ∧ onClosed_ (onTerminal ex signal s) = false
     ∧ ∃ order,
         order ≡ₚ map_to_list (streams_ (streamState_ s))
         ∧ events_ (onTerminal ex signal s) =
             events_ s ++ ((λ it, Stream_endStream it.2 signal) <$> order)
             ++ ca_close_transport_events ex s ++ ca_onClosed_events s).
Proof.
  split; intros Hr; unfold onTerminal; rewrite Hr.
  - split; [done|]. rewrite ca_disconnect_eq.
    destruct (frameTransport_ s) as [t|] eqn:Ht; ca_proj.
    + repeat split; try done.
    + repeat split; try done.
  - split; [done|].
    destruct (ca_close_normal_form ex signal s) as (order & Hperm & ->).
    ca_proj. repeat split; try done. by exists order.
Qed.

End CAProperties.
(** ** The properties at work on concrete automata *)

Import Examples.

Lemma ca_invalid_frame_is_tracked_witness :
  ∃ s' : CA,
    processFrame simpleCodec truncated_frame automaton_server = Some s'
    ∧ frameTransport_ s' = None
    ∧ resumeTracker_ (streamState_ s') =
        rt_trackReceivedFrame truncated_frame
          (resumeTracker_ (streamState_ automaton_server)).
Proof.
  destruct (ca_invalid_frame_is_tracked simpleCodec truncated_frame
              automaton_server eq_refl)
    as (_ & _ & s' & Hs' & Ht & _ & Hrt & _).
  exists s'. exact (conj Hs' (conj Ht Hrt)).
Defined.

Lemma ca_resume_ok_witness :
  onConnectionFrame simpleCodec resume_ok_0 automaton_client_resuming =
    Some (set_resumeCallback_ None
            (call (Resume_onResumeOk 5) automaton_client_resuming))
  ∧ ∃ s' : CA,
      onConnectionFrame simpleCodec resume_ok_0 automaton_server = Some s'
      ∧ frameTransport_ s' = None.
Proof.
  split.
  - pose proof (ca_resume_ok simpleCodec resume_ok_0
                  automaton_client_resuming {| ok_position_ := 0 |}
                  eq_refl eq_refl) as Hw.
    change (resumeCallback_ automaton_client_resuming) with (Some 5) in Hw.
    cbv beta iota in Hw.
    match type of Hw with
    | if ?c then _ else _ => change c with true in Hw
    end.
    cbv beta iota in Hw. exact Hw.
  - pose proof (ca_resume_ok simpleCodec resume_ok_0 automaton_server
                  {| ok_position_ := 0 |} eq_refl eq_refl) as Hw.
    change (resumeCallback_ automaton_server)
      with (@None ClientResumeStatusCallback) in Hw.
    cbv beta iota in Hw. destruct Hw as (_ & s' & Hs' & Ht & _).
    exists s'. exact (conj Hs' Ht).
Defined.

Lemma ca_error_frame_keeps_connection_witness :
  ∃ s' : CA,
    onConnectionFrame simpleCodec error_stream_0 automaton_client_resuming
      = Some s'
    ∧ frameTransport_ s' = frameTransport_ automaton_client_resuming
    ∧ streamState_ s' = streamState_ automaton_client_resuming.
Proof.
  destruct (ca_error_frame_keeps_connection simpleCodec error_stream_0
              automaton_client_resuming
              {| err_streamId_ := 0; errorCode_ := EC_CONNECTION_ERROR;
                 err_payload_ :=
                   payload_of_bytes (String.list_byte_of_string "bye") |}
              eq_refl eq_refl)
    as (s' & Hs' & Ht & Hst & _).
  exists s'. exact (conj Hs' (conj Ht Hst)).
Defined.

Lemma ca_keepalive_respond_echo_witness :
  ∃ s' : CA,
    onConnectionFrame simpleCodec keepalive_respond automaton_server = Some s'
    ∧ frameTransport_ s' = frameTransport_ automaton_server.
Proof.
  destruct (ca_keepalive_respond_echo simpleCodec keepalive_respond
              automaton_server
              {| ka_flags_ := 128; ka_position_ := 0;
                 ka_data_ := [Byte.x2a] |})
    as (s' & Hs' & Ht & _); [reflexivity..|].
  exists s'. exact (conj Hs' Ht).
Defined.

Lemma ca_connect_flushes_queue_witness :
  (∃ s' : CA,
     connect simpleCodec (Some 8) [] automaton_client_offline = Some s'
     ∧ frameTransport_ s' = Some 8
     ∧ sent_frames 8 (events_ s') = [request_n_stream_1]
     ∧ outputFrames_ (streamState_ s') = [])
  ∧ (∃ s' : CA,
       connect simpleCodec (Some 8) [Input_onTerminal None SIG_CONNECTION_END]
         automaton_client_offline = Some s'
       ∧ frameTransport_ s' = None
       ∧ outputFrames_ (streamState_ s') = []
       ∧ sent_frames 8 (events_ s') = [])
  ∧ connect simpleCodec (Some 7) [] automaton_client_offline = None.
Proof.
  destruct (ca_connect_flushes_queue simpleCodec 8 [] automaton_client_offline)
    as (_ & _ & _ & Hopen).
  destruct (ca_connect_flushes_queue simpleCodec 8
              [Input_onTerminal None SIG_CONNECTION_END]
              automaton_client_offline) as (_ & _ & _ & Hgone).
  destruct (ca_connect_flushes_queue simpleCodec 7 []
              automaton_client_offline) as (_ & _ & Hclosed & _).
  split; [|split].
  - destruct Hopen as (_ & s' & Hs' & Ht & _ & Hsent & Hout & _);
      [reflexivity|reflexivity|].
    exists s'. exact (conj Hs' (conj Ht (conj Hsent Hout))).
  - destruct Hgone as (Hgone & _); [reflexivity|reflexivity|].
    match type of Hgone with
    | match ?c with _ => _ end =>
        let r := eval vm_compute in c in change c with r in Hgone
    end.
    cbv beta iota in Hgone.
    destruct Hgone as (s' & Hs' & Hout & _ & Ht & _ & He & _).
    exists s'. split; [exact Hs'|]. split; [exact Ht|]. split; [exact Hout|].
    cbn in He. rewrite He. reflexivity.
  - exact (Hclosed eq_refl).
Defined.

Lemma ca_reconnect_flushes_at_once_witness :
  (∃ s' : CA,
     reconnect simpleCodec (Some 8) (Some 5) [] automaton_client_offline
     = Some s'
     ∧ resumeCallback_ s' = Some 5
     ∧ sent_frames 8 (events_ s') =
         sent_frames 8 (events_ automaton_client_offline)
         ++ outputFrames_ (streamState_ automaton_client_offline))
  ∧ reconnect simpleCodec (Some 7) (Some 5) [] automaton_client = None.
Proof.
  pose proof (ca_reconnect_flushes_at_once simpleCodec 8 5 []
                automaton_client_offline) as (_ & _ & Hw).
  pose proof (ca_reconnect_flushes_at_once simpleCodec 7 5 []
                automaton_client) as (_ & _ & Hsame).
  match type of Hw with
  | if ?c then _ else _ => change c with false in Hw
  end.
  match type of Hsame with
  | if ?c then _ else _ => change c with false in Hsame
  end.
  cbv beta iota in Hw, Hsame.
  destruct Hw as (_ & _ & Hw). destruct Hsame as (_ & Hsame & _).
  destruct (Hw eq_refl) as (_ & s' & Hs' & Hcb & _ & Hsent & _).
  exact (conj (ex_intro _ s' (conj Hs' (conj Hcb Hsent))) (Hsame eq_refl)).
Defined.

Lemma ca_onTerminal_disconnects_or_closes_witness :
  streamState_ (onTerminal None SIG_CONNECTION_END automaton_serving)
    = streamState_ automaton_serving
  ∧ streams_
      (streamState_
         (onTerminal None SIG_CONNECTION_END
            (setResumable false automaton_serving))) = ∅.
Proof.
  destruct (ca_onTerminal_disconnects_or_closes None SIG_CONNECTION_END
              automaton_serving) as [Hresumable _].
  destruct (ca_onTerminal_disconnects_or_closes None SIG_CONNECTION_END
              (setResumable false automaton_serving)) as [_ Hplain].
  destruct (Hresumable eq_refl) as (_ & _ & Hkept & _).
  destruct (Hplain eq_refl) as (_ & _ & Hgone & _).
  exact (conj Hkept Hgone).
Defined.

End ConnectionAutomatonProperties.
